(** * Olympic feature table: a shallow embedding of [process_olympic_data.py]

    The script reads one table of athlete appearances and derives one feature
    row per (Year, NOC, code) key.  The pandas operations it uses are written
    out below as list functions: a data frame is the list of its rows, in row
    order; a missing cell (NaN) is [None]; a Python dict is an association
    list in insertion order.

    Columns.  The script coerces [Year] with [errors='coerce'], tests [Medal]
    with [pd.notna] and fills the host column, so those three cells may be
    missing; [code] is cast with [astype(str)] and [NOC], [Event] and [Name]
    are used as they are read, so they are strings here.  Years are integers.

    Arithmetic.  The medal rates and the career mean are quotients the
    script takes in binary64 (Python's [float], numpy's [float64]).  The
    functions that divide are written once, over the cell [zero] and the
    quotient of two integers, and read twice: [process_data64] divides in
    binary64 as the script does; [process_data] keeps the exact quotients,
    which the statements on order and counting are about.

    Sorting.  [sorted(...)] on the year lists is CPython's [list.sort] on a
    list of fewer than 64 entries ([py_sorted]); it is exact there, missing
    years included. *)

From Stdlib Require Import List ZArith QArith String Bool Arith Lia Permutation Sorted.
From Stdlib Require OrderedTypeEx SpecFloat.
Import ListNotations.

Local Open Scope nat_scope.

(** ** Frames primitives *)

Section Frames.
Context {A : Type}.
Variable eq_dec : forall x y : A, {x = y} + {x <> y}.

Definition mem (x : A) (l : list A) : bool :=
  if in_dec eq_dec x l then true else false.

(** [Series.unique()]: the distinct values in order of first appearance
    (one entry for all the missing cells). *)
Fixpoint unique_from (seen l : list A) : list A :=
  match l with
  | [] => []
  | x :: t => if mem x seen then unique_from seen t
              else x :: unique_from (x :: seen) t
  end.

Definition unique (l : list A) : list A := unique_from [] l.

(** Sorting by insertion.  It stands for the sorts of pandas on group keys
    and on names, where the order is total and every method returns the same
    ascending list. *)
Variable ltb : A -> A -> bool.

Fixpoint insert (x : A) (l : list A) : list A :=
  match l with
  | [] => [x]
  | h :: t => if ltb h x then h :: insert x t else x :: h :: t
  end.

Fixpoint sorted (l : list A) : list A :=
  match l with
  | [] => []
  | x :: t => insert x (sorted t)
  end.

(** Python's [sorted(...)] on a list, as CPython's [list.sort] runs it on a
    list of fewer than 64 entries: [count_run] takes the longest run at the
    head of the list (entries none of which is [<] the one before it, or
    entries each [<] the one before it, which are then reversed), and
    [binarysort] inserts the remaining entries one by one at the place a
    binary search finds.  The comparisons are Python's [<] and nothing is
    assumed of them: a missing year compares false with everything and
    stays where these comparisons leave it. *)
Fixpoint run_ascending (prev : A) (l : list A) : list A * list A :=
  match l with
  | [] => ([], [])
  | x :: t => if ltb x prev then ([], l)
              else (x :: fst (run_ascending x t), snd (run_ascending x t))
  end.

Fixpoint run_descending (prev : A) (l : list A) : list A * list A :=
  match l with
  | [] => ([], [])
  | x :: t => if ltb x prev
              then (x :: fst (run_descending x t), snd (run_descending x t))
              else ([], l)
  end.

(** The run at the head of the list, in ascending order, and the rest. *)
Definition count_run (l : list A) : list A * list A :=
  match l with
  | [] => ([], [])
  | x :: t =>
      match t with
      | [] => ([x], [])
      | y :: _ =>
          if ltb y x
          then (rev (x :: fst (run_descending x t)), snd (run_descending x t))
          else (x :: fst (run_ascending x t), snd (run_ascending x t))
      end
  end.

(** The binary search of [binarysort] for the place of [pivot] in
    [pre[l:r]]; [fuel] bounds the number of halvings. *)
Fixpoint bsearch (fuel : nat) (pivot : A) (pre : list A) (l r : nat) : nat :=
  match fuel with
  | 0 => l
  | S fuel' =>
      if l <? r
      then let p := l + (r - l) / 2 in
           match nth_error pre p with
           | Some v => if ltb pivot v then bsearch fuel' pivot pre l p
                       else bsearch fuel' pivot pre (p + 1) r
           | None => l
           end
      else l
  end.

Definition binary_insert (pre : list A) (pivot : A) : list A :=
  let pos := bsearch (List.length pre) pivot pre 0 (List.length pre) in
  firstn pos pre ++ pivot :: skipn pos pre.

Definition binarysort (pre rest : list A) : list A := fold_left binary_insert rest pre.

Definition py_sorted (l : list A) : list A :=
  binarysort (fst (count_run l)) (snd (count_run l)).

(** No entry is less than the one before it: the list is one ascending run,
    which the sort returns as it is. *)
Fixpoint is_run (l : list A) : bool :=
  match l with
  | [] => true
  | x :: t => match t with
              | [] => true
              | y :: _ => negb (ltb y x) && is_run t
              end
  end.

(** [list.index]: [None] stands for the [ValueError]. *)
Variable eqb : A -> A -> bool.

Fixpoint index (x : A) (l : list A) : option nat :=
  match l with
  | [] => None
  | h :: t => if eqb h x then Some 0
              else match index x t with
                   | Some i => Some (S i)
                   | None => None
                   end
  end.
End Frames.

Definition count {A : Type} (p : A -> bool) (l : list A) : nat :=
  List.length (filter p l).

Definition sum (l : list nat) : nat := fold_right Nat.add 0 l.

(** ** Cells *)

(** [==] on the Year column: a missing year equals nothing. *)
Definition year_eqb (a b : option Z) : bool :=
  match a, b with
  | Some x, Some y => Z.eqb x y
  | _, _ => false
  end.

(** [<] on the Year column: false as soon as one side is missing. *)
Definition year_ltb (a b : option Z) : bool :=
  match a, b with
  | Some x, Some y => Z.ltb x y
  | _, _ => false
  end.

Definition year_dec : forall x y : option Z, {x = y} + {x <> y}.
Proof. decide equality; apply Z.eq_dec. Defined.

Definition pair_dec : forall x y : string * string, {x = y} + {x <> y}.
Proof. decide equality; apply string_dec. Defined.

Definition key_dec : forall x y : Z * string * string, {x = y} + {x <> y}.
Proof.
  decide equality; [apply string_dec |].
  decide equality; [apply string_dec | apply Z.eq_dec].
Defined.

Arguments year_dec : simpl never.
Arguments pair_dec : simpl never.
Arguments key_dec : simpl never.

(** [dropna]: the cells that are present. *)
Fixpoint present {A : Type} (l : list (option A)) : list A :=
  match l with
  | [] => []
  | Some x :: t => x :: present t
  | None :: t => present t
  end.

(** ** The input table *)

Record Appearance := mkAppearance {
  Year : option Z;        (* after [pd.to_numeric(errors='coerce')] *)
  NOC : string;
  code : string;          (* after [astype(str)] *)
  Event : string;
  Name : string;
  Medal : option string;
  host : Z                (* the host column after coercion, [fillna(0)], [astype(int)] *)
}.

Definition medal_is (m : string) (r : Appearance) : bool :=
  match Medal r with
  | Some s => String.eqb s m
  | None => false
  end.

(** [pd.notna(row['Medal']) and row['Medal'] != 'No medal'] *)
Definition has_medal (r : Appearance) : bool :=
  match Medal r with
  | Some s => negb (String.eqb s "No medal")
  | None => false
  end.

(** ** groupby *)

Definition key3 : Type := Z * string * string.
Definition key2 : Type := string * string.

Definition key3_ltb (a b : key3) : bool :=
  let '(y1, n1, c1) := a in
  let '(y2, n2, c2) := b in
  if Z.ltb y1 y2 then true
  else if Z.ltb y2 y1 then false
  else if String.ltb n1 n2 then true
  else if String.ltb n2 n1 then false
  else String.ltb c1 c2.

Definition key2_ltb (a b : key2) : bool :=
  let '(n1, c1) := a in
  let '(n2, c2) := b in
  if String.ltb n1 n2 then true
  else if String.ltb n2 n1 then false
  else String.ltb c1 c2.

(** The key of a row under [groupby(['Year', 'NOC', 'code'])]; a row whose
    Year is missing has none, and groupby leaves it out. *)
Definition row_key3 (r : Appearance) : option key3 :=
  match Year r with
  | Some y => Some (y, NOC r, code r)
  | None => None
  end.

Definition row_key2 (r : Appearance) : key2 := (NOC r, code r).

Definition in_group3 (k : key3) (r : Appearance) : bool :=
  match row_key3 r with
  | Some k' => if key_dec k' k then true else false
  | None => false
  end.

Definition in_group2 (k : key2) (r : Appearance) : bool :=
  if pair_dec (row_key2 r) k then true else false.

(** Group keys come out sorted ([sort=True]). *)
Definition group_keys3 (df : list Appearance) : list key3 :=
  sorted key3_ltb (unique key_dec (present (map row_key3 df))).

Definition group_keys2 (df : list Appearance) : list key2 :=
  sorted key2_ltb (unique pair_dec (map row_key2 df)).

Definition groupby3 (df : list Appearance) : list (key3 * list Appearance) :=
  map (fun k => (k, filter (in_group3 k) df)) (group_keys3 df).

Definition groupby2 (df : list Appearance) : list (key2 * list Appearance) :=
  map (fun k => (k, filter (in_group2 k) df)) (group_keys2 df).

Definition groupby_name (rows : list Appearance) : list (string * list Appearance) :=
  map (fun n => (n, filter (fun r => String.eqb (Name r) n) rows))
      (sorted String.ltb (unique string_dec (map Name rows))).

(** ** The per-group calculators *)

(** [medal_rank.get(m, 4)] *)
Definition medal_rank (m : option string) : nat :=
  match m with
  | Some s => if String.eqb s "Gold" then 1
              else if String.eqb s "Silver" then 2
              else if String.eqb s "Bronze" then 3
              else 4
  | None => 4
  end.

(** [min(..., default=d)] *)
Definition min_default (d : nat) (l : list nat) : nat :=
  match l with
  | [] => d
  | x :: t => fold_left Nat.min t x
  end.

Definition best_medals (rows : list Appearance) : list (string * nat) :=
  map (fun g => (fst g, min_default 4 (map (fun r => medal_rank (Medal r)) (snd g))))
      (groupby_name rows).

(** [min] and [max] of a Year column skip the missing cells and are missing
    when no cell is left. *)
Definition year_min (l : list (option Z)) : option Z :=
  match present l with
  | [] => None
  | x :: t => Some (fold_left Z.min t x)
  end.

Definition year_max (l : list (option Z)) : option Z :=
  match present l with
  | [] => None
  | x :: t => Some (fold_left Z.max t x)
  end.

Definition athlete_years (group : list Appearance)
  : list (string * (option Z * option Z)) :=
  map (fun g => (fst g, (year_min (map Year (snd g)), year_max (map Year (snd g)))))
      (groupby_name group).

(** [athlete_years['max'] - athlete_years['min']] *)
Definition career_lengths (group : list Appearance) : list (option Z) :=
  map (fun a => match snd (snd a), fst (snd a) with
                | Some mx, Some mn => Some (mx - mn)%Z
                | _, _ => None
                end)
      (athlete_years group).

Definition zsum (l : list Z) : Z := fold_right Z.add 0%Z l.

(** The calculators that divide, over the arithmetic of their result:
    the cell [zero] and the quotient of two integers. *)
Section Calculators.
Context {R : Type}.
Variable zero : R.
Variable quotient : Z -> Z -> R.

Definition historical_rates_with (group : list Appearance) : R * R * R :=
  let years := py_sorted year_ltb (unique year_dec (map Year group)) in
  if List.length years <? 2 then (zero, zero, zero)
  else
    let current_year := last years None in
    let historical_data := filter (fun r => year_ltb (Year r) current_year) group in
    let total_athletes := List.length (unique string_dec (map Name historical_data)) in
    if total_athletes =? 0 then (zero, zero, zero)
    else
      let best := best_medals historical_data in
      let gold := count (fun b => snd b =? 1) best in
      let silver := count (fun b => snd b =? 2) best in
      let bronze := count (fun b => snd b =? 3) best in
      (quotient (Z.of_nat gold) (Z.of_nat total_athletes),
       quotient (Z.of_nat silver) (Z.of_nat total_athletes),
       quotient (Z.of_nat bronze) (Z.of_nat total_athletes)).

(** [Series.mean()] of a series with at least one present cell: the sum of
    the cells by their number. *)
Definition mean_with (l : list (option Z)) : R :=
  quotient (zsum (present l)) (Z.of_nat (List.length (present l))).

Definition career_length_with (group : list Appearance) : R :=
  if List.length group =? 0 then zero
  else
    let lengths := career_lengths group in
    let valid_lengths :=
      filter (fun c => match c with Some d => Z.leb d 24 | None => false end) lengths in
    if year_eqb (year_min (map (fun a => fst (snd a)) (athlete_years group))) (Some 1896%Z)
    then zero
    else if 0 <? List.length valid_lengths then mean_with valid_lengths else zero.
End Calculators.

(** *** Exact quotients *)

Definition exact_quotient (a b : Z) : Q := (inject_Z a / inject_Z b)%Q.

(** [count / total] on counts. *)
Definition ratio (n d : nat) : Q :=
  (inject_Z (Z.of_nat n) / inject_Z (Z.of_nat d))%Q.

Definition mean (l : list (option Z)) : Q :=
  (inject_Z (zsum (present l)) / inject_Z (Z.of_nat (List.length (present l))))%Q.

Definition calculate_historical_rates (group : list Appearance) : Q * Q * Q :=
  historical_rates_with 0%Q exact_quotient group.

Definition calculate_career_length (group : list Appearance) : Q :=
  career_length_with 0%Q exact_quotient group.

(** *** binary64 quotients *)

(** A binary64 number: sign, mantissa and exponent of a finite one. *)
Definition float64 : Type := SpecFloat.spec_float.

(** The conversion of an integer, to the nearest, ties to even. *)
Definition float_of_Z (z : Z) : float64 := SpecFloat.binary_normalize 53 1024 z 0 false.

Definition div64 (x y : float64) : float64 := SpecFloat.SFdiv 53 1024 x y.

Definition add64 (x y : float64) : float64 := SpecFloat.SFadd 53 1024 x y.

Definition ltb64 (x y : float64) : bool := SpecFloat.SFltb x y.

(** [a / b] on two integers: both are converted, then divided. *)
Definition quotient64 (a b : Z) : float64 := div64 (float_of_Z a) (float_of_Z b).

Definition zero64 : float64 := SpecFloat.S754_zero false.

(** The rational a finite binary64 number stands for. *)
Definition Q_of_float64 (x : float64) : Q :=
  match x with
  | SpecFloat.S754_finite s m e =>
      let v := if s then Z.neg m else Z.pos m in
      if (0 <=? e)%Z then inject_Z (v * 2 ^ e)
      else (inject_Z v / inject_Z (2 ^ (- e)))%Q
  | _ => 0%Q
  end.

Definition calculate_historical_rates64 (group : list Appearance)
  : float64 * float64 * float64 :=
  historical_rates_with zero64 quotient64 group.

Definition calculate_career_length64 (group : list Appearance) : float64 :=
  career_length_with zero64 quotient64 group.

(** ** Basic counters *)

Record Stats := mkStats {
  s_time : Z;
  s_noc : string;
  s_code : string;
  s_participation : nat;   (* Name: count *)
  s_gold : nat;
  s_silver : nat;
  s_bronze : nat;
  s_events : nat           (* Event: nunique *)
}.

Definition basic_stats (df : list Appearance) : list Stats :=
  map (fun g =>
         let '(y, noc, c) := fst g in
         mkStats y noc c
                 (List.length (snd g))
                 (count (medal_is "Gold") (snd g))
                 (count (medal_is "Silver") (snd g))
                 (count (medal_is "Bronze") (snd g))
                 (List.length (unique string_dec (map Event (snd g)))))
      (groupby3 df).

(** [df.groupby('Year')['Name'].count()]: a series indexed by year. *)
Definition year_participation (df : list Appearance) : list (Z * nat) :=
  map (fun y => (y, count (fun r => year_eqb (Year r) (Some y)) df))
      (sorted Z.ltb (unique Z.eq_dec (present (map Year df)))).

(** [Series.map(series)]: missing when the index has no such year. *)
Fixpoint series_get (s : list (Z * nat)) (y : Z) : option nat :=
  match s with
  | [] => None
  | (y', n) :: t => if Z.eqb y' y then Some n else series_get t y
  end.

(** [groupby(['time', 'code'])[participation].transform('sum')] *)
Definition year_sport_sum (stats : list Stats) (s : Stats) : nat :=
  sum (map s_participation
           (filter (fun s' => Z.eqb (s_time s') (s_time s)
                              && String.eqb (s_code s') (s_code s)) stats)).

(** The keys of [host_dict]; [drop_duplicates] only removes repeated keys. *)
Definition host_dict (df : list Appearance) : list (option Z * string) :=
  map (fun r => (Year r, NOC r)) (filter (fun r => Z.eqb (host r) 1) df).

Definition is_host_of (hd : list (option Z * string)) (s : Stats) : nat :=
  if existsb (fun k => year_eqb (fst k) (Some (s_time s)) && String.eqb (snd k) (s_noc s)) hd
  then 1 else 0.

(** ** Lookback: star and rising athletes *)

(** [all_years = sorted(df['Year'].unique())] *)
Definition all_years (df : list Appearance) : list (option Z) :=
  py_sorted year_ltb (unique year_dec (map Year df)).

(** Keys of [athlete_medals_dict]: (NOC, code, Name, Year).  Two keys whose
    year is missing are never equal. *)
Definition medal_key : Type := string * string * string * option Z.

Definition medal_key_eqb (a b : medal_key) : bool :=
  String.eqb (fst (fst (fst a))) (fst (fst (fst b)))
  && String.eqb (snd (fst (fst a))) (snd (fst (fst b)))
  && String.eqb (snd (fst a)) (snd (fst b))
  && year_eqb (snd a) (snd b).

(** [d[key] = d.get(key, 0) + 1] *)
Fixpoint dict_incr (k : medal_key) (d : list (medal_key * nat)) : list (medal_key * nat) :=
  match d with
  | [] => [(k, 1)]
  | e :: t => if medal_key_eqb (fst e) k then (fst e, snd e + 1) :: t
              else e :: dict_incr k t
  end.

Definition athlete_medals_dict (df : list Appearance) : list (medal_key * nat) :=
  fold_left (fun d row =>
               if has_medal row
               then dict_incr (NOC row, code row, Name row, Year row) d
               else d)
            df [].

(** The inner dict [{last_year: _, prev_year: _}] of one athlete, as the
    pair of its two values; writing the entry of [athlete_year] writes every
    slot whose key equals it. *)
Definition set_slot (last_year prev_year athlete_year : option Z) (medal_count : nat)
           (c : nat * nat) : nat * nat :=
  (if year_eqb athlete_year last_year then medal_count else fst c,
   if year_eqb athlete_year prev_year then medal_count else snd c).

(** [if name not in athletes_medals: athletes_medals[name] = {last: 0, prev: 0}]
    followed by [athletes_medals[name][athlete_year] = medal_count]. *)
Fixpoint am_set (last_year prev_year athlete_year : option Z) (medal_count : nat)
         (name : string) (am : list (string * (nat * nat))) : list (string * (nat * nat)) :=
  match am with
  | [] => [(name, set_slot last_year prev_year athlete_year medal_count (0, 0))]
  | e :: t =>
      if String.eqb (fst e) name
      then (fst e, set_slot last_year prev_year athlete_year medal_count (snd e)) :: t
      else e :: am_set last_year prev_year athlete_year medal_count name t
  end.

Definition athletes_medals (d : list (medal_key * nat)) (noc c : string)
           (last_year prev_year : option Z) : list (string * (nat * nat)) :=
  fold_left (fun am e =>
               let athlete_noc := fst (fst (fst (fst e))) in
               let athlete_code := snd (fst (fst (fst e))) in
               let athlete_name := snd (fst (fst e)) in
               let athlete_year := snd (fst e) in
               if String.eqb athlete_noc noc && String.eqb athlete_code c
               then if year_eqb athlete_year last_year || year_eqb athlete_year prev_year
                    then am_set last_year prev_year athlete_year (snd e) athlete_name am
                    else am
               else am)
            d [].

Definition star_count (am : list (string * (nat * nat))) : nat :=
  count (fun a => (0 <? fst (snd a)) && (0 <? snd (snd a))) am.

Definition rising_count (am : list (string * (nat * nat))) : nat :=
  count (fun a => 2 <=? fst (snd a)) am.

(** The body of the [try] for one row of [stats]; [None] when it raises. *)
Definition lookback_row (years : list (option Z)) (d : list (medal_key * nat))
           (s : Stats) : option (nat * nat) :=
  match index year_eqb (Some (s_time s)) years with
  | None => None
  | Some year_idx =>
      if year_idx <? 2 then Some (0, 0)
      else
        let last_year := nth (year_idx - 1) years None in
        let prev_year := nth (year_idx - 2) years None in
        let am := athletes_medals d (s_noc s) (s_code s) last_year prev_year in
        Some (star_count am, rising_count am)
  end.

(** The loop over the rows of [stats], with its [except] branch; the state
    is the pair of lists [star_athletes], [rising_stars]. *)
Definition lookback_step (years : list (option Z)) (d : list (medal_key * nat))
           (acc : list nat * list nat) (s : Stats) : list nat * list nat :=
  match lookback_row years d s with
  | Some res => (fst acc ++ [fst res], snd acc ++ [snd res])
  | None => (fst acc ++ [0], snd acc ++ [0])
  end.

Definition lookback_loop (years : list (option Z)) (d : list (medal_key * nat))
           (stats : list Stats) : list nat * list nat :=
  fold_left (lookback_step years d) stats ([], []).

(** ** The stats frame with its added columns *)

Record Extended := mkExtended {
  e_stats : Stats;
  e_year_total : option nat;   (* [map(year_participation)] *)
  e_year_sport_total : nat;
  e_is_host : nat;
  e_star : nat;
  e_rising : nat
}.

Definition stats_table (df : list Appearance) : list Extended :=
  let stats := basic_stats df in
  let yp := year_participation df in
  let hd := host_dict df in
  let lb := lookback_loop (all_years df) (athlete_medals_dict df) stats in
  map (fun x => mkExtended (fst x)
                           (series_get yp (s_time (fst x)))
                           (year_sport_sum stats (fst x))
                           (is_host_of hd (fst x))
                           (fst (snd x)) (snd (snd x)))
      (combine stats (combine (fst lb) (snd lb))).

(** ** Merging *)

(** [left.merge(right, how='left')]: every left row, once per matching right
    row, or once with missing cells when none matches. *)
Definition merge_left {L R : Type} (on : L -> R -> bool)
           (left : list L) (right : list R) : list (L * option R) :=
  flat_map (fun l => match filter (on l) right with
                     | [] => [(l, None)]
                     | ms => map (fun r => (l, Some r)) ms
                     end)
           left.

(** The output row; [R] is the type of the cells of the rate and career
    columns. *)
Record FeatureOf (R : Type) := mkFeatureOf {
  time : Z;
  country_code : string;
  sport_category_code : string;
  is_host : nat;
  year_total_participation : nat;
  year_sport_total_participation : nat;
  year_country_sport_participation : nat;
  sport_event_count : nat;
  country_sport_gold_rate : R;
  country_sport_silver_rate : R;
  country_sport_bronze_rate : R;
  star_athlete_count : nat;
  rising_star_count : nat;
  avg_career_length : R;
  actual_gold_count : nat;
  actual_silver_count : nat;
  actual_bronze_count : nat
}.

Arguments mkFeatureOf {R}.
Arguments time {R}.
Arguments country_code {R}.
Arguments sport_category_code {R}.
Arguments is_host {R}.
Arguments year_total_participation {R}.
Arguments year_sport_total_participation {R}.
Arguments year_country_sport_participation {R}.
Arguments sport_event_count {R}.
Arguments country_sport_gold_rate {R}.
Arguments country_sport_silver_rate {R}.
Arguments country_sport_bronze_rate {R}.
Arguments star_athlete_count {R}.
Arguments rising_star_count {R}.
Arguments avg_career_length {R}.
Arguments actual_gold_count {R}.
Arguments actual_silver_count {R}.
Arguments actual_bronze_count {R}.

Definition fillna {A : Type} (d : A) (o : option A) : A :=
  match o with
  | Some x => x
  | None => d
  end.

Definition on_key2 {V : Type} (e : Extended) (r : key2 * V) : bool :=
  String.eqb (s_noc (e_stats e)) (fst (fst r))
  && String.eqb (s_code (e_stats e)) (snd (fst r)).

Section Output.
Context {R : Type}.
Variable zero : R.
Variable quotient : Z -> Z -> R.

Definition rates_table_with (df : list Appearance) : list (key2 * (R * R * R)) :=
  map (fun g => (fst g, historical_rates_with zero quotient (snd g))) (groupby2 df).

Definition career_table_with (df : list Appearance) : list (key2 * R) :=
  map (fun g => (fst g, career_length_with zero quotient (snd g))) (groupby2 df).

(** [fillna(0)[columns_order]] on one merged row. *)
Definition feature_of_with (m : Extended * option (key2 * (R * R * R)) * option (key2 * R))
  : FeatureOf R :=
  let e := fst (fst m) in
  let s := e_stats e in
  let rates := fillna (zero, zero, zero) (option_map snd (snd (fst m))) in
  mkFeatureOf (s_time s) (s_noc s) (s_code s)
              (e_is_host e)
              (fillna 0 (e_year_total e))
              (e_year_sport_total e)
              (s_participation s)
              (s_events s)
              (fst (fst rates)) (snd (fst rates)) (snd rates)
              (e_star e) (e_rising e)
              (fillna zero (option_map snd (snd m)))
              (s_gold s) (s_silver s) (s_bronze s).

Definition process_data_with (df : list Appearance) : list (FeatureOf R) :=
  let stats := stats_table df in
  let rates := rates_table_with df in
  let career := career_table_with df in
  let result := merge_left on_key2 stats rates in
  let result := merge_left (fun l r => on_key2 (fst l) r) result career in
  map feature_of_with result.
End Output.

(** The output with exact quotients. *)
Definition Feature : Type := FeatureOf Q.

Definition process_data (df : list Appearance) : list Feature :=
  process_data_with 0%Q exact_quotient df.

(** The output as the script computes it, with binary64 quotients. *)
Definition process_data64 (df : list Appearance) : list (FeatureOf float64) :=
  process_data_with zero64 quotient64 df.

(** ** The output row of one key, in closed form *)

Definition stat_of (df : list Appearance) (k : key3) : Stats :=
  let g := filter (in_group3 k) df in
  mkStats (fst (fst k)) (snd (fst k)) (snd k)
          (List.length g)
          (count (medal_is "Gold") g)
          (count (medal_is "Silver") g)
          (count (medal_is "Bronze") g)
          (List.length (unique string_dec (map Event g))).

(** What the loop appends for one row. *)
Definition lookback_result (years : list (option Z)) (d : list (medal_key * nat))
           (s : Stats) : nat * nat :=
  match lookback_row years d s with
  | Some res => res
  | None => (0, 0)
  end.

Definition extend (df : list Appearance) (s : Stats) : Extended :=
  let lb := lookback_result (all_years df) (athlete_medals_dict df) s in
  mkExtended s
             (series_get (year_participation df) (s_time s))
             (year_sport_sum (basic_stats df) s)
             (is_host_of (host_dict df) s)
             (fst lb) (snd lb).

(** The rows of the (NOC, code) group. *)
Definition group_of (df : list Appearance) (noc c : string) : list Appearance :=
  filter (in_group2 (noc, c)) df.

Definition row_of_with {R : Type} (zero : R) (quotient : Z -> Z -> R)
           (df : list Appearance) (k : key3) : FeatureOf R :=
  let s := stat_of df k in
  let k2 := (s_noc s, s_code s) in
  let g := group_of df (s_noc s) (s_code s) in
  feature_of_with zero (extend df s,
                        Some (k2, historical_rates_with zero quotient g),
                        Some (k2, career_length_with zero quotient g)).

Definition row_of (df : list Appearance) (k : key3) : Feature :=
  row_of_with 0%Q exact_quotient df k.

Definition row_of64 (df : list Appearance) (k : key3) : FeatureOf float64 :=
  row_of_with zero64 quotient64 df k.

Definition feature_key (f : Feature) : key3 :=
  (time f, country_code f, sport_category_code f).

(** ** The quantities the statements are about *)

Definition has_key (k : key3) (f : Feature) : bool :=
  if key_dec (feature_key f) k then true else false.

Definition year_present (r : Appearance) : bool :=
  match Year r with
  | Some _ => true
  | None => false
  end.

(** Output rows of one (year, sport code) pair. *)
Definition same_year_sport (f f' : Feature) : bool :=
  Z.eqb (time f') (time f)
  && String.eqb (sport_category_code f') (sport_category_code f).

Definition distinct_athletes (rows : list Appearance) : list string :=
  unique string_dec (map Name rows).

Definition rows_of_athlete (rows : list Appearance) (a : string) : list Appearance :=
  filter (fun r => String.eqb (Name r) a) rows.

(** The earliest year appearing in a group. *)
Definition earliest_year (g : list Appearance) : option Z := year_min (map Year g).

(** [max(year) - min(year)] over the rows of one athlete; none when no row
    of the athlete has a year. *)
Definition athlete_span (g : list Appearance) (a : string) : option Z :=
  match year_max (map Year (rows_of_athlete g a)),
        year_min (map Year (rows_of_athlete g a)) with
  | Some mx, Some mn => Some (mx - mn)%Z
  | _, _ => None
  end.

(** The spans of the athletes of a group that are at most 24 years. *)
Definition kept_spans (g : list Appearance) : list Z :=
  filter (fun d => Z.leb d 24) (present (map (athlete_span g) (distinct_athletes g))).

Definition mean_or_zero (l : list Z) : Q :=
  match l with
  | [] => 0%Q
  | _ => (inject_Z (zsum l) / inject_Z (Z.of_nat (List.length l)))%Q
  end.

(** The distinct years of a group. *)
Definition distinct_years (g : list Appearance) : list Z :=
  unique Z.eq_dec (present (map Year g)).

(** [m] is the greatest year appearing in the group. *)
Definition is_max_year (g : list Appearance) (m : Z) : Prop :=
  In (Some m) (map Year g) /\ forall y, In (Some y) (map Year g) -> (y <= m)%Z.

(** The rows of the group whose year is strictly below [m]. *)
Definition earlier_rows (g : list Appearance) (m : Z) : list Appearance :=
  filter (fun r => year_ltb (Year r) (Some m)) g.

(** Athlete [a] has a row with medal [m] among [rows]. *)
Definition won (m : string) (rows : list Appearance) (a : string) : bool :=
  existsb (medal_is m) (rows_of_athlete rows a).

(** The single best medal of an athlete: Gold first, then Silver, then
    Bronze. *)
Definition best_is_gold (rows : list Appearance) (a : string) : bool :=
  won "Gold" rows a.

Definition best_is_silver (rows : list Appearance) (a : string) : bool :=
  negb (won "Gold" rows a) && won "Silver" rows a.

Definition best_is_bronze (rows : list Appearance) (a : string) : bool :=
  negb (won "Gold" rows a) && negb (won "Silver" rows a) && won "Bronze" rows a.

(** What is stated of the rates of one group: zero with fewer than 2
    distinct years or with no athlete on a row below the greatest year [m],
    otherwise the share of the distinct athletes of those rows whose best
    medal is each colour. *)
Definition historical_rates_claim (g : list Appearance) : Prop :=
  (List.length (distinct_years g) < 2 ->
   calculate_historical_rates g = (0%Q, 0%Q, 0%Q))
  /\ (forall m, is_max_year g m ->
        (List.length (distinct_athletes (earlier_rows g m)) = 0 ->
         calculate_historical_rates g = (0%Q, 0%Q, 0%Q))
        /\ (2 <= List.length (distinct_years g) ->
            List.length (distinct_athletes (earlier_rows g m)) <> 0 ->
            calculate_historical_rates g
            = (ratio (count (best_is_gold (earlier_rows g m))
                            (distinct_athletes (earlier_rows g m)))
                     (List.length (distinct_athletes (earlier_rows g m))),
               ratio (count (best_is_silver (earlier_rows g m))
                            (distinct_athletes (earlier_rows g m)))
                     (List.length (distinct_athletes (earlier_rows g m))),
               ratio (count (best_is_bronze (earlier_rows g m))
                            (distinct_athletes (earlier_rows g m)))
                     (List.length (distinct_athletes (earlier_rows g m)))))).

(** One (NOC, code) group with two Games and a third row whose Year failed
    coercion. *)
Definition sample_missing_year : list Appearance :=
  [ mkAppearance (Some 1996%Z) "KEN" "ATH" "5000m" "A" (Some "Gold"%string) 0;
    mkAppearance (Some 2000%Z) "KEN" "ATH" "5000m" "B" None 0;
    mkAppearance None "KEN" "ATH" "5000m" "C" None 0 ].

(** The same rows with the undated one first. *)
Definition sample_missing_year_first : list Appearance :=
  [ mkAppearance None "KEN" "ATH" "5000m" "C" None 0;
    mkAppearance (Some 1996%Z) "KEN" "ATH" "5000m" "A" (Some "Gold"%string) 0;
    mkAppearance (Some 2000%Z) "KEN" "ATH" "5000m" "B" None 0 ].


(** The medals (present and not 'No medal') won by athlete [a] of the
    (NOC, code) pair at the Games of year [y]; a missing entry of the year
    sequence stands for no Games. *)
Definition medals_in (df : list Appearance) (noc c : string) (y : option Z)
           (a : string) : nat :=
  count (fun r => String.eqb (NOC r) noc && String.eqb (code r) c
                  && String.eqb (Name r) a && year_eqb (Year r) y
                  && has_medal r)
        df.

(** Distinct athletes of the pair with a nonzero medal count at both
    Games. *)
Definition star_athletes (df : list Appearance) (noc c : string)
           (last_year prev_year : option Z) : nat :=
  count (fun a => (0 <? medals_in df noc c last_year a)
                  && (0 <? medals_in df noc c prev_year a))
        (distinct_athletes (group_of df noc c)).

(** Distinct athletes of the pair with two medals or more at the Games. *)
Definition rising_stars (df : list Appearance) (noc c : string)
           (last_year : option Z) : nat :=
  count (fun a => 2 <=? medals_in df noc c last_year a)
        (distinct_athletes (group_of df noc c)).

(** The latest of the years [years] that are before [y]. *)
Definition latest_before (years : list Z) (y : Z) : option Z :=
  match filter (fun x => Z.ltb x y) years with
  | [] => None
  | x :: t => Some (fold_left Z.max t x)
  end.

(** The two Games of the frame immediately before year [y]: the latest
    year of the frame before [y], and the latest before that one.  There
    are none when [y] is the first or the second year of the frame. *)
Definition two_games_before (df : list Appearance) (y : Z) : option (Z * Z) :=
  match latest_before (distinct_years df) y with
  | Some l => match latest_before (distinct_years df) l with
              | Some p => Some (l, p)
              | None => None
              end
  | None => None
  end.

(** What is stated of the star count of the output row of a pair and a
    year: 0 for the first two years of the frame, otherwise the distinct
    athletes of the pair with a medal at both of the two Games before. *)
Definition star_count_claim (df : list Appearance) (noc c : string) (y : Z) : nat :=
  match two_games_before df y with
  | Some (l, p) => star_athletes df noc c (Some l) (Some p)
  | None => 0
  end.

(** What is stated of the rising count: past the first two years of the
    frame, the distinct athletes of the pair with 2 medals or more at the
    Games just before. *)
Definition rising_count_claim (df : list Appearance) (noc c : string) (y : Z) : nat :=
  match two_games_before df y with
  | Some (l, _) => rising_stars df noc c (Some l)
  | None => 0
  end.

(** One pair at three Games, and one row of another pair whose Year failed
    coercion, read between the rows of the second and of the third Games.
    Athlete A has one medal in 1996 and two in 2000. *)
Definition sample_undated_between : list Appearance :=
  [ mkAppearance (Some 1996%Z) "USA" "SWM" "100m" "A" (Some "Gold"%string) 0;
    mkAppearance (Some 2000%Z) "USA" "SWM" "100m" "A" (Some "Gold"%string) 0;
    mkAppearance (Some 2000%Z) "USA" "SWM" "200m" "A" (Some "Silver"%string) 0;
    mkAppearance None "FRA" "ATH" "100m" "X" None 0;
    mkAppearance (Some 2004%Z) "USA" "SWM" "100m" "B" None 0 ].

Definition medal_rows (m : string) (names : list string) : list Appearance :=
  map (fun n => mkAppearance (Some 1996%Z) "USA" "ATH" "100m" n (Some m) 0) names.

(** One pair with 28 athletes at the Games of 1996, 9 of them with Gold,
    18 with Silver and 1 with Bronze, and one row at the Games of 2000. *)
Definition sample_28 : list Appearance :=
  medal_rows "Gold" ["g1"; "g2"; "g3"; "g4"; "g5"; "g6"; "g7"; "g8"; "g9"]%string
  ++ medal_rows "Silver" ["s01"; "s02"; "s03"; "s04"; "s05"; "s06"; "s07"; "s08"; "s09";
                          "s10"; "s11"; "s12"; "s13"; "s14"; "s15"; "s16"; "s17";
                          "s18"]%string
  ++ medal_rows "Bronze" ["b1"]%string
  ++ [ mkAppearance (Some 2000%Z) "USA" "ATH" "100m" "g1" None 0 ].

(** [d.get(k, 0)] *)
Fixpoint dict_get (d : list (medal_key * nat)) (k : medal_key) : nat :=
  match d with
  | [] => 0
  | e :: t => if medal_key_eqb (fst e) k then snd e else dict_get t k
  end.

(** [athletes_medals.get(a, {last: 0, prev: 0})] *)
Fixpoint am_get (am : list (string * (nat * nat))) (a : string) : nat * nat :=
  match am with
  | [] => (0, 0)
  | e :: t => if String.eqb (fst e) a then snd e else am_get t a
  end.

(** No two entries of a dict have equal keys. *)
Fixpoint uniq_keys (d : list (medal_key * nat)) : Prop :=
  match d with
  | [] => True
  | e :: t => (forall e', In e' t -> medal_key_eqb (fst e) (fst e') = false)
              /\ uniq_keys t
  end.

(** One turn of the loop over the rows that fills [athlete_medals_dict]. *)
Definition dict_step (d : list (medal_key * nat)) (row : Appearance)
  : list (medal_key * nat) :=
  if has_medal row then dict_incr (NOC row, code row, Name row, Year row) d else d.

(** One turn of the loop over [athlete_medals_dict.items()]. *)
Definition am_step (noc c : string) (last_year prev_year : option Z)
           (am : list (string * (nat * nat))) (e : medal_key * nat)
  : list (string * (nat * nat)) :=
  if String.eqb (fst (fst (fst (fst e)))) noc && String.eqb (snd (fst (fst (fst e)))) c
  then if year_eqb (snd (fst e)) last_year || year_eqb (snd (fst e)) prev_year
       then am_set last_year prev_year (snd (fst e)) (snd e) (snd (fst (fst e))) am
       else am
  else am.

(** A small frame used to run the statements: two countries, four Games,
    one row whose Year failed coercion. *)
Definition sample : list Appearance :=
  [ mkAppearance (Some 2004%Z) "USA" "ATH" "100m" "A" (Some "Gold"%string) 0;
    mkAppearance (Some 2004%Z) "USA" "ATH" "200m" "A" (Some "Silver"%string) 0;
    mkAppearance (Some 2008%Z) "USA" "ATH" "100m" "A" (Some "Gold"%string) 0;
    mkAppearance (Some 2008%Z) "USA" "ATH" "200m" "A" (Some "Gold"%string) 0;
    mkAppearance (Some 2008%Z) "USA" "ATH" "100m" "B" None 0;
    mkAppearance (Some 2008%Z) "CHN" "ATH" "100m" "C" (Some "Bronze"%string) 1;
    mkAppearance (Some 2012%Z) "USA" "ATH" "100m" "A" (Some "No medal"%string) 0;
    mkAppearance (Some 2012%Z) "CHN" "ATH" "100m" "C" (Some "Bronze"%string) 0;
    mkAppearance None "CHN" "SWM" "50m" "D" (Some "Bronze"%string) 0;
    mkAppearance (Some 2016%Z) "USA" "ATH" "100m" "B" (Some "Bronze"%string) 0 ].

(** ** The stand-alone calculators of the script *)

(** [calculate_event_counts]: [group['Event'].nunique()] *)
Definition calculate_event_counts (group : list Appearance) : nat :=
  List.length (unique string_dec (map Event group)).

(** [calculate_participation_stats]: the three [len(df[...])], in the order
    of the returned series. *)
Definition calculate_participation_stats (df : list Appearance) (year : option Z)
           (noc sport_code : string) : nat * nat * nat :=
  let year_total := count (fun r => year_eqb (Year r) year) df in
  let year_sport_total :=
    count (fun r => year_eqb (Year r) year && String.eqb (code r) sport_code) df in
  let year_country_sport_total :=
    count (fun r => year_eqb (Year r) year && String.eqb (NOC r) noc
                    && String.eqb (code r) sport_code) df in
  (year_total, year_sport_total, year_country_sport_total).

(** [Series.value_counts()]: one entry per distinct present value, with the
    number of its occurrences.  Only [get] reads the result, so the entries
    are kept in order of first appearance. *)
Fixpoint vc_incr (v : string) (s : list (string * nat)) : list (string * nat) :=
  match s with
  | [] => [(v, 1)]
  | e :: t => if String.eqb (fst e) v then (fst e, snd e + 1) :: t
              else e :: vc_incr v t
  end.

Definition value_counts (col : list (option string)) : list (string * nat) :=
  fold_left (fun s v => vc_incr v s) (present col) [].

(** [Series.get(k, d)] *)
Fixpoint vc_get (s : list (string * nat)) (k : string) (d : nat) : nat :=
  match s with
  | [] => d
  | e :: t => if String.eqb (fst e) k then snd e else vc_get t k d
  end.

Definition calculate_medal_counts (group : list Appearance) (year : option Z)
           (noc sport_code : string) : nat * nat * nat :=
  let current_data :=
    filter (fun r => year_eqb (Year r) year && String.eqb (NOC r) noc
                     && String.eqb (code r) sport_code) group in
  let medals := value_counts (map Medal current_data) in
  (vc_get medals "Gold" 0, vc_get medals "Silver" 0, vc_get medals "Bronze" 0).

(** [set(rows[notna & != 'No medal']['Name'].unique())] *)
Definition medalists (rows : list Appearance) : list string :=
  unique string_dec (map Name (filter has_medal rows)).

(** [len(a.intersection(b))] on two sets. *)
Definition inter_size (a b : list string) : nat :=
  count (fun x => mem string_dec x b) a.

(** [rows[notna & != 'No medal'].groupby('Name').size()] *)
Definition medal_counts_by_name (rows : list Appearance) : list (string * nat) :=
  map (fun g => (fst g, List.length (snd g))) (groupby_name (filter has_medal rows)).

(** [years.index(current_year)] for an entry of [years] itself: the entry
    is found where it stands, the missing one included (same object). *)
Definition year_same (a b : option Z) : bool :=
  if year_dec a b then true else false.

(** One turn of the loop of [calculate_star_athletes]; [None] when
    [years.index] raises. *)
Definition star_turn (group : list Appearance) (years : list (option Z))
           (current_year : option Z) : option (nat * nat) :=
  match index year_same current_year years with
  | None => None
  | Some i =>
      let last_year := nth (i - 1) years None in
      let prev_year := nth (i - 2) years None in
      let last_year_data := filter (fun r => year_eqb (Year r) last_year) group in
      let prev_year_data := filter (fun r => year_eqb (Year r) prev_year) group in
      let star_athletes :=
        inter_size (medalists last_year_data) (medalists prev_year_data) in
      let rising_stars :=
        count (fun e => 2 <=? snd e) (medal_counts_by_name last_year_data) in
      Some (star_athletes, rising_stars)
  end.

(** The loop fills [result_list]; an exception in a turn leaves the
    function. *)
Fixpoint star_turns (group : list Appearance) (years todo : list (option Z))
  : option (list (nat * nat)) :=
  match todo with
  | [] => Some []
  | y :: t => match star_turn group years y with
              | None => None
              | Some r => match star_turns group years t with
                          | None => None
                          | Some rs => Some (r :: rs)
                          end
              end
  end.

(** [calculate_star_athletes]; [None] stands for an exception. *)
Definition calculate_star_athletes (group : list Appearance) : option (nat * nat) :=
  let years := py_sorted year_ltb (unique year_dec (map Year group)) in
  if List.length years <? 3 then Some (0, 0)
  else
    match star_turns group years (skipn 2 years) with
    | None => None
    | Some result_list =>
        match result_list with
        | [] => Some (0, 0)
        | _ => Some (last result_list (0, 0))
        end
    end.

(** One pair present at each of three Games. *)
Definition sample_three_games : list Appearance :=
  [ mkAppearance (Some 2004%Z) "USA" "ATH" "100m" "A" (Some "Gold"%string) 0;
    mkAppearance (Some 2008%Z) "USA" "ATH" "100m" "A" (Some "Silver"%string) 0;
    mkAppearance (Some 2008%Z) "USA" "ATH" "100m" "B" (Some "Gold"%string) 0;
    mkAppearance (Some 2008%Z) "USA" "ATH" "200m" "B" (Some "Gold"%string) 0;
    mkAppearance (Some 2012%Z) "USA" "ATH" "100m" "A" None 0;
    mkAppearance (Some 2012%Z) "USA" "ATH" "100m" "B" (Some "Bronze"%string) 0 ].

(** The columns of an output row other than the rates and the star and
    rising counts. *)
Definition counters (f : Feature)
  : key3 * nat * (nat * nat * nat) * (nat * nat * nat * nat) * Q :=
  (feature_key f, is_host f,
   (year_total_participation f, year_sport_total_participation f,
    year_country_sport_participation f),
   (sport_event_count f, actual_gold_count f, actual_silver_count f,
    actual_bronze_count f),
   avg_career_length f).

(** * Properties *)

(** ** Lists *)

Section FramesFacts.
Context {A : Type}.
Variable eq_dec : forall x y : A, {x = y} + {x <> y}.

Lemma mem_true (x : A) (l : list A) : mem eq_dec x l = true <-> In x l.
Proof. unfold mem. destruct (in_dec eq_dec x l); split; intros; congruence. Qed.

Lemma mem_false (x : A) (l : list A) : mem eq_dec x l = false <-> ~ In x l.
Proof. unfold mem. destruct (in_dec eq_dec x l); split; intros; congruence. Qed.

Lemma unique_from_In (l seen : list A) (x : A) :
  In x (unique_from eq_dec seen l) <-> In x l /\ ~ In x seen.
Proof.
  revert seen. induction l as [|h t IH]; intros seen; simpl.
  - tauto.
  - destruct (mem eq_dec h seen) eqn:E.
    + apply mem_true in E. rewrite IH. split.
      * tauto.
      * intros [[->|H] N]; [contradiction | tauto].
    + apply mem_false in E. simpl. rewrite IH. simpl. split.
      * intros [->|[H N]]; [tauto|]. split; [tauto|]. intros X. apply N. now right.
      * intros [[->|H] N]; [now left|].
        destruct (eq_dec h x) as [->|D]; [now left|]. right. split; [exact H|].
        intros [X|X]; [congruence | contradiction].
Qed.

Lemma unique_from_NoDup (l seen : list A) : NoDup (unique_from eq_dec seen l).
Proof.
  revert seen. induction l as [|h t IH]; intros seen; simpl.
  - constructor.
  - destruct (mem eq_dec h seen) eqn:E; [apply IH|].
    constructor; [|apply IH].
    rewrite unique_from_In. intros [_ N]. apply N. now left.
Qed.

Lemma unique_In (l : list A) (x : A) : In x (unique eq_dec l) <-> In x l.
Proof. unfold unique. rewrite unique_from_In. simpl. tauto. Qed.

Lemma unique_NoDup (l : list A) : NoDup (unique eq_dec l).
Proof. apply unique_from_NoDup. Qed.

Variable ltb : A -> A -> bool.

Lemma insert_perm (x : A) (l : list A) : Permutation (insert ltb x l) (x :: l).
Proof.
  induction l as [|h t IH]; simpl; [reflexivity|].
  destruct (ltb h x); [|reflexivity].
  rewrite IH. apply perm_swap.
Qed.

Lemma sorted_perm (l : list A) : Permutation (sorted ltb l) l.
Proof.
  induction l as [|h t IH]; simpl; [reflexivity|].
  rewrite insert_perm. now constructor.
Qed.

Lemma sorted_In (l : list A) (x : A) : In x (sorted ltb l) <-> In x l.
Proof.
  split; apply Permutation_in; [apply sorted_perm | symmetry; apply sorted_perm].
Qed.

Lemma sorted_NoDup (l : list A) : NoDup l -> NoDup (sorted ltb l).
Proof. apply Permutation_NoDup. symmetry. apply sorted_perm. Qed.

Lemma sorted_length (l : list A) : List.length (sorted ltb l) = List.length l.
Proof. apply Permutation_length, sorted_perm. Qed.

(** Filtering a duplicate-free list by equality with one of its members
    leaves that member alone. *)
Lemma filter_eq_NoDup (l : list A) (k : A) :
  NoDup l -> In k l ->
  filter (fun x => if eq_dec x k then true else false) l = [k].
Proof.
  induction l as [|h t IH]; intros ND HI; [destruct HI|].
  inversion ND as [|? ? Hn ND']; subst. simpl.
  destruct (eq_dec h k) as [->|D].
  - f_equal. clear IH HI ND ND'.
    induction t as [|h' t' IH']; [reflexivity|]. simpl.
    destruct (eq_dec h' k) as [->|D']; [exfalso; apply Hn; now left|].
    apply IH'. intros X. apply Hn. now right.
  - destruct HI as [X|X]; [congruence|]. now apply IH.
Qed.

(** Two duplicate-free lists with the same members satisfying [p] have as
    many of them. *)
Lemma count_NoDup_ext (p q : A -> bool) (l1 l2 : list A) :
  NoDup l1 -> NoDup l2 ->
  (forall x, In x l1 /\ p x = true <-> In x l2 /\ q x = true) ->
  count p l1 = count q l2.
Proof.
  intros N1 N2 H. unfold count. apply Permutation_length.
  apply NoDup_Permutation.
  - now apply NoDup_filter.
  - now apply NoDup_filter.
  - intros x. rewrite !filter_In. apply H.
Qed.
End FramesFacts.

(** ** Sorting under a strict total order *)

Section SortedOrder.
Context {A : Type}.
Variable ltb : A -> A -> bool.
Hypothesis ltb_irrefl : forall a, ltb a a = false.
Hypothesis ltb_trans : forall a b c, ltb a b = true -> ltb b c = true -> ltb a c = true.
Hypothesis ltb_total : forall a b, ltb a b = false -> ltb b a = false -> a = b.

Lemma not_ltb_trans (a b c : A) :
  ltb b a = false -> ltb c b = false -> ltb c a = false.
Proof.
  intros H1 H2. destruct (ltb c a) eqn:E; [|reflexivity].
  destruct (ltb a b) eqn:E'.
  - rewrite (ltb_trans c a b E E') in H2. discriminate.
  - rewrite (ltb_total a b E' H1) in E. congruence.
Qed.

Lemma insert_keeps_order (x : A) (l : list A) :
  StronglySorted (fun a b => ltb b a = false) l ->
  StronglySorted (fun a b => ltb b a = false) (insert ltb x l).
Proof.
  induction l as [|h t IH]; intros S; simpl.
  - repeat constructor.
  - apply StronglySorted_inv in S. destruct S as [S F].
    destruct (ltb h x) eqn:E.
    + constructor; [now apply IH|].
      apply Forall_forall. intros y Hy.
      apply (Permutation_in _ (insert_perm ltb x t)) in Hy.
      destruct Hy as [<-|Hy].
      * destruct (ltb x h) eqn:E'; [|reflexivity].
        rewrite <- (ltb_trans h x h E E'). apply ltb_irrefl.
      * rewrite Forall_forall in F. now apply F.
    + constructor; [now constructor|].
      constructor; [exact E|].
      eapply Forall_impl; [|exact F]. intros y Hy. simpl in Hy.
      now apply (not_ltb_trans x h y).
Qed.

Lemma sorted_keeps_order (l : list A) :
  StronglySorted (fun a b => ltb b a = false) (sorted ltb l).
Proof.
  induction l as [|h t IH]; simpl; [constructor | now apply insert_keeps_order].
Qed.

Lemma ordered_NoDup_strict (l : list A) :
  NoDup l -> StronglySorted (fun a b => ltb b a = false) l ->
  StronglySorted (fun a b => ltb a b = true) l.
Proof.
  induction l as [|h t IH]; intros ND S; [constructor|].
  inversion ND as [|? ? Hn ND']; subst.
  apply StronglySorted_inv in S. destruct S as [S F].
  constructor; [now apply IH|].
  rewrite Forall_forall in F. apply Forall_forall. intros y Hy.
  destruct (ltb h y) eqn:E; [reflexivity|].
  exfalso. apply Hn. rewrite (ltb_total h y E (F y Hy)). exact Hy.
Qed.
End SortedOrder.

Section SortedUnique.
Context {A : Type}.
Variable ltb : A -> A -> bool.
Hypothesis ltb_irrefl : forall a, ltb a a = false.
Hypothesis ltb_trans : forall a b c, ltb a b = true -> ltb b c = true -> ltb a c = true.
Hypothesis ltb_total : forall a b, ltb a b = false -> ltb b a = false -> a = b.

Lemma strict_sorted_eq (l1 l2 : list A) :
  StronglySorted (fun a b => ltb a b = true) l1 ->
  StronglySorted (fun a b => ltb a b = true) l2 ->
  (forall x, In x l1 <-> In x l2) -> l1 = l2.
Proof.
  revert l2. induction l1 as [|a t1 IH]; intros l2 S1 S2 H.
  - destruct l2 as [|b t2]; [reflexivity|]. destruct (proj2 (H b) (or_introl eq_refl)).
  - destruct l2 as [|b t2]; [destruct (proj1 (H a) (or_introl eq_refl))|].
    apply StronglySorted_inv in S1. destruct S1 as [S1 F1].
    apply StronglySorted_inv in S2. destruct S2 as [S2 F2].
    rewrite Forall_forall in F1, F2.
    assert (E : a = b).
    { destruct (proj1 (H a) (or_introl eq_refl)) as [E|Ha]; [now symmetry|].
      destruct (proj2 (H b) (or_introl eq_refl)) as [E|Hb]; [exact E|].
      pose proof (ltb_trans a b a (F1 b Hb) (F2 a Ha)) as X.
      rewrite ltb_irrefl in X. discriminate. }
    subst b. f_equal. apply IH; [exact S1 | exact S2|].
    intros x. split; intros Hx.
    + destruct (proj1 (H x) (or_intror Hx)) as [<-|Hx']; [|exact Hx'].
      pose proof (F1 a Hx) as X. rewrite ltb_irrefl in X. discriminate.
    + destruct (proj2 (H x) (or_intror Hx)) as [<-|Hx']; [|exact Hx'].
      pose proof (F2 a Hx) as X. rewrite ltb_irrefl in X. discriminate.
Qed.

(** Sorting a duplicate-free list gives the same list whatever the order
    of its members. *)
Lemma sorted_perm_eq (l l' : list A) :
  NoDup l -> Permutation l l' -> sorted ltb l = sorted ltb l'.
Proof.
  intros ND P. apply strict_sorted_eq.
  - apply (ordered_NoDup_strict ltb ltb_total); [now apply sorted_NoDup|].
    now apply sorted_keeps_order.
  - apply (ordered_NoDup_strict ltb ltb_total).
    + apply sorted_NoDup. now apply (Permutation_NoDup P).
    + now apply sorted_keeps_order.
  - intros x. rewrite !sorted_In. split; apply Permutation_in; [exact P | now symmetry].
Qed.
End SortedUnique.

Lemma zltb_irrefl (a : Z) : Z.ltb a a = false.
Proof. apply Z.ltb_irrefl. Qed.

Lemma zltb_trans (a b c : Z) : Z.ltb a b = true -> Z.ltb b c = true -> Z.ltb a c = true.
Proof. rewrite !Z.ltb_lt. lia. Qed.

Lemma zltb_total (a b : Z) : Z.ltb a b = false -> Z.ltb b a = false -> a = b.
Proof. rewrite !Z.ltb_ge. lia. Qed.

(** ** Python's sort *)

(** Whatever the comparison, the sorted list is a rearrangement of the
    list, and a list that is one ascending run is returned as it is. *)
Section PySortFacts.
Context {A : Type}.
Variable ltb : A -> A -> bool.

Lemma run_ascending_app (prev : A) (l : list A) :
  fst (run_ascending ltb prev l) ++ snd (run_ascending ltb prev l) = l.
Proof.
  revert prev. induction l as [|x t IH]; intros prev; simpl; [reflexivity|].
  destruct (ltb x prev); simpl; [reflexivity | now rewrite IH].
Qed.

Lemma run_descending_app (prev : A) (l : list A) :
  fst (run_descending ltb prev l) ++ snd (run_descending ltb prev l) = l.
Proof.
  revert prev. induction l as [|x t IH]; intros prev; simpl; [reflexivity|].
  destruct (ltb x prev); simpl; [now rewrite IH | reflexivity].
Qed.

Lemma count_run_cons2 (x y : A) (t : list A) :
  count_run ltb (x :: y :: t)
  = if ltb y x
    then (rev (x :: fst (run_descending ltb x (y :: t))), snd (run_descending ltb x (y :: t)))
    else (x :: fst (run_ascending ltb x (y :: t)), snd (run_ascending ltb x (y :: t))).
Proof. reflexivity. Qed.

Lemma count_run_perm (l : list A) :
  Permutation (fst (count_run ltb l) ++ snd (count_run ltb l)) l.
Proof.
  destruct l as [|x t]; [reflexivity|]. unfold count_run.
  destruct t as [|y t']; [reflexivity|].
  destruct (ltb y x).
  - cbn [fst snd]. rewrite <- (run_descending_app x (y :: t')) at 3.
    rewrite app_comm_cons. apply Permutation_app_tail. symmetry. apply Permutation_rev.
  - cbn [fst snd]. rewrite <- app_comm_cons. now rewrite run_ascending_app.
Qed.

Lemma binary_insert_perm (pre : list A) (x : A) :
  Permutation (binary_insert ltb pre x) (x :: pre).
Proof.
  unfold binary_insert. set (pos := bsearch _ _ _ _ _ _).
  rewrite <- (firstn_skipn pos pre) at 3. symmetry. apply Permutation_middle.
Qed.

Lemma binarysort_perm (rest pre : list A) :
  Permutation (binarysort ltb pre rest) (pre ++ rest).
Proof.
  revert pre. induction rest as [|x t IH]; intros pre; simpl.
  - now rewrite app_nil_r.
  - unfold binarysort in *. simpl. rewrite IH, binary_insert_perm.
    simpl. apply Permutation_middle.
Qed.

Lemma py_sorted_perm (l : list A) : Permutation (py_sorted ltb l) l.
Proof. unfold py_sorted. rewrite binarysort_perm. apply count_run_perm. Qed.

Lemma py_sorted_In (l : list A) (x : A) : In x (py_sorted ltb l) <-> In x l.
Proof.
  split; apply Permutation_in; [apply py_sorted_perm | symmetry; apply py_sorted_perm].
Qed.

Lemma py_sorted_NoDup (l : list A) : NoDup l -> NoDup (py_sorted ltb l).
Proof. apply Permutation_NoDup. symmetry. apply py_sorted_perm. Qed.

Lemma py_sorted_length (l : list A) : List.length (py_sorted ltb l) = List.length l.
Proof. apply Permutation_length, py_sorted_perm. Qed.

Lemma run_ascending_of_run (x : A) (t : list A) :
  is_run ltb (x :: t) = true -> run_ascending ltb x t = (t, []).
Proof.
  revert x. induction t as [|y t' IH]; intros x H; [reflexivity|].
  change (is_run ltb (x :: y :: t')) with (negb (ltb y x) && is_run ltb (y :: t')) in H.
  apply andb_true_iff in H. destruct H as [H1 H2]. apply negb_true_iff in H1.
  simpl. rewrite H1, (IH y H2). reflexivity.
Qed.

(** A list that is one run is returned as it is. *)
Lemma py_sorted_of_run (l : list A) : is_run ltb l = true -> py_sorted ltb l = l.
Proof.
  intros H. unfold py_sorted, count_run.
  destruct l as [|x t]; [reflexivity|]. destruct t as [|y t']; [reflexivity|].
  pose proof (run_ascending_of_run x (y :: t') H) as R.
  change (is_run ltb (x :: y :: t')) with (negb (ltb y x) && is_run ltb (y :: t')) in H.
  apply andb_true_iff in H. destruct H as [H1 _]. apply negb_true_iff in H1.
  rewrite H1, R. reflexivity.
Qed.
End PySortFacts.

Section PySortOrder.
Context {A : Type}.
Variable ltb : A -> A -> bool.
Hypothesis ltb_irrefl : forall a, ltb a a = false.
Hypothesis ltb_trans : forall a b c, ltb a b = true -> ltb b c = true -> ltb a c = true.
Hypothesis ltb_total : forall a b, ltb a b = false -> ltb b a = false -> a = b.

Lemma not_ltb_trans' (a b c : A) :
  ltb b a = false -> ltb c b = false -> ltb c a = false.
Proof.
  intros H1 H2. destruct (ltb c a) eqn:E; [|reflexivity].
  destruct (ltb a b) eqn:E'.
  - rewrite (ltb_trans c a b E E') in H2. discriminate.
  - rewrite (ltb_total a b E' H1) in E. congruence.
Qed.

Lemma ltb_asym (a b : A) : ltb a b = true -> ltb b a = false.
Proof.
  intros H. destruct (ltb b a) eqn:E; [|reflexivity].
  rewrite <- (ltb_trans a b a H E). apply ltb_irrefl.
Qed.

Lemma ltb_le_trans (a b c : A) :
  ltb a b = true -> ltb c b = false -> ltb a c = true.
Proof.
  intros H1 H2. destruct (ltb a c) eqn:E; [reflexivity|].
  destruct (ltb c a) eqn:E'.
  - rewrite (ltb_trans c a b E' H1) in H2. discriminate.
  - rewrite <- (ltb_total a c E E') in H2. congruence.
Qed.

Lemma ssorted_middle (R : A -> A -> Prop) (l1 l2 : list A) (x : A) :
  StronglySorted R (l1 ++ l2) ->
  Forall (fun a => R a x) l1 -> Forall (R x) l2 ->
  StronglySorted R (l1 ++ x :: l2).
Proof.
  induction l1 as [|h t IH]; simpl; intros S F1 F2.
  - now constructor.
  - apply StronglySorted_inv in S. destruct S as [S F].
    inversion F1; subst. constructor; [now apply IH|].
    apply Forall_app. apply Forall_app in F. destruct F as [Fa Fb].
    split; [exact Fa | now constructor].
Qed.

Lemma ssorted_nth (R : A -> A -> Prop) (l : list A) (i j : nat) (a b : A) :
  StronglySorted R l -> i < j ->
  nth_error l i = Some a -> nth_error l j = Some b -> R a b.
Proof.
  intros S. revert i j. induction S as [|h t S IH F]; intros i j L Hi Hj.
  - destruct i; discriminate.
  - destruct j as [|j]; [lia|]. simpl in Hj. destruct i as [|i].
    + simpl in Hi. inversion Hi; subst. rewrite Forall_forall in F.
      apply F. eapply nth_error_In; eassumption.
    + simpl in Hi. apply (IH i j); [lia | assumption | assumption].
Qed.

Lemma bsearch_S (fuel : nat) (pivot : A) (pre : list A) (l r : nat) :
  bsearch ltb (S fuel) pivot pre l r
  = if l <? r
    then match nth_error pre (l + (r - l) / 2) with
         | Some v => if ltb pivot v then bsearch ltb fuel pivot pre l (l + (r - l) / 2)
                     else bsearch ltb fuel pivot pre (l + (r - l) / 2 + 1) r
         | None => l
         end
    else l.
Proof. reflexivity. Qed.

Lemma bsearch_spec (pivot : A) (pre : list A) (fuel l r : nat) :
  StronglySorted (fun a b => ltb b a = false) pre ->
  l <= r <= List.length pre -> r - l <= fuel ->
  (forall i v, i < l -> nth_error pre i = Some v -> ltb pivot v = false) ->
  (forall i v, r <= i -> nth_error pre i = Some v -> ltb pivot v = true) ->
  (forall i v, i < bsearch ltb fuel pivot pre l r ->
               nth_error pre i = Some v -> ltb pivot v = false)
  /\ (forall i v, bsearch ltb fuel pivot pre l r <= i ->
                  nth_error pre i = Some v -> ltb pivot v = true).
Proof.
  intros Hs. revert l r. induction fuel as [|fuel IH]; intros l r B F Hl Hr.
  - simpl. assert (l = r) by lia. subst. split; [exact Hl | exact Hr].
  - rewrite bsearch_S. destruct (Nat.ltb_spec l r) as [L|L].
    2:{ assert (l = r) by lia. subst. split; [exact Hl | exact Hr]. }
    assert (P : l + (r - l) / 2 < r).
    { pose proof (Nat.div_lt (r - l) 2). lia. }
    assert (P' : l <= l + (r - l) / 2) by lia.
    set (p := l + (r - l) / 2) in *.
    destruct (nth_error pre p) as [v|] eqn:E.
    2:{ apply nth_error_None in E. lia. }
    destruct (ltb pivot v) eqn:C.
    + apply IH; [lia | lia | exact Hl|].
      intros i w Hi Hw. destruct (Nat.eq_dec i p) as [->|N].
      * rewrite E in Hw. inversion Hw; subst. exact C.
      * assert (X : ltb w v = false) by (apply (ssorted_nth _ pre p i v w Hs); [lia | exact E | exact Hw]).
        now apply (ltb_le_trans pivot v w).
    + apply IH; [lia | lia | | exact Hr].
      intros i w Hi Hw. destruct (Nat.eq_dec i p) as [->|N].
      * rewrite E in Hw. inversion Hw; subst. exact C.
      * assert (X : ltb v w = false) by (apply (ssorted_nth _ pre i p w v Hs); [lia | exact Hw | exact E]).
        now apply (not_ltb_trans' w v pivot).
Qed.

Lemma binary_insert_sorted (pre : list A) (x : A) :
  StronglySorted (fun a b => ltb b a = false) pre ->
  StronglySorted (fun a b => ltb b a = false) (binary_insert ltb pre x).
Proof.
  intros S. unfold binary_insert.
  destruct (bsearch_spec x pre (List.length pre) 0 (List.length pre) S) as [H1 H2];
    [lia | lia | intros; lia | |].
  { intros i v Hi Hv.
    assert (i < List.length pre) by (apply nth_error_Some; congruence). lia. }
  set (pos := bsearch ltb (List.length pre) x pre 0 (List.length pre)) in *.
  apply ssorted_middle.
  - now rewrite firstn_skipn.
  - apply Forall_forall. intros a Ha. apply In_nth_error in Ha. destruct Ha as (i & Hi).
    rewrite nth_error_firstn in Hi. destruct (Nat.ltb_spec i pos) as [L|L]; [|discriminate].
    now apply (H1 i a).
  - apply Forall_forall. intros b Hb. apply In_nth_error in Hb. destruct Hb as (j & Hj).
    rewrite nth_error_skipn in Hj. apply ltb_asym. apply (H2 (pos + j) b); [lia | exact Hj].
Qed.

Lemma binarysort_sorted (rest pre : list A) :
  StronglySorted (fun a b => ltb b a = false) pre ->
  StronglySorted (fun a b => ltb b a = false) (binarysort ltb pre rest).
Proof.
  revert pre. induction rest as [|x t IH]; intros pre S; [exact S|].
  unfold binarysort in *. simpl. now apply IH, binary_insert_sorted.
Qed.

Lemma run_ascending_sorted (x : A) (t : list A) :
  StronglySorted (fun a b => ltb b a = false) (x :: fst (run_ascending ltb x t)).
Proof.
  revert x. induction t as [|y t' IH]; intros x; simpl.
  - repeat constructor.
  - destruct (ltb y x) eqn:E; simpl; [repeat constructor|].
    specialize (IH y). constructor; [exact IH|].
    apply StronglySorted_inv in IH. destruct IH as [_ F].
    constructor; [exact E|]. eapply Forall_impl; [|exact F].
    intros z Hz. simpl in Hz. now apply (not_ltb_trans' x y z).
Qed.

Lemma run_descending_sorted (x : A) (t : list A) :
  StronglySorted (fun a b => ltb b a = true) (x :: fst (run_descending ltb x t)).
Proof.
  revert x. induction t as [|y t' IH]; intros x; simpl.
  - repeat constructor.
  - destruct (ltb y x) eqn:E; simpl; [|repeat constructor].
    specialize (IH y). constructor; [exact IH|].
    apply StronglySorted_inv in IH. destruct IH as [_ F].
    constructor; [exact E|]. eapply Forall_impl; [|exact F].
    intros z Hz. simpl in Hz. now apply (ltb_trans z y x).
Qed.

Lemma ssorted_impl (R R' : A -> A -> Prop) (l : list A) :
  (forall a b, R a b -> R' a b) -> StronglySorted R l -> StronglySorted R' l.
Proof.
  intros H. induction 1 as [|h t S IH F]; constructor; [exact IH|].
  eapply Forall_impl; [|exact F]. intros b. apply H.
Qed.

Lemma ssorted_rev (R : A -> A -> Prop) (l : list A) :
  StronglySorted R l -> StronglySorted (fun a b => R b a) (rev l).
Proof.
  induction 1 as [|h t S IH F]; simpl; [constructor|].
  rewrite <- (app_nil_r (rev t)) in IH.
  apply (ssorted_middle (fun a b => R b a) (rev t) [] h IH).
  - apply Forall_forall. intros a Ha. apply in_rev in Ha.
    rewrite Forall_forall in F. now apply F.
  - constructor.
Qed.

Lemma count_run_sorted (l : list A) :
  StronglySorted (fun a b => ltb b a = false) (fst (count_run ltb l)).
Proof.
  destruct l as [|x t]; [constructor|]. unfold count_run.
  destruct t as [|y t']; [repeat constructor|].
  destruct (ltb y x); cbn [fst snd].
  - pose proof (ssorted_rev _ _ (run_descending_sorted x (y :: t'))) as S.
    eapply ssorted_impl; [|exact S].
    intros a b H. simpl in H. now apply ltb_asym.
  - apply run_ascending_sorted.
Qed.

Lemma py_sorted_ordered (l : list A) :
  StronglySorted (fun a b => ltb b a = false) (py_sorted ltb l).
Proof. apply binarysort_sorted, count_run_sorted. Qed.
(** Under a strict total order the sort returns the ascending list: on a
    duplicate-free list it is the list that sorting by insertion gives. *)
Lemma py_sorted_eq_sorted (l : list A) :
  NoDup l -> py_sorted ltb l = sorted ltb l.
Proof.
  intros ND. apply (strict_sorted_eq ltb ltb_irrefl ltb_trans).
  - apply (ordered_NoDup_strict ltb ltb_total); [now apply py_sorted_NoDup|].
    apply py_sorted_ordered.
  - apply (ordered_NoDup_strict ltb ltb_total); [now apply sorted_NoDup|].
    now apply sorted_keeps_order.
  - intros x. now rewrite py_sorted_In, sorted_In.
Qed.
End PySortOrder.

Section PySortMap.
Context {A B : Type}.
Variable f : A -> B.
Variable ltbA : A -> A -> bool.
Variable ltbB : B -> B -> bool.
Hypothesis ltb_map : forall a b, ltbB (f a) (f b) = ltbA a b.

Lemma run_ascending_map (x : A) (t : list A) :
  run_ascending ltbB (f x) (map f t)
  = (map f (fst (run_ascending ltbA x t)), map f (snd (run_ascending ltbA x t))).
Proof.
  revert x. induction t as [|y t' IH]; intros x; simpl; [reflexivity|].
  rewrite ltb_map. destruct (ltbA y x); simpl; [reflexivity|]. now rewrite IH.
Qed.

Lemma run_descending_map (x : A) (t : list A) :
  run_descending ltbB (f x) (map f t)
  = (map f (fst (run_descending ltbA x t)), map f (snd (run_descending ltbA x t))).
Proof.
  revert x. induction t as [|y t' IH]; intros x; simpl; [reflexivity|].
  rewrite ltb_map. destruct (ltbA y x); simpl; [|reflexivity]. now rewrite IH.
Qed.

Lemma count_run_map (l : list A) :
  count_run ltbB (map f l)
  = (map f (fst (count_run ltbA l)), map f (snd (count_run ltbA l))).
Proof.
  destruct l as [|x t]; [reflexivity|]. destruct t as [|y t']; [reflexivity|].
  change (map f (x :: y :: t')) with (f x :: f y :: map f t').
  rewrite !count_run_cons2, ltb_map.
  change (f y :: map f t') with (map f (y :: t')).
  rewrite run_descending_map, run_ascending_map.
  destruct (ltbA y x); cbn [fst snd]; [|reflexivity].
  now rewrite <- map_cons, map_rev.
Qed.

Lemma bsearch_map (fuel : nat) (pivot : A) (pre : list A) (l r : nat) :
  bsearch ltbB fuel (f pivot) (map f pre) l r = bsearch ltbA fuel pivot pre l r.
Proof.
  revert l r. induction fuel as [|fuel IH]; intros l r; [reflexivity|].
  rewrite !bsearch_S, nth_error_map. destruct (l <? r); [|reflexivity].
  destruct (nth_error pre (l + (r - l) / 2)) as [v|]; simpl; [|reflexivity].
  rewrite ltb_map, !IH. reflexivity.
Qed.

Lemma binary_insert_map (pre : list A) (x : A) :
  binary_insert ltbB (map f pre) (f x) = map f (binary_insert ltbA pre x).
Proof.
  unfold binary_insert. rewrite length_map, bsearch_map.
  now rewrite map_app, map_cons, firstn_map, skipn_map.
Qed.

Lemma binarysort_map (rest pre : list A) :
  binarysort ltbB (map f pre) (map f rest) = map f (binarysort ltbA pre rest).
Proof.
  revert pre. induction rest as [|x t IH]; intros pre; [reflexivity|].
  unfold binarysort in *. simpl. now rewrite binary_insert_map, IH.
Qed.

Lemma py_sorted_map (l : list A) :
  py_sorted ltbB (map f l) = map f (py_sorted ltbA l).
Proof. unfold py_sorted. rewrite count_run_map. cbn [fst snd]. apply binarysort_map. Qed.
End PySortMap.

Lemma present_In {A : Type} (l : list (option A)) (x : A) :
  In x (present l) <-> In (Some x) l.
Proof.
  induction l as [|[y|] t IH]; simpl.
  - tauto.
  - rewrite IH. split; intros [H|H]; auto; left; congruence.
  - rewrite IH. split; [auto|]. intros [H|H]; [discriminate | exact H].
Qed.

Lemma year_eqb_true (a b : option Z) : year_eqb a b = true <-> exists y, a = Some y /\ b = Some y.
Proof.
  destruct a as [x|], b as [y|]; simpl; try (split; [discriminate | intros (z & H1 & H2); discriminate]).
  rewrite Z.eqb_eq. split; [intros ->; eauto | intros (z & H1 & H2); congruence].
Qed.

Lemma year_eqb_Some (a : option Z) (y : Z) : year_eqb a (Some y) = true <-> a = Some y.
Proof.
  rewrite year_eqb_true. split; [intros (z & -> & H); congruence | intros ->; eauto].
Qed.

Lemma year_eqb_sym (a b : option Z) : year_eqb a b = year_eqb b a.
Proof. destruct a, b; simpl; auto. apply Z.eqb_sym. Qed.

(** ** Group keys *)

Lemma group_keys3_In (df : list Appearance) (k : key3) :
  In k (group_keys3 df) <-> exists r, In r df /\ row_key3 r = Some k.
Proof.
  unfold group_keys3. rewrite sorted_In, unique_In, present_In, in_map_iff.
  split; intros (r & H1 & H2); exists r; auto.
Qed.

Lemma group_keys3_NoDup (df : list Appearance) : NoDup (group_keys3 df).
Proof. apply sorted_NoDup, unique_NoDup. Qed.

Lemma group_keys2_In (df : list Appearance) (k : key2) :
  In k (group_keys2 df) <-> exists r, In r df /\ row_key2 r = k.
Proof.
  unfold group_keys2. rewrite sorted_In, unique_In, in_map_iff.
  split; intros (r & H1 & H2); exists r; auto.
Qed.

Lemma group_keys2_NoDup (df : list Appearance) : NoDup (group_keys2 df).
Proof. apply sorted_NoDup, unique_NoDup. Qed.

Lemma basic_stats_eq (df : list Appearance) :
  basic_stats df = map (stat_of df) (group_keys3 df).
Proof.
  unfold basic_stats, groupby3. rewrite map_map. apply map_ext.
  intros [[y n] c]. reflexivity.
Qed.

(** ** The lookback loop appends one entry per row *)

Lemma lookback_fold (years : list (option Z)) (d : list (medal_key * nat))
      (stats : list Stats) (acc : list nat * list nat) :
  fold_left (lookback_step years d) stats acc =
  (fst acc ++ map (fun s => fst (lookback_result years d s)) stats,
   snd acc ++ map (fun s => snd (lookback_result years d s)) stats).
Proof.
  revert acc. induction stats as [|s t IH]; intros acc; simpl.
  - rewrite !app_nil_r. now destruct acc.
  - rewrite IH. unfold lookback_step, lookback_result.
    destruct (lookback_row years d s) as [res|]; simpl; now rewrite <- !app_assoc.
Qed.

Lemma lookback_loop_eq (years : list (option Z)) (d : list (medal_key * nat))
      (stats : list Stats) :
  lookback_loop years d stats =
  (map (fun s => fst (lookback_result years d s)) stats,
   map (fun s => snd (lookback_result years d s)) stats).
Proof. unfold lookback_loop. now rewrite lookback_fold. Qed.

Lemma combine_maps {A B C : Type} (f : A -> B) (g : A -> C) (l : list A) :
  combine l (combine (map f l) (map g l)) = map (fun x => (x, (f x, g x))) l.
Proof. induction l as [|h t IH]; simpl; [reflexivity | now rewrite IH]. Qed.

Lemma stats_table_eq (df : list Appearance) :
  stats_table df = map (extend df) (basic_stats df).
Proof.
  unfold stats_table. rewrite lookback_loop_eq. simpl.
  rewrite combine_maps, map_map. reflexivity.
Qed.

(** ** The two merges keep every row once *)

Lemma merge_left_single {L R : Type} (on : L -> R -> bool) (f : L -> R)
      (left : list L) (right : list R) :
  (forall l, In l left -> filter (on l) right = [f l]) ->
  merge_left on left right = map (fun l => (l, Some (f l))) left.
Proof.
  unfold merge_left. induction left as [|h t IH]; intros H; simpl; [reflexivity|].
  rewrite (H h) by now left. simpl. f_equal. apply IH. intros l Hl. apply H. now right.
Qed.

Lemma filter_map_comm {A B : Type} (p : B -> bool) (f : A -> B) (l : list A) :
  filter p (map f l) = map f (filter (fun x => p (f x)) l).
Proof.
  induction l as [|h t IH]; simpl; [reflexivity|].
  destruct (p (f h)); simpl; now rewrite IH.
Qed.

Lemma filter_group2 {V : Type} (F : list Appearance -> V) (df : list Appearance)
      (e : Extended) :
  In (s_noc (e_stats e), s_code (e_stats e)) (group_keys2 df) ->
  filter (on_key2 e) (map (fun g => (fst g, F (snd g))) (groupby2 df)) =
  [((s_noc (e_stats e), s_code (e_stats e)),
    F (group_of df (s_noc (e_stats e)) (s_code (e_stats e))))].
Proof.
  intros HI. unfold groupby2. rewrite map_map. simpl. rewrite filter_map_comm.
  rewrite (filter_ext _ (fun x => if pair_dec x (s_noc (e_stats e), s_code (e_stats e))
                                  then true else false)).
  - rewrite filter_eq_NoDup; [reflexivity | apply group_keys2_NoDup | exact HI].
  - intros [n c]. unfold on_key2. simpl.
    destruct (pair_dec (n, c) (s_noc (e_stats e), s_code (e_stats e))) as [E|D].
    + injection E as -> ->. now rewrite !String.eqb_refl.
    + destruct (String.eqb_spec (s_noc (e_stats e)) n);
        destruct (String.eqb_spec (s_code (e_stats e)) c); simpl; auto.
      subst. congruence.
Qed.

Lemma stat_key2_In (df : list Appearance) (k : key3) :
  In k (group_keys3 df) ->
  In (s_noc (stat_of df k), s_code (stat_of df k)) (group_keys2 df).
Proof.
  rewrite group_keys3_In, group_keys2_In. intros (r & Hr & Hk). exists r. split; [exact Hr|].
  unfold row_key3 in Hk. destruct (Year r); [|discriminate].
  inversion Hk; subst. reflexivity.
Qed.

(** The output is the closed-form row of each group key, in key order,
    whatever the arithmetic. *)
Lemma process_data_with_eq {R : Type} (zero : R) (quotient : Z -> Z -> R)
      (df : list Appearance) :
  process_data_with zero quotient df
  = map (row_of_with zero quotient df) (group_keys3 df).
Proof.
  unfold process_data_with. rewrite stats_table_eq, basic_stats_eq, map_map.
  unfold rates_table_with, career_table_with.
  rewrite (merge_left_single on_key2
             (fun e => ((s_noc (e_stats e), s_code (e_stats e)),
                        historical_rates_with zero quotient
                          (group_of df (s_noc (e_stats e)) (s_code (e_stats e)))))).
  2:{ intros e He. apply in_map_iff in He. destruct He as (k & <- & Hk).
      apply (filter_group2 (historical_rates_with zero quotient)). simpl.
      now apply stat_key2_In. }
  rewrite map_map.
  rewrite (merge_left_single _
             (fun l => ((s_noc (e_stats (fst l)), s_code (e_stats (fst l))),
                        career_length_with zero quotient
                          (group_of df (s_noc (e_stats (fst l))) (s_code (e_stats (fst l))))))).
  2:{ intros l Hl. apply in_map_iff in Hl. destruct Hl as (k & <- & Hk).
      apply (filter_group2 (career_length_with zero quotient)). simpl.
      now apply stat_key2_In. }
  rewrite !map_map. apply map_ext_in. intros k Hk. reflexivity.
Qed.

Lemma process_data_eq (df : list Appearance) :
  process_data df = map (row_of df) (group_keys3 df).
Proof. apply process_data_with_eq. Qed.

Lemma process_data64_eq (df : list Appearance) :
  process_data64 df = map (row_of64 df) (group_keys3 df).
Proof. apply process_data_with_eq. Qed.

Lemma row_of_key (df : list Appearance) (k : key3) : feature_key (row_of df k) = k.
Proof. destruct k as [[y n] c]. reflexivity. Qed.

(** ** Keys of the output *)

Lemma count_key_once (df : list Appearance) (k : key3) :
  In k (group_keys3 df) -> count (has_key k) (process_data df) = 1.
Proof.
  intros Hk. unfold count. rewrite process_data_eq, filter_map_comm.
  rewrite (filter_ext _ (fun x => if key_dec x k then true else false)).
  - rewrite filter_eq_NoDup; [reflexivity | apply group_keys3_NoDup | exact Hk].
  - intros x. unfold has_key. now rewrite row_of_key.
Qed.

(** C1: every (year, NOC, code) key carried by an input row appears on
    exactly one row of the output, the two left joins included. *)
Theorem output_has_each_input_key_once (df : list Appearance) (r : Appearance) (y : Z) :
  In r df -> Year r = Some y ->
  count (has_key (y, NOC r, code r)) (process_data df) = 1.
Proof.
  intros Hr Hy. apply count_key_once, group_keys3_In.
  exists r. split; [exact Hr|]. unfold row_key3. now rewrite Hy.
Qed.

Lemma output_has_each_input_key_once_witness :
  count (has_key (2008%Z, "USA"%string, "ATH"%string)) (process_data sample) = 1.
Proof.
  apply (output_has_each_input_key_once sample
           (mkAppearance (Some 2008%Z) "USA" "ATH" "100m" "B" None 0) 2008%Z).
  - simpl. tauto.
  - reflexivity.
Defined.

Lemma group_keys3_drop_missing (df : list Appearance) :
  group_keys3 (filter year_present df) = group_keys3 df.
Proof.
  unfold group_keys3. do 2 f_equal.
  induction df as [|r t IH]; [reflexivity|].
  simpl. unfold year_present at 1. unfold row_key3 at 2.
  destruct (Year r) eqn:E; simpl.
  - unfold row_key3 at 1. rewrite E. simpl. now rewrite IH.
  - exact IH.
Qed.

(** C10: a row whose Year is missing gives the output no key: the keys of
    the output are those of the frame without such rows, and every output
    row carries the key of an input row whose Year is present. *)
Theorem missing_year_rows_give_no_key (df : list Appearance) :
  map feature_key (process_data df)
  = map feature_key (process_data (filter year_present df))
  /\ forall f, In f (process_data df) ->
       exists r, In r df /\ Year r = Some (time f)
                 /\ NOC r = country_code f /\ code r = sport_category_code f.
Proof.
  split.
  - rewrite !process_data_eq, !map_map, group_keys3_drop_missing.
    apply map_ext. intros k. now rewrite !row_of_key.
  - intros f Hf. rewrite process_data_eq in Hf. apply in_map_iff in Hf.
    destruct Hf as (k & <- & Hk). apply group_keys3_In in Hk.
    destruct Hk as (r & Hr & Hk). exists r. split; [exact Hr|].
    unfold row_key3 in Hk. destruct (Year r) as [y|]; [|discriminate].
    inversion Hk; subst. simpl. auto.
Qed.

Lemma missing_year_rows_give_no_key_witness :
  map feature_key (process_data sample)
  = map feature_key (process_data (filter year_present sample))
  /\ exists r, In r sample /\ Year r = Some 2012%Z
               /\ NOC r = "CHN"%string /\ code r = "ATH"%string.
Proof.
  split.
  - apply (missing_year_rows_give_no_key sample).
  - apply (proj2 (missing_year_rows_give_no_key sample)
                 (row_of sample (2012%Z, "CHN"%string, "ATH"%string))).
    rewrite process_data_eq. apply in_map. vm_compute. tauto.
Defined.

(** ** Basic counters *)

Lemma count_cons {A : Type} (p : A -> bool) (x : A) (l : list A) :
  count p (x :: l) = (if p x then 1 else 0) + count p l.
Proof. unfold count. simpl. now destruct (p x). Qed.

Lemma one_medal_per_row (r : Appearance) :
  (if medal_is "Gold" r then 1 else 0) + (if medal_is "Silver" r then 1 else 0)
  + (if medal_is "Bronze" r then 1 else 0) <= 1.
Proof.
  unfold medal_is. destruct (Medal r) as [m|]; [|simpl; lia].
  destruct (String.eqb_spec m "Gold") as [->|]; [simpl; lia|].
  destruct (String.eqb_spec m "Silver") as [->|]; [simpl; lia|].
  destruct (String.eqb m "Bronze"); simpl; lia.
Qed.

Lemma medal_counts_le (g : list Appearance) :
  count (medal_is "Gold") g + count (medal_is "Silver") g + count (medal_is "Bronze") g
  <= List.length g.
Proof.
  induction g as [|r t IH]; [unfold count; simpl; lia|].
  rewrite !count_cons. pose proof (one_medal_per_row r). simpl List.length. lia.
Qed.

(** C7: on every output row the three medal counts add up to at most the
    participation count of the row. *)
Theorem medals_within_participation (df : list Appearance) (f : Feature) :
  In f (process_data df) ->
  actual_gold_count f + actual_silver_count f + actual_bronze_count f
  <= year_country_sport_participation f.
Proof.
  rewrite process_data_eq. intros Hf. apply in_map_iff in Hf.
  destruct Hf as (k & <- & _). simpl. apply medal_counts_le.
Qed.

Lemma medals_within_participation_witness :
  let f := row_of sample (2008%Z, "USA"%string, "ATH"%string) in
  actual_gold_count f + actual_silver_count f + actual_bronze_count f
  <= year_country_sport_participation f.
Proof.
  apply (medals_within_participation sample).
  rewrite process_data_eq. apply in_map. vm_compute. tauto.
Defined.

(** C6: the year-and-sport total of an output row is the sum of the
    participation counts of the output rows (one per NOC) of that year and
    sport code. *)
Theorem year_sport_total_is_sum (df : list Appearance) (f : Feature) :
  In f (process_data df) ->
  year_sport_total_participation f
  = sum (map year_country_sport_participation
             (filter (same_year_sport f) (process_data df))).
Proof.
  rewrite process_data_eq. intros Hf. apply in_map_iff in Hf.
  destruct Hf as (k & <- & _). simpl.
  unfold year_sport_sum. rewrite basic_stats_eq, !filter_map_comm, !map_map.
  reflexivity.
Qed.

Lemma year_sport_total_is_sum_witness :
  let f := row_of sample (2008%Z, "USA"%string, "ATH"%string) in
  year_sport_total_participation f
  = sum (map year_country_sport_participation
             (filter (same_year_sport f) (process_data sample))).
Proof.
  apply (year_sport_total_is_sum sample).
  rewrite process_data_eq. apply in_map. vm_compute. tauto.
Defined.

(** ** The per-row [try] of the lookback loop *)

(** C9: the loop appends one star value and one rising value for every row
    of the stats frame; a row whose lookup fails (its year is not in the
    year sequence) gets 0 and 0, and every other row gets its own values. *)
Theorem failing_row_gets_zero_and_loop_goes_on
        (years : list (option Z)) (d : list (medal_key * nat)) (stats : list Stats) :
  List.length (fst (lookback_loop years d stats)) = List.length stats
  /\ List.length (snd (lookback_loop years d stats)) = List.length stats
  /\ forall i s, nth_error stats i = Some s ->
       (lookback_row years d s = None ->
        nth_error (fst (lookback_loop years d stats)) i = Some 0
        /\ nth_error (snd (lookback_loop years d stats)) i = Some 0)
       /\ (forall v, lookback_row years d s = Some v ->
           nth_error (fst (lookback_loop years d stats)) i = Some (fst v)
           /\ nth_error (snd (lookback_loop years d stats)) i = Some (snd v)).
Proof.
  rewrite lookback_loop_eq. simpl. rewrite !length_map.
  repeat split; intros.
  - erewrite map_nth_error by eassumption.
    unfold lookback_result. now rewrite H0.
  - erewrite map_nth_error by eassumption.
    unfold lookback_result. now rewrite H0.
  - erewrite map_nth_error by eassumption.
    unfold lookback_result. now rewrite H0.
  - erewrite map_nth_error by eassumption.
    unfold lookback_result. now rewrite H0.
Qed.

Lemma failing_row_gets_zero_and_loop_goes_on_witness :
  let years := [Some 2004%Z; Some 2008%Z; Some 2012%Z] in
  let d := athlete_medals_dict sample in
  let stats := [stat_of sample (2000%Z, "USA"%string, "ATH"%string);
                stat_of sample (2012%Z, "USA"%string, "ATH"%string)] in
  lookback_row years d (stat_of sample (2000%Z, "USA"%string, "ATH"%string)) = None
  /\ nth_error (fst (lookback_loop years d stats)) 0 = Some 0
  /\ nth_error (snd (lookback_loop years d stats)) 0 = Some 0
  /\ nth_error (fst (lookback_loop years d stats)) 1 = Some 1
  /\ nth_error (snd (lookback_loop years d stats)) 1 = Some 1.
Proof.
  intros years d stats.
  pose proof (failing_row_gets_zero_and_loop_goes_on years d stats) as (_ & _ & H).
  destruct (H 0 (stat_of sample (2000%Z, "USA"%string, "ATH"%string)) eq_refl) as (H0 & _).
  destruct (H 1 (stat_of sample (2012%Z, "USA"%string, "ATH"%string)) eq_refl) as (_ & H1).
  split; [reflexivity|].
  split; [exact (proj1 (H0 eq_refl))|].
  split; [exact (proj2 (H0 eq_refl))|].
  split; [exact (proj1 (H1 (1, 1) eq_refl)) | exact (proj2 (H1 (1, 1) eq_refl))].
Defined.

(** ** Historical rates *)

Lemma ratio_sum_le (g s b t : nat) :
  g + s + b <= t -> t <> 0 -> (ratio g t + ratio s t + ratio b t <= 1)%Q.
Proof.
  intros H Ht. unfold ratio, Qdiv.
  rewrite <- !Qmult_plus_distr_l, <- !inject_Z_plus.
  apply Qle_shift_div_r.
  - change 0%Q with (inject_Z 0). rewrite <- Zlt_Qlt. lia.
  - rewrite Qmult_1_l, <- Zle_Qle. lia.
Qed.

Lemma rank_counts_le {A : Type} (l : list (A * nat)) :
  count (fun b => snd b =? 1) l + count (fun b => snd b =? 2) l
  + count (fun b => snd b =? 3) l <= List.length l.
Proof.
  induction l as [|b t IH]; [unfold count; simpl; lia|].
  rewrite !count_cons. simpl List.length.
  destruct (Nat.eqb_spec (snd b) 1) as [->|]; [simpl; lia|].
  destruct (Nat.eqb_spec (snd b) 2) as [->|]; [simpl; lia|].
  destruct (snd b =? 3); lia.
Qed.

Lemma best_medals_length (rows : list Appearance) :
  List.length (best_medals rows) = List.length (unique string_dec (map Name rows)).
Proof.
  unfold best_medals, groupby_name. now rewrite !length_map, sorted_length.
Qed.

Lemma rates_sum_le_1 (group : list Appearance) :
  (fst (fst (calculate_historical_rates group))
   + snd (fst (calculate_historical_rates group))
   + snd (calculate_historical_rates group) <= 1)%Q.
Proof.
  unfold calculate_historical_rates, historical_rates_with.
  destruct (List.length (py_sorted year_ltb (unique year_dec (map Year group))) <? 2);
    [discriminate|].
  set (h := filter _ group).
  destruct (Nat.eqb_spec (List.length (unique string_dec (map Name h))) 0) as [E|N];
    [discriminate|].
  simpl. apply ratio_sum_le; [|exact N].
  rewrite <- best_medals_length. apply rank_counts_le.
Qed.

(** With exact quotients, two output rows of one (NOC, code) pair carry
    the same three historical rates whatever their years, and on every
    output row the three rates add up to at most 1. *)
Lemma rates_shared_by_group_and_sum_le_1 (df : list Appearance) :
  (forall f1 f2, In f1 (process_data df) -> In f2 (process_data df) ->
     country_code f1 = country_code f2 ->
     sport_category_code f1 = sport_category_code f2 ->
     country_sport_gold_rate f1 = country_sport_gold_rate f2
     /\ country_sport_silver_rate f1 = country_sport_silver_rate f2
     /\ country_sport_bronze_rate f1 = country_sport_bronze_rate f2)
  /\ (forall f, In f (process_data df) ->
        (country_sport_gold_rate f + country_sport_silver_rate f
         + country_sport_bronze_rate f <= 1)%Q).
Proof.
  rewrite process_data_eq. split.
  - intros f1 f2 H1 H2. apply in_map_iff in H1, H2.
    destruct H1 as (k1 & <- & _), H2 as (k2 & <- & _). simpl.
    intros -> ->. auto.
  - intros f Hf. apply in_map_iff in Hf. destruct Hf as (k & <- & _). simpl.
    apply rates_sum_le_1.
Qed.

Lemma rates_shared_by_group_and_sum_le_1_example :
  let f1 := row_of sample (2004%Z, "USA"%string, "ATH"%string) in
  let f2 := row_of sample (2016%Z, "USA"%string, "ATH"%string) in
  (country_sport_gold_rate f1 = country_sport_gold_rate f2
   /\ country_sport_silver_rate f1 = country_sport_silver_rate f2
   /\ country_sport_bronze_rate f1 = country_sport_bronze_rate f2)
  /\ (country_sport_gold_rate f1 + country_sport_silver_rate f1
      + country_sport_bronze_rate f1 <= 1)%Q.
Proof.
  intros f1 f2.
  assert (H1 : In f1 (process_data sample))
    by (rewrite process_data_eq; apply in_map; vm_compute; tauto).
  assert (H2 : In f2 (process_data sample))
    by (rewrite process_data_eq; apply in_map; vm_compute; tauto).
  split.
  - apply (proj1 (rates_shared_by_group_and_sum_le_1 sample) f1 f2 H1 H2); reflexivity.
  - apply (proj2 (rates_shared_by_group_and_sum_le_1 sample) f1 H1).
Qed.

(** Whatever the arithmetic, the rates of a group are the three zeros of
    the early returns, or the quotients of three counts of athletes by one
    positive total that the counts do not exceed together. *)
Lemma historical_rates_with_cases {R : Type} (zero : R) (quotient : Z -> Z -> R)
      (group : list Appearance) :
  historical_rates_with zero quotient group = (zero, zero, zero)
  \/ exists g s b t, t <> 0 /\ g + s + b <= t
       /\ historical_rates_with zero quotient group
          = (quotient (Z.of_nat g) (Z.of_nat t), quotient (Z.of_nat s) (Z.of_nat t),
             quotient (Z.of_nat b) (Z.of_nat t)).
Proof.
  unfold historical_rates_with.
  destruct (List.length (py_sorted year_ltb (unique year_dec (map Year group))) <? 2);
    [now left|].
  set (h := filter _ group).
  destruct (Nat.eqb_spec (List.length (unique string_dec (map Name h))) 0) as [E|N];
    [now left|].
  right. exists (count (fun b => snd b =? 1) (best_medals h)),
    (count (fun b => snd b =? 2) (best_medals h)),
    (count (fun b => snd b =? 3) (best_medals h)),
    (List.length (unique string_dec (map Name h))).
  split; [exact N|]. split; [|reflexivity].
  rewrite <- best_medals_length. apply rank_counts_le.
Qed.

(** C2 as stated fails in the arithmetic of the script.  In [sample_28]
    the 28 athletes of the pair before 2000 have Gold (9), Silver (18) and
    Bronze (1) as best medal; the output row carries the binary64 quotients
    9/28, 18/28 and 1/28, which are above the exact ones by rounding: their
    exact sum is above 1, and so is their binary64 sum, gold + silver +
    bronze in this order (1 + 2^-52). *)
Lemma rates64_sum_above_1_counterexample :
  exists f, In f (process_data64 sample_28)
    /\ (country_sport_gold_rate f, country_sport_silver_rate f,
        country_sport_bronze_rate f)
       = (quotient64 9 28, quotient64 18 28, quotient64 1 28)
    /\ add64 (add64 (country_sport_gold_rate f) (country_sport_silver_rate f))
             (country_sport_bronze_rate f)
       = SpecFloat.S754_finite false 4503599627370497 (-52)
    /\ ltb64 (float_of_Z 1)
             (add64 (add64 (country_sport_gold_rate f) (country_sport_silver_rate f))
                    (country_sport_bronze_rate f)) = true
    /\ (1 < Q_of_float64 (country_sport_gold_rate f)
            + Q_of_float64 (country_sport_silver_rate f)
            + Q_of_float64 (country_sport_bronze_rate f))%Q.
Proof.
  exists (row_of64 sample_28 (2000%Z, "USA"%string, "ATH"%string)). split.
  - rewrite process_data64_eq. apply in_map. vm_compute. tauto.
  - repeat split; vm_compute; reflexivity.
Qed.

(** C2, in the arithmetic of the script: two output rows of one (NOC,
    code) pair carry the same three historical rates whatever their years;
    on every output row the three rates are 0, or they are the binary64
    quotients of three counts of athletes by one positive total that the
    counts do not exceed together, so that the exact quotients add up to at
    most 1. *)
Theorem rates64_shared_by_group_and_counts_le_total (df : list Appearance) :
  (forall f1 f2, In f1 (process_data64 df) -> In f2 (process_data64 df) ->
     country_code f1 = country_code f2 ->
     sport_category_code f1 = sport_category_code f2 ->
     country_sport_gold_rate f1 = country_sport_gold_rate f2
     /\ country_sport_silver_rate f1 = country_sport_silver_rate f2
     /\ country_sport_bronze_rate f1 = country_sport_bronze_rate f2)
  /\ (forall f, In f (process_data64 df) ->
        (country_sport_gold_rate f, country_sport_silver_rate f,
         country_sport_bronze_rate f) = (zero64, zero64, zero64)
        \/ exists g s b t, t <> 0 /\ g + s + b <= t
             /\ (country_sport_gold_rate f, country_sport_silver_rate f,
                 country_sport_bronze_rate f)
                = (quotient64 (Z.of_nat g) (Z.of_nat t),
                   quotient64 (Z.of_nat s) (Z.of_nat t),
                   quotient64 (Z.of_nat b) (Z.of_nat t))
             /\ (ratio g t + ratio s t + ratio b t <= 1)%Q).
Proof.
  rewrite process_data64_eq. split.
  - intros f1 f2 H1 H2. apply in_map_iff in H1, H2.
    destruct H1 as (k1 & <- & _), H2 as (k2 & <- & _). simpl.
    intros -> ->. auto.
  - intros f Hf. apply in_map_iff in Hf. destruct Hf as (k & <- & _).
    unfold row_of64, row_of_with, feature_of_with.
    cbn [country_sport_gold_rate country_sport_silver_rate country_sport_bronze_rate
         fst snd option_map fillna].
    set (r := historical_rates_with zero64 quotient64 _).
    destruct (historical_rates_with_cases zero64 quotient64
                (group_of df (s_noc (stat_of df k)) (s_code (stat_of df k))))
      as [E|(g & s & b & t & Ht & Hle & E)]; fold r in E.
    + left. now rewrite <- surjective_pairing, <- surjective_pairing.
    + right. exists g, s, b, t. split; [exact Ht|]. split; [exact Hle|].
      split; [now rewrite <- surjective_pairing, <- surjective_pairing|].
      now apply ratio_sum_le.
Qed.

Lemma rates64_shared_by_group_and_counts_le_total_witness :
  let f1 := row_of64 sample_28 (1996%Z, "USA"%string, "ATH"%string) in
  let f2 := row_of64 sample_28 (2000%Z, "USA"%string, "ATH"%string) in
  (country_sport_gold_rate f1 = country_sport_gold_rate f2
   /\ country_sport_silver_rate f1 = country_sport_silver_rate f2
   /\ country_sport_bronze_rate f1 = country_sport_bronze_rate f2)
  /\ ((country_sport_gold_rate f1, country_sport_silver_rate f1,
       country_sport_bronze_rate f1) = (zero64, zero64, zero64)
      \/ exists g s b t, t <> 0 /\ g + s + b <= t
           /\ (country_sport_gold_rate f1, country_sport_silver_rate f1,
               country_sport_bronze_rate f1)
              = (quotient64 (Z.of_nat g) (Z.of_nat t),
                 quotient64 (Z.of_nat s) (Z.of_nat t),
                 quotient64 (Z.of_nat b) (Z.of_nat t))
           /\ (ratio g t + ratio s t + ratio b t <= 1)%Q).
Proof.
  intros f1 f2.
  assert (H1 : In f1 (process_data64 sample_28))
    by (rewrite process_data64_eq; apply in_map; vm_compute; tauto).
  assert (H2 : In f2 (process_data64 sample_28))
    by (rewrite process_data64_eq; apply in_map; vm_compute; tauto).
  split.
  - apply (proj1 (rates64_shared_by_group_and_counts_le_total sample_28) f1 f2 H1 H2);
      reflexivity.
  - apply (proj2 (rates64_shared_by_group_and_counts_le_total sample_28) f1 H1).
Defined.

(** ** Career length *)

Lemma fold_min_spec (t : list Z) (x : Z) :
  In (fold_left Z.min t x) (x :: t)
  /\ forall y, In y (x :: t) -> (fold_left Z.min t x <= y)%Z.
Proof.
  revert x. induction t as [|h t IH]; intros x; simpl.
  - split; [now left | intros y [->|[]]; lia].
  - destruct (IH (Z.min x h)) as [HI HL]. split.
    + destruct HI as [E|HI]; [|auto].
      rewrite <- E. destruct (Z.min_spec x h) as [[_ ->]|[_ ->]]; auto.
    + intros y [->|[->|Hy]].
      * specialize (HL (Z.min y h) (or_introl eq_refl)). lia.
      * specialize (HL (Z.min x y) (or_introl eq_refl)). lia.
      * apply HL. now right.
Qed.

Lemma fold_max_spec (t : list Z) (x : Z) :
  In (fold_left Z.max t x) (x :: t)
  /\ forall y, In y (x :: t) -> (y <= fold_left Z.max t x)%Z.
Proof.
  revert x. induction t as [|h t IH]; intros x; simpl.
  - split; [now left | intros y [->|[]]; lia].
  - destruct (IH (Z.max x h)) as [HI HL]. split.
    + destruct HI as [E|HI]; [|auto].
      rewrite <- E. destruct (Z.max_spec x h) as [[_ ->]|[_ ->]]; auto.
    + intros y [->|[->|Hy]].
      * specialize (HL (Z.max y h) (or_introl eq_refl)). lia.
      * specialize (HL (Z.max x y) (or_introl eq_refl)). lia.
      * apply HL. now right.
Qed.

Lemma year_min_None (l : list (option Z)) :
  year_min l = None <-> forall y, ~ In (Some y) l.
Proof.
  unfold year_min. destruct (present l) as [|x t] eqn:E.
  - split; [|reflexivity]. intros _ y Hy. apply present_In in Hy. now rewrite E in Hy.
  - split; [discriminate|]. intros H. exfalso. apply (H x), present_In. rewrite E. now left.
Qed.

Lemma year_min_Some (l : list (option Z)) (m : Z) :
  year_min l = Some m <->
  In (Some m) l /\ forall y, In (Some y) l -> (m <= y)%Z.
Proof.
  unfold year_min. destruct (present l) as [|x t] eqn:E.
  - split; [discriminate|]. intros [H _]. apply present_In in H. now rewrite E in H.
  - destruct (fold_min_spec t x) as [HI HL]. rewrite <- E in HI, HL. split.
    + intros H. inversion H; subst. split; [now apply present_In|].
      intros y Hy. apply HL. now apply present_In.
    + intros [H1 H2]. f_equal. apply Z.le_antisymm.
      * apply HL. now apply present_In.
      * apply H2. now apply present_In.
Qed.

Lemma groupby_name_keys (rows : list Appearance) (a : string) :
  In a (sorted String.ltb (unique string_dec (map Name rows))) <->
  exists r, In r rows /\ Name r = a.
Proof.
  rewrite sorted_In, unique_In, in_map_iff.
  split; intros (r & H1 & H2); exists r; auto.
Qed.

Lemma athlete_row_year (g : list Appearance) (a : string) (y : Z) :
  In (Some y) (map Year (rows_of_athlete g a)) <->
  exists r, In r g /\ Name r = a /\ Year r = Some y.
Proof.
  unfold rows_of_athlete. rewrite in_map_iff. split.
  - intros (r & Hy & Hr). apply filter_In in Hr. destruct Hr as [Hr Hn].
    apply String.eqb_eq in Hn. eauto.
  - intros (r & Hr & Hn & Hy). exists r. split; [exact Hy|].
    apply filter_In. split; [exact Hr|]. now apply String.eqb_eq.
Qed.

(** The least of the per-athlete minima is the least year of the group. *)
Lemma min_of_athlete_minima (g : list Appearance) :
  year_min (map (fun a => fst (snd a)) (athlete_years g)) = earliest_year g.
Proof.
  unfold athlete_years, earliest_year, groupby_name. rewrite !map_map. simpl.
  destruct (year_min (map Year g)) as [m|] eqn:E.
  - apply year_min_Some in E. destruct E as [Hm Hle]. apply year_min_Some.
    apply in_map_iff in Hm. destruct Hm as (r & Hy & Hr). split.
    + apply in_map_iff. exists (Name r). split.
      * apply year_min_Some. split.
        -- apply athlete_row_year. eauto.
        -- intros y Hy'. apply athlete_row_year in Hy'.
           destruct Hy' as (r' & Hr' & _ & Hy'). apply Hle.
           rewrite <- Hy'. now apply in_map.
      * apply groupby_name_keys. eauto.
    + intros y Hy'. apply in_map_iff in Hy'. destruct Hy' as (a & Hy' & _).
      apply year_min_Some in Hy'. destruct Hy' as [Hy' _].
      apply athlete_row_year in Hy'. destruct Hy' as (r' & Hr' & _ & Hy').
      apply Hle. rewrite <- Hy'. now apply in_map.
  - apply year_min_None. intros y Hy. apply in_map_iff in Hy.
    destruct Hy as (a & Hy & _). apply year_min_Some in Hy. destruct Hy as [Hy _].
    apply athlete_row_year in Hy. destruct Hy as (r' & Hr' & _ & Hy).
    rewrite year_min_None in E. apply (E y). rewrite <- Hy. now apply in_map.
Qed.

Lemma career_lengths_eq (g : list Appearance) :
  career_lengths g
  = map (athlete_span g) (sorted String.ltb (distinct_athletes g)).
Proof.
  unfold career_lengths, athlete_years, groupby_name. rewrite !map_map. reflexivity.
Qed.

Lemma present_filter (l : list (option Z)) (p : Z -> bool) :
  present (filter (fun c => match c with Some d => p d | None => false end) l)
  = filter p (present l).
Proof.
  induction l as [|[x|] t IH]; simpl; auto.
  destruct (p x); simpl; now rewrite IH.
Qed.

Lemma filter_all_present (l : list (option Z)) (p : Z -> bool) :
  List.length (filter (fun c => match c with Some d => p d | None => false end) l)
  = List.length (filter p (present l)).
Proof.
  induction l as [|[x|] t IH]; simpl; auto.
  destruct (p x); simpl; now rewrite IH.
Qed.

Lemma present_perm {A : Type} (l l' : list (option A)) :
  Permutation l l' -> Permutation (present l) (present l').
Proof.
  induction 1 as [|x l l' _ IH|x y l|l l' l'' _ IH1 _ IH2]; simpl.
  - constructor.
  - destruct x; [now constructor | exact IH].
  - destruct x, y; try reflexivity. apply perm_swap.
  - now transitivity (present l').
Qed.

Lemma filter_perm {A : Type} (p : A -> bool) (l l' : list A) :
  Permutation l l' -> Permutation (filter p l) (filter p l').
Proof.
  induction 1 as [|x l l' _ IH|x y l|l l' l'' _ IH1 _ IH2]; simpl.
  - constructor.
  - destruct (p x); [now constructor | exact IH].
  - destruct (p x), (p y); try reflexivity. apply perm_swap.
  - now transitivity (filter p l').
Qed.

Lemma zsum_perm (l l' : list Z) : Permutation l l' -> zsum l = zsum l'.
Proof.
  induction 1 as [|x l l' _ IH|x y l|l l' l'' _ IH1 _ IH2]; simpl; lia.
Qed.

Lemma career_length_spec (g : list Appearance) :
  (earliest_year g = Some 1896%Z -> calculate_career_length g = 0%Q)
  /\ (earliest_year g <> Some 1896%Z ->
      calculate_career_length g = mean_or_zero (kept_spans g)).
Proof.
  unfold calculate_career_length, career_length_with.
  change (mean_with exact_quotient) with mean.
  destruct g as [|r0 g0]; [split; [discriminate | reflexivity]|].
  set (g := r0 :: g0). change (List.length g =? 0) with false. cbv iota.
  rewrite min_of_athlete_minima.
  destruct (year_eqb (earliest_year g) (Some 1896%Z)) eqn:E.
  - apply year_eqb_Some in E. split; [reflexivity | congruence].
  - split; [intros H; rewrite H in E; discriminate | intros _].
    rewrite career_lengths_eq. unfold mean.
    rewrite filter_all_present, present_filter.
    assert (P : Permutation
                  (filter (fun d => Z.leb d 24)
                          (present (map (athlete_span g)
                                        (sorted String.ltb (distinct_athletes g)))))
                  (kept_spans g)).
    { apply filter_perm, present_perm, Permutation_map, sorted_perm. }
    rewrite (zsum_perm _ _ P), (Permutation_length P).
    destruct (kept_spans g); reflexivity.
Qed.



(** ** Historical rates: what is computed *)

Lemma mem_Some (x : Z) (seen : list Z) :
  mem year_dec (Some x) (map Some seen) = mem Z.eq_dec x seen.
Proof.
  destruct (mem Z.eq_dec x seen) eqn:E.
  - apply mem_true. apply mem_true in E. now apply in_map.
  - apply mem_false. apply mem_false in E. intros H. apply E.
    apply in_map_iff in H. destruct H as (z & Hz & Hi). congruence.
Qed.

Lemma unique_from_Some (l seen : list Z) :
  unique_from year_dec (map Some seen) (map Some l)
  = map Some (unique_from Z.eq_dec seen l).
Proof.
  revert seen. induction l as [|h t IH]; intros seen; simpl; [reflexivity|].
  rewrite mem_Some. destruct (mem Z.eq_dec h seen); [apply IH|].
  simpl. f_equal. apply (IH (h :: seen)).
Qed.

Lemma all_present_map (g : list Appearance) :
  forallb year_present g = true -> map Year g = map Some (present (map Year g)).
Proof.
  induction g as [|r t IH]; simpl; [reflexivity|].
  unfold year_present at 1. destruct (Year r); [|discriminate].
  simpl. intros H. now rewrite <- IH.
Qed.

Lemma sorted_Some (l : list Z) :
  NoDup l -> py_sorted year_ltb (map Some l) = map Some (sorted Z.ltb l).
Proof.
  intros ND. rewrite (py_sorted_map Some Z.ltb year_ltb) by reflexivity.
  f_equal. now apply (py_sorted_eq_sorted Z.ltb zltb_irrefl zltb_trans zltb_total).
Qed.

Lemma unique_Some (l : list Z) :
  unique year_dec (map Some l) = map Some (unique Z.eq_dec l).
Proof. exact (unique_from_Some l []). Qed.

(** On a group without missing years the script's year list is the
    ascending list of the distinct years. *)
Lemma years_of_group (g : list Appearance) :
  forallb year_present g = true ->
  py_sorted year_ltb (unique year_dec (map Year g))
  = map Some (sorted Z.ltb (distinct_years g)).
Proof.
  intros H. unfold distinct_years. set (ys := present (map Year g)).
  rewrite (all_present_map g H). fold ys.
  rewrite unique_Some. apply sorted_Some, unique_NoDup.
Qed.

Lemma insert_ssorted (x : Z) (l : list Z) :
  StronglySorted Z.le l -> StronglySorted Z.le (insert Z.ltb x l).
Proof.
  induction l as [|h t IH]; intros S; simpl.
  - repeat constructor.
  - apply StronglySorted_inv in S. destruct S as [S F].
    destruct (Z.ltb_spec h x) as [L|L].
    + constructor; [now apply IH|].
      apply Forall_forall. intros y Hy.
      apply (Permutation_in _ (insert_perm Z.ltb x t)) in Hy.
      destruct Hy as [<-|Hy]; [lia|]. rewrite Forall_forall in F. now apply F.
    + constructor; [now constructor|].
      constructor; [exact L|]. eapply Forall_impl; [|exact F]. intros; lia.
Qed.

Lemma sorted_ssorted (l : list Z) : StronglySorted Z.le (sorted Z.ltb l).
Proof.
  induction l as [|h t IH]; simpl; [constructor | now apply insert_ssorted].
Qed.

Lemma last_In {A : Type} (l : list A) (d : A) : l <> [] -> In (last l d) l.
Proof.
  induction l as [|h t IH]; intros N; [congruence|].
  destruct t as [|h' t']; [now left|]. right. apply IH. discriminate.
Qed.

Lemma ssorted_last (l : list Z) (d : Z) :
  StronglySorted Z.le l -> forall y, In y l -> (y <= last l d)%Z.
Proof.
  induction 1 as [|a l S IH F]; intros y Hy; [destruct Hy|].
  destruct l as [|h t]; [destruct Hy as [->|[]]; simpl; lia|].
  destruct Hy as [<-|Hy].
  - rewrite Forall_forall in F. apply F. apply (last_In (h :: t)). discriminate.
  - now apply IH.
Qed.

Lemma sorted_last_max (l : list Z) (m : Z) :
  In m l -> (forall y, In y l -> (y <= m)%Z) -> last (sorted Z.ltb l) 0%Z = m.
Proof.
  intros Hm Hle. apply Z.le_antisymm.
  - apply Hle, (sorted_In Z.ltb). apply last_In.
    intros E. apply (sorted_In Z.ltb) in Hm. now rewrite E in Hm.
  - apply ssorted_last; [apply sorted_ssorted | now apply sorted_In].
Qed.

Lemma last_map_Some (l : list Z) :
  l <> [] -> last (map Some l) None = Some (last l 0%Z).
Proof.
  induction l as [|h t IH]; intros N; [congruence|].
  destruct t as [|h' t']; [reflexivity|].
  change (last (map Some (h' :: t')) None = Some (last (h' :: t') 0%Z)).
  apply IH. discriminate.
Qed.

Lemma count_map {A B : Type} (p : B -> bool) (f : A -> B) (l : list A) :
  count p (map f l) = count (fun x => p (f x)) l.
Proof. unfold count. now rewrite filter_map_comm, length_map. Qed.

Lemma count_ext {A : Type} (p q : A -> bool) (l : list A) :
  (forall x, p x = q x) -> count p l = count q l.
Proof. intros H. unfold count. now rewrite (filter_ext p q H). Qed.

Lemma count_perm {A : Type} (p : A -> bool) (l l' : list A) :
  Permutation l l' -> count p l = count p l'.
Proof. intros H. unfold count. now apply Permutation_length, filter_perm. Qed.

Lemma fold_nat_min (t : list nat) (x y : nat) :
  fold_left Nat.min t (Nat.min x y) = Nat.min x (fold_left Nat.min t y).
Proof.
  revert y. induction t as [|h t IH]; intros y; simpl; [reflexivity|].
  now rewrite <- Nat.min_assoc, IH.
Qed.

Lemma min_default_cons (x : nat) (t : list nat) :
  x <= 4 -> min_default 4 (x :: t) = Nat.min x (min_default 4 t).
Proof.
  intros H. destruct t as [|y t]; simpl; [lia | apply fold_nat_min].
Qed.

Lemma medal_rank_cases (r : Appearance) :
  (medal_is "Gold" r = true /\ medal_rank (Medal r) = 1)
  \/ (medal_is "Gold" r = false /\ medal_is "Silver" r = true
      /\ medal_rank (Medal r) = 2)
  \/ (medal_is "Gold" r = false /\ medal_is "Silver" r = false
      /\ medal_is "Bronze" r = true /\ medal_rank (Medal r) = 3)
  \/ (medal_is "Gold" r = false /\ medal_is "Silver" r = false
      /\ medal_is "Bronze" r = false /\ medal_rank (Medal r) = 4).
Proof.
  unfold medal_is, medal_rank. destruct (Medal r) as [s|]; [|tauto].
  destruct (String.eqb s "Gold"); [tauto|].
  destruct (String.eqb s "Silver"); [tauto|].
  destruct (String.eqb s "Bronze"); tauto.
Qed.

(** The least rank over the rows of an athlete names the best medal. *)
Lemma best_rank_eq (rows : list Appearance) :
  min_default 4 (map (fun r => medal_rank (Medal r)) rows)
  = if existsb (medal_is "Gold") rows then 1
    else if existsb (medal_is "Silver") rows then 2
    else if existsb (medal_is "Bronze") rows then 3
    else 4.
Proof.
  induction rows as [|r t IH]; [reflexivity|].
  change (map (fun r0 => medal_rank (Medal r0)) (r :: t))
    with (medal_rank (Medal r) :: map (fun r0 => medal_rank (Medal r0)) t).
  rewrite min_default_cons
    by (destruct (medal_rank_cases r) as [H|[H|[H|H]]]; lia).
  rewrite IH. simpl existsb.
  destruct (medal_rank_cases r) as [(-> & ->)|[(-> & -> & ->)|[(-> & -> & -> & ->)
                                   |(-> & -> & -> & ->)]]];
    destruct (existsb (medal_is "Gold") t), (existsb (medal_is "Silver") t),
      (existsb (medal_is "Bronze") t); reflexivity.
Qed.

Lemma best_medals_eq (rows : list Appearance) :
  best_medals rows
  = map (fun a => (a, min_default 4 (map (fun r => medal_rank (Medal r))
                                         (rows_of_athlete rows a))))
        (sorted String.ltb (distinct_athletes rows)).
Proof. unfold best_medals, groupby_name. now rewrite map_map. Qed.

Lemma best_counts (rows : list Appearance) :
  count (fun b => snd b =? 1) (best_medals rows)
  = count (best_is_gold rows) (distinct_athletes rows)
  /\ count (fun b => snd b =? 2) (best_medals rows)
     = count (best_is_silver rows) (distinct_athletes rows)
  /\ count (fun b => snd b =? 3) (best_medals rows)
     = count (best_is_bronze rows) (distinct_athletes rows).
Proof.
  rewrite best_medals_eq, !count_map. simpl.
  rewrite !(count_perm _ _ _ (sorted_perm String.ltb (distinct_athletes rows))).
  repeat split; apply count_ext; intros a; rewrite best_rank_eq;
    unfold best_is_gold, best_is_silver, best_is_bronze, won;
    destruct (existsb (medal_is "Gold") (rows_of_athlete rows a)),
      (existsb (medal_is "Silver") (rows_of_athlete rows a)),
      (existsb (medal_is "Bronze") (rows_of_athlete rows a)); reflexivity.
Qed.

Lemma distinct_years_In (g : list Appearance) (y : Z) :
  In y (distinct_years g) <-> In (Some y) (map Year g).
Proof. unfold distinct_years. now rewrite unique_In, present_In. Qed.

(** X18: for a group in which every row has a numeric year the exact
    rates are (0, 0, 0) when the group has fewer than 2 distinct years or
    when no athlete appears on a row strictly below the group's greatest
    year; otherwise the rate of a medal colour is the number of distinct
    athletes of those earlier rows whose best medal (Gold, then Silver,
    then Bronze) is that colour, divided by the number of distinct athletes
    of those rows. *)
Theorem historical_rates_of_group (g : list Appearance) :
  forallb year_present g = true -> historical_rates_claim g.
Proof.
  intros Hp. unfold historical_rates_claim, calculate_historical_rates, historical_rates_with.
  rewrite (years_of_group g Hp), length_map, sorted_length. split.
  - intros Hlt. apply Nat.ltb_lt in Hlt. now rewrite Hlt.
  - intros m [Hm Hle].
    assert (Hcur : last (map Some (sorted Z.ltb (distinct_years g))) None = Some m).
    { rewrite last_map_Some.
      - f_equal. apply sorted_last_max; [now apply distinct_years_In|].
        intros y Hy. now apply Hle, distinct_years_In.
      - intros E. apply distinct_years_In, (sorted_In Z.ltb) in Hm. now rewrite E in Hm. }
    rewrite Hcur. fold (earlier_rows g m). fold (distinct_athletes (earlier_rows g m)).
    split.
    + intros H0. rewrite H0. now destruct (List.length (distinct_years g) <? 2).
    + intros H2 Hn.
      destruct (Nat.ltb_spec (List.length (distinct_years g)) 2) as [L|_]; [lia|].
      destruct (Nat.eqb_spec (List.length (distinct_athletes (earlier_rows g m))) 0)
        as [E|_]; [contradiction|].
      destruct (best_counts (earlier_rows g m)) as (-> & -> & ->). reflexivity.
Qed.

Lemma historical_rates_of_group_witness :
  let g := group_of sample "USA" "ATH" in
  calculate_historical_rates (filter (in_group3 (2016%Z, "USA"%string, "ATH"%string)) sample)
  = (0%Q, 0%Q, 0%Q)
  /\ calculate_historical_rates g
     = (ratio (count (best_is_gold (earlier_rows g 2016))
                     (distinct_athletes (earlier_rows g 2016)))
              (List.length (distinct_athletes (earlier_rows g 2016))),
        ratio (count (best_is_silver (earlier_rows g 2016))
                     (distinct_athletes (earlier_rows g 2016)))
              (List.length (distinct_athletes (earlier_rows g 2016))),
        ratio (count (best_is_bronze (earlier_rows g 2016))
                     (distinct_athletes (earlier_rows g 2016)))
              (List.length (distinct_athletes (earlier_rows g 2016)))).
Proof.
  intros g. split.
  - apply (proj1 (historical_rates_of_group
                    (filter (in_group3 (2016%Z, "USA"%string, "ATH"%string)) sample)
                    eq_refl)).
    vm_compute. lia.
  - assert (M : is_max_year g 2016).
    { split; [vm_compute; tauto|]. intros y Hy. vm_compute in Hy.
      repeat (destruct Hy as [Hy|Hy]; [inversion Hy; lia|]). destruct Hy. }
    apply (proj2 (proj2 (historical_rates_of_group g eq_refl) 2016%Z M)).
    + vm_compute. lia.
    + vm_compute. discriminate.
Defined.

(** C3 fails on a group with a row whose Year is missing.  The group of
    [sample_missing_year] has the years 1996 (athlete A, Gold), 2000 and a
    missing one, in this order.  [sorted] leaves the missing entry last
    (every comparison with it is false), so [current_year] is missing, no
    row is below it and the rates are (0, 0, 0).  The group has 2 distinct
    years, its greatest year is 2000, and the one athlete of the rows below
    2000 has Gold as best medal: the rates stated are (1, 0, 0), so what is
    stated of the group does not hold.  With the undated row first the same
    rows give (1, 0, 0): there the missing entry stays first and
    [current_year] is 2000. *)
Theorem historical_rates_missing_year_divergence :
  is_run year_ltb (unique year_dec (map Year sample_missing_year)) = true
  /\ py_sorted year_ltb (unique year_dec (map Year sample_missing_year))
     = [Some 1996%Z; Some 2000%Z; None]
  /\ calculate_historical_rates sample_missing_year = (0%Q, 0%Q, 0%Q)
  /\ List.length (distinct_years sample_missing_year) = 2
  /\ is_max_year sample_missing_year 2000
  /\ (ratio (count (best_is_gold (earlier_rows sample_missing_year 2000))
                   (distinct_athletes (earlier_rows sample_missing_year 2000)))
            (List.length (distinct_athletes (earlier_rows sample_missing_year 2000))),
      ratio (count (best_is_silver (earlier_rows sample_missing_year 2000))
                   (distinct_athletes (earlier_rows sample_missing_year 2000)))
            (List.length (distinct_athletes (earlier_rows sample_missing_year 2000))),
      ratio (count (best_is_bronze (earlier_rows sample_missing_year 2000))
                   (distinct_athletes (earlier_rows sample_missing_year 2000)))
            (List.length (distinct_athletes (earlier_rows sample_missing_year 2000))))
     = (1%Q, 0%Q, 0%Q)
  /\ ~ historical_rates_claim sample_missing_year
  /\ py_sorted year_ltb (unique year_dec (map Year sample_missing_year_first))
     = [None; Some 1996%Z; Some 2000%Z]
  /\ calculate_historical_rates sample_missing_year_first = (1%Q, 0%Q, 0%Q).
Proof.
  assert (M : is_max_year sample_missing_year 2000).
  { split; [vm_compute; tauto|]. intros y Hy. vm_compute in Hy.
    repeat (destruct Hy as [Hy|Hy]; [inversion Hy; lia|]). destruct Hy. }
  split; [reflexivity|].
  split; [reflexivity|]. split; [reflexivity|]. split; [reflexivity|].
  split; [exact M|]. split; [reflexivity|]. split; [|split; reflexivity].
  intros [_ H]. destruct (H 2000%Z M) as [_ H2].
  assert (E : calculate_historical_rates sample_missing_year = (1%Q, 0%Q, 0%Q)).
  { rewrite H2; [reflexivity | vm_compute; lia | vm_compute; discriminate]. }
  vm_compute in E. discriminate E.
Qed.

(** ** Lookback: the medal dict *)

Lemma medal_key_eqb_true (a b : medal_key) :
  medal_key_eqb a b = true <-> a = b /\ exists y, snd a = Some y.
Proof.
  destruct a as [[[n1 c1] a1] y1], b as [[[n2 c2] a2] y2].
  unfold medal_key_eqb. simpl.
  rewrite !andb_true_iff, !String.eqb_eq, year_eqb_true. split.
  - intros (((-> & ->) & ->) & (y & -> & ->)). eauto.
  - intros (E & y & ->). inversion E; subst. eauto 6.
Qed.

Lemma medal_key_eqb_sym (a b : medal_key) : medal_key_eqb a b = medal_key_eqb b a.
Proof.
  apply eq_true_iff_eq. rewrite !medal_key_eqb_true.
  split; intros (-> & H); auto.
Qed.

Lemma medal_key_eqb_trans (a b c : medal_key) :
  medal_key_eqb a b = true -> medal_key_eqb a c = medal_key_eqb b c.
Proof. intros H. apply medal_key_eqb_true in H. destruct H as (-> & _). reflexivity. Qed.

Lemma dict_incr_get (d : list (medal_key * nat)) (k k' : medal_key) :
  dict_get (dict_incr k d) k'
  = if medal_key_eqb k k' then dict_get d k' + 1 else dict_get d k'.
Proof.
  induction d as [|e t IH]; simpl.
  - now destruct (medal_key_eqb k k').
  - destruct (medal_key_eqb (fst e) k) eqn:E; simpl.
    + rewrite <- (medal_key_eqb_trans _ _ k' E).
      now destruct (medal_key_eqb (fst e) k').
    + destruct (medal_key_eqb (fst e) k') eqn:E'; [|exact IH].
      rewrite (medal_key_eqb_trans _ _ k E') in E.
      now rewrite medal_key_eqb_sym, E.
Qed.

Lemma dict_incr_key (d : list (medal_key * nat)) (k : medal_key) (e' : medal_key * nat) :
  In e' (dict_incr k d) -> fst e' = k \/ exists e, In e d /\ fst e = fst e'.
Proof.
  induction d as [|e t IH]; simpl.
  - intros [<-|[]]. now left.
  - destruct (medal_key_eqb (fst e) k).
    + intros [<-|H]; right; eauto.
    + intros [<-|H]; [right; eauto|].
      destruct (IH H) as [E|(e0 & H0 & E)]; [now left | right; eauto].
Qed.

Lemma dict_incr_uniq (d : list (medal_key * nat)) (k : medal_key) :
  uniq_keys d -> uniq_keys (dict_incr k d).
Proof.
  induction d as [|e t IH]; simpl.
  - intros _. split; [intros e' []|exact I].
  - intros [H U]. destruct (medal_key_eqb (fst e) k) eqn:E.
    + split; [exact H | exact U].
    + split; [|now apply IH].
      intros e' He'. destruct (dict_incr_key _ _ _ He') as [->|(e0 & H0 & <-)];
        [exact E | now apply H].
Qed.

Lemma dict_fold_uniq (rows : list Appearance) (d : list (medal_key * nat)) :
  uniq_keys d -> uniq_keys (fold_left dict_step rows d).
Proof.
  revert d. induction rows as [|r t IH]; intros d U; simpl; [exact U|].
  apply IH. unfold dict_step. destruct (has_medal r); [now apply dict_incr_uniq | exact U].
Qed.

Lemma dict_fold_get (rows : list Appearance) (d : list (medal_key * nat)) (k : medal_key) :
  dict_get (fold_left dict_step rows d) k
  = dict_get d k
    + count (fun r => has_medal r
                      && medal_key_eqb (NOC r, code r, Name r, Year r) k) rows.
Proof.
  revert d. induction rows as [|r t IH]; intros d; simpl.
  - unfold count. simpl. lia.
  - rewrite IH, count_cons. unfold dict_step.
    destruct (has_medal r); simpl; [|lia].
    rewrite dict_incr_get.
    destruct (medal_key_eqb (NOC r, code r, Name r, Year r) k); lia.
Qed.

Lemma athlete_medals_dict_uniq (df : list Appearance) : uniq_keys (athlete_medals_dict df).
Proof. apply (dict_fold_uniq df []). exact I. Qed.

(** The dict holds, under each key, the number of medal rows of the key. *)
Lemma athlete_medals_dict_get (df : list Appearance) (noc c a : string) (y : option Z) :
  dict_get (athlete_medals_dict df) (noc, c, a, y) = medals_in df noc c y a.
Proof.
  change (athlete_medals_dict df) with (fold_left dict_step df []).
  rewrite dict_fold_get. simpl. apply count_ext. intros r.
  unfold medal_key_eqb. simpl. now rewrite andb_comm.
Qed.

(** ** Lookback: the per-row athlete table *)

Lemma am_set_get (last_year prev_year ay : option Z) (mc : nat) (name : string)
      (am : list (string * (nat * nat))) (a : string) :
  am_get (am_set last_year prev_year ay mc name am) a
  = if String.eqb name a
    then set_slot last_year prev_year ay mc (am_get am name)
    else am_get am a.
Proof.
  induction am as [|e t IH]; simpl; [reflexivity|].
  destruct (String.eqb_spec (fst e) name) as [<-|N]; simpl.
  - now destruct (String.eqb (fst e) a).
  - rewrite IH. destruct (String.eqb_spec (fst e) a) as [<-|N']; [|reflexivity].
    destruct (String.eqb_spec name (fst e)); [congruence | reflexivity].
Qed.

Lemma am_set_names (last_year prev_year ay : option Z) (mc : nat) (name : string)
      (am : list (string * (nat * nat))) (a : string) :
  In a (map fst (am_set last_year prev_year ay mc name am))
  <-> a = name \/ In a (map fst am).
Proof.
  induction am as [|e t IH]; simpl.
  - intuition congruence.
  - destruct (String.eqb_spec (fst e) name) as [<-|N]; simpl.
    + intuition congruence.
    + rewrite IH. tauto.
Qed.

Lemma am_set_NoDup (last_year prev_year ay : option Z) (mc : nat) (name : string)
      (am : list (string * (nat * nat))) :
  NoDup (map fst am) ->
  NoDup (map fst (am_set last_year prev_year ay mc name am)).
Proof.
  induction am as [|e t IH]; simpl; intros ND.
  - constructor; [intros [] | constructor].
  - inversion ND as [|? ? Hn ND']; subst.
    destruct (String.eqb_spec (fst e) name) as [<-|N]; simpl.
    + now constructor.
    + constructor; [|now apply IH].
      rewrite am_set_names. intros [E|H]; [congruence | contradiction].
Qed.

Lemma am_step_NoDup (noc c : string) (last_year prev_year : option Z)
      (am : list (string * (nat * nat))) (e : medal_key * nat) :
  NoDup (map fst am) -> NoDup (map fst (am_step noc c last_year prev_year am e)).
Proof.
  intros ND. unfold am_step.
  destruct (_ && _); [|exact ND]. destruct (_ || _); [|exact ND].
  now apply am_set_NoDup.
Qed.

Lemma am_fold_NoDup (noc c : string) (last_year prev_year : option Z)
      (d : list (medal_key * nat)) (am : list (string * (nat * nat))) :
  NoDup (map fst am) ->
  NoDup (map fst (fold_left (am_step noc c last_year prev_year) d am)).
Proof.
  revert am. induction d as [|e t IH]; intros am ND; simpl; [exact ND|].
  now apply IH, am_step_NoDup.
Qed.

(** One turn writes, for each athlete, the slot of each year its entry
    hits. *)
Lemma am_step_get (noc c : string) (last_year prev_year : option Z)
      (am : list (string * (nat * nat))) (e : medal_key * nat) (a : string) :
  am_get (am_step noc c last_year prev_year am e) a
  = (if medal_key_eqb (fst e) (noc, c, a, last_year) then snd e else fst (am_get am a),
     if medal_key_eqb (fst e) (noc, c, a, prev_year) then snd e else snd (am_get am a)).
Proof.
  destruct e as [[[[n1 c1] a1] y1] mc]. unfold am_step, medal_key_eqb. simpl.
  destruct (String.eqb n1 noc), (String.eqb c1 c); simpl;
    try (now destruct (am_get am a)).
  destruct (year_eqb y1 last_year) eqn:E1, (year_eqb y1 prev_year) eqn:E2; simpl;
    rewrite ?am_set_get; unfold set_slot; rewrite ?E1, ?E2;
    destruct (String.eqb_spec a1 a) as [->|N]; simpl;
    now destruct (am_get am a).
Qed.

Lemma am_fold_get (noc c : string) (last_year prev_year : option Z)
      (d : list (medal_key * nat)) (am : list (string * (nat * nat))) (a : string) :
  am_get (fold_left (am_step noc c last_year prev_year) d am) a
  = (fold_left (fun v e => if medal_key_eqb (fst e) (noc, c, a, last_year)
                           then snd e else v) d (fst (am_get am a)),
     fold_left (fun v e => if medal_key_eqb (fst e) (noc, c, a, prev_year)
                           then snd e else v) d (snd (am_get am a))).
Proof.
  revert am. induction d as [|e t IH]; intros am; simpl.
  - now destruct (am_get am a).
  - now rewrite IH, am_step_get.
Qed.

Lemma no_hit_fold (d : list (medal_key * nat)) (k : medal_key) (v : nat) :
  (forall e, In e d -> medal_key_eqb (fst e) k = false) ->
  fold_left (fun v e => if medal_key_eqb (fst e) k then snd e else v) d v = v.
Proof.
  revert v. induction d as [|e t IH]; intros v H; simpl; [reflexivity|].
  rewrite (H e) by now left. apply IH. intros e' He'. apply H. now right.
Qed.

(** With distinct keys the last write under a key is the entry of the key. *)
Lemma uniq_fold_get (d : list (medal_key * nat)) (k : medal_key) :
  uniq_keys d ->
  fold_left (fun v e => if medal_key_eqb (fst e) k then snd e else v) d 0
  = dict_get d k.
Proof.
  induction d as [|e t IH]; simpl; [reflexivity|]. intros [H U].
  destruct (medal_key_eqb (fst e) k) eqn:E; [|now apply IH].
  apply no_hit_fold. intros e' He'.
  rewrite medal_key_eqb_sym, <- (medal_key_eqb_trans _ _ (fst e') E). now apply H.
Qed.

Lemma athletes_medals_get (df : list Appearance) (noc c : string)
      (last_year prev_year : option Z) (a : string) :
  am_get (athletes_medals (athlete_medals_dict df) noc c last_year prev_year) a
  = (medals_in df noc c last_year a, medals_in df noc c prev_year a).
Proof.
  change (athletes_medals (athlete_medals_dict df) noc c last_year prev_year)
    with (fold_left (am_step noc c last_year prev_year) (athlete_medals_dict df) []).
  rewrite am_fold_get. simpl.
  rewrite !uniq_fold_get by apply athlete_medals_dict_uniq.
  now rewrite !athlete_medals_dict_get.
Qed.

Lemma am_get_absent (am : list (string * (nat * nat))) (a : string) :
  ~ In a (map fst am) -> am_get am a = (0, 0).
Proof.
  induction am as [|e t IH]; simpl; intros N; [reflexivity|].
  destruct (String.eqb_spec (fst e) a) as [E|_]; [tauto|]. apply IH. tauto.
Qed.

Lemma count_ext_in {A : Type} (p q : A -> bool) (l : list A) :
  (forall x, In x l -> p x = q x) -> count p l = count q l.
Proof. intros H. unfold count. now rewrite (filter_ext_in p q l H). Qed.

Lemma count_am (q : nat * nat -> bool) (am : list (string * (nat * nat))) :
  NoDup (map fst am) ->
  count (fun e => q (snd e)) am = count (fun a => q (am_get am a)) (map fst am).
Proof.
  induction am as [|e t IH]; intros ND; [reflexivity|].
  inversion ND as [|? ? Hn ND']; subst.
  change (map fst (e :: t)) with (fst e :: map fst t).
  rewrite !count_cons, (IH ND').
  replace (am_get (e :: t) (fst e)) with (snd e)
    by (simpl; now rewrite String.eqb_refl).
  f_equal. apply count_ext_in. intros a Ha. simpl.
  destruct (String.eqb_spec (fst e) a) as [E|_]; [congruence | reflexivity].
Qed.

Lemma count_pos {A : Type} (p : A -> bool) (l : list A) :
  0 < count p l -> exists x, In x l /\ p x = true.
Proof.
  unfold count. destruct (filter p l) as [|x t] eqn:E; simpl; [lia|].
  intros _. exists x. apply filter_In. rewrite E. now left.
Qed.

Lemma medalist_in_group (df : list Appearance) (noc c : string) (y : option Z)
      (a : string) :
  0 < medals_in df noc c y a -> In a (distinct_athletes (group_of df noc c)).
Proof.
  intros H. apply count_pos in H. destruct H as (r & Hr & Hp).
  rewrite !andb_true_iff, !String.eqb_eq in Hp.
  destruct Hp as ((((Hn & Hc) & Ha) & _) & _).
  apply unique_In, in_map_iff. exists r. split; [exact Ha|].
  apply filter_In. split; [exact Hr|]. unfold in_group2, row_key2.
  rewrite Hn, Hc. now destruct (pair_dec (noc, c) (noc, c)).
Qed.

(** The two counts read off the athlete table are the counts over the
    distinct athletes of the pair. *)
Lemma lookback_counts (df : list Appearance) (noc c : string)
      (last_year prev_year : option Z) :
  star_count (athletes_medals (athlete_medals_dict df) noc c last_year prev_year)
  = star_athletes df noc c last_year prev_year
  /\ rising_count (athletes_medals (athlete_medals_dict df) noc c last_year prev_year)
     = rising_stars df noc c last_year.
Proof.
  set (am := athletes_medals (athlete_medals_dict df) noc c last_year prev_year).
  assert (ND : NoDup (map fst am)) by (apply am_fold_NoDup; constructor).
  assert (G : forall a, am_get am a
                        = (medals_in df noc c last_year a, medals_in df noc c prev_year a))
    by (intros a; apply athletes_medals_get).
  assert (IN : forall a, 0 < medals_in df noc c last_year a -> In a (map fst am)).
  { intros a Ha. destruct (in_dec string_dec a (map fst am)) as [H|H]; [exact H|].
    apply am_get_absent in H. rewrite G in H. inversion H. lia. }
  unfold star_count, rising_count, star_athletes, rising_stars. split.
  - rewrite (count_am (fun p => (0 <? fst p) && (0 <? snd p)) am ND).
    apply count_NoDup_ext; [exact ND | apply unique_NoDup|].
    intros a. rewrite G. cbn [fst snd]. split; intros [H1 H2]; (split; [|exact H2]);
      apply andb_true_iff in H2; destruct H2 as [H2 _]; apply Nat.ltb_lt in H2.
    + eapply medalist_in_group; eassumption.
    + now apply IN.
  - rewrite (count_am (fun p => 2 <=? fst p) am ND).
    apply count_NoDup_ext; [exact ND | apply unique_NoDup|].
    intros a. rewrite G. cbn [fst snd]. split; intros [H1 H2]; (split; [|exact H2]);
      apply Nat.leb_le in H2.
    + apply (medalist_in_group df noc c last_year). lia.
    + apply IN. lia.
Qed.

Lemma index_found (l : list (option Z)) (y : Z) :
  In (Some y) l -> exists i, index year_eqb (Some y) l = Some i.
Proof.
  induction l as [|h t IH]; intros H; [destruct H|]. simpl.
  destruct (year_eqb h (Some y)) eqn:E; [eauto|].
  destruct H as [->|H]; [simpl in E; now rewrite Z.eqb_refl in E|].
  destruct (IH H) as (i & ->). eauto.
Qed.

Lemma row_year_in_all_years (df : list Appearance) (k : key3) :
  In k (group_keys3 df) -> In (Some (fst (fst k))) (all_years df).
Proof.
  intros H. apply group_keys3_In in H. destruct H as (r & Hr & Hk).
  unfold all_years. apply py_sorted_In, unique_In, in_map_iff. exists r. split; [|exact Hr].
  unfold row_key3 in Hk. destruct (Year r); [|discriminate]. now inversion Hk.
Qed.

(** The star and rising values of the output row of a key. *)
Lemma lookback_of_row (df : list Appearance) (k : key3) :
  In k (group_keys3 df) ->
  exists i, index year_eqb (Some (fst (fst k))) (all_years df) = Some i
    /\ (i < 2 -> star_athlete_count (row_of df k) = 0
                 /\ rising_star_count (row_of df k) = 0)
    /\ (2 <= i ->
        star_athlete_count (row_of df k)
        = star_athletes df (snd (fst k)) (snd k)
                        (nth (i - 1) (all_years df) None)
                        (nth (i - 2) (all_years df) None)
        /\ rising_star_count (row_of df k)
           = rising_stars df (snd (fst k)) (snd k) (nth (i - 1) (all_years df) None)).
Proof.
  intros Hk. destruct (index_found _ _ (row_year_in_all_years df k Hk)) as (i & Hi).
  exists i. split; [exact Hi|].
  simpl. unfold lookback_result, lookback_row. simpl. rewrite Hi. split.
  - intros L. apply Nat.ltb_lt in L. now rewrite L.
  - intros L. destruct (Nat.ltb_spec i 2) as [L'|_]; [lia|]. simpl.
    apply lookback_counts.
Qed.

(** The star count of an output row, by the place [i] of its year in the
    year list of the frame: 0 for the first two entries; otherwise the
    distinct athletes of the row's (NOC, code) with a nonzero medal count at
    both of the entries [i - 1] and [i - 2]. *)
Lemma star_count_of_row (df : list Appearance) (f : Feature) :
  In f (process_data df) ->
  exists i, index year_eqb (Some (time f)) (all_years df) = Some i
    /\ (i < 2 -> star_athlete_count f = 0)
    /\ (2 <= i ->
        star_athlete_count f
        = star_athletes df (country_code f) (sport_category_code f)
                        (nth (i - 1) (all_years df) None)
                        (nth (i - 2) (all_years df) None)).
Proof.
  rewrite process_data_eq. intros Hf. apply in_map_iff in Hf.
  destruct Hf as (k & <- & Hk).
  destruct (lookback_of_row df k Hk) as (i & Hi & H0 & H2).
  exists i. split; [exact Hi|]. split; intros L; [apply H0, L | apply H2, L].
Qed.

(** The rising count of an output row past the first two entries of the
    year list: the distinct athletes of the row's (NOC, code) with 2 medals
    or more (present and not 'No medal') at the entry [i - 1]. *)
Lemma rising_count_of_row (df : list Appearance) (f : Feature) :
  In f (process_data df) ->
  exists i, index year_eqb (Some (time f)) (all_years df) = Some i
    /\ (2 <= i ->
        rising_star_count f
        = rising_stars df (country_code f) (sport_category_code f)
                       (nth (i - 1) (all_years df) None)).
Proof.
  rewrite process_data_eq. intros Hf. apply in_map_iff in Hf.
  destruct Hf as (k & <- & Hk).
  destruct (lookback_of_row df k Hk) as (i & Hi & _ & H2).
  exists i. split; [exact Hi|]. intros L. apply H2, L.
Qed.

Lemma star_count_of_row_example :
  star_athlete_count (row_of sample (2012%Z, "USA"%string, "ATH"%string))
  = star_athletes sample "USA" "ATH" (Some 2008%Z) (Some 2004%Z)
  /\ star_athlete_count (row_of sample (2008%Z, "USA"%string, "ATH"%string)) = 0.
Proof.
  split.
  - destruct (star_count_of_row sample
                (row_of sample (2012%Z, "USA"%string, "ATH"%string)))
      as (i & Hi & _ & H2).
    + rewrite process_data_eq. apply in_map. vm_compute. tauto.
    + vm_compute in Hi. injection Hi as <-. exact (H2 (le_n 2)).
  - destruct (star_count_of_row sample
                (row_of sample (2008%Z, "USA"%string, "ATH"%string)))
      as (i & Hi & H0 & _).
    + rewrite process_data_eq. apply in_map. vm_compute. tauto.
    + vm_compute in Hi. injection Hi as <-. exact (H0 (le_n 2)).
Qed.

Lemma rising_count_of_row_example :
  rising_star_count (row_of sample (2012%Z, "USA"%string, "ATH"%string))
  = rising_stars sample "USA" "ATH" (Some 2008%Z).
Proof.
  destruct (rising_count_of_row sample
              (row_of sample (2012%Z, "USA"%string, "ATH"%string)))
    as (i & Hi & H2).
  - rewrite process_data_eq. apply in_map. vm_compute. tauto.
  - vm_compute in Hi. injection Hi as <-. exact (H2 (le_n 2)).
Qed.

(** ** Lookback on a frame without missing years *)

Lemma filter_none {A : Type} (p : A -> bool) (l : list A) :
  (forall x, In x l -> p x = false) -> filter p l = [].
Proof.
  induction l as [|h t IH]; intros H; [reflexivity|]. simpl.
  rewrite (H h) by now left. apply IH. intros x Hx. apply H. now right.
Qed.

Lemma index_map_Some (y : Z) (l : list Z) (i : nat) :
  index year_eqb (Some y) (map Some l) = Some i -> nth_error l i = Some y.
Proof.
  revert i. induction l as [|h t IH]; intros i H; [discriminate|].
  simpl in H. destruct (Z.eqb_spec h y) as [->|N].
  - now inversion H.
  - destruct (index year_eqb (Some y) (map Some t)) as [j|]; [|discriminate].
    inversion H; subst. simpl. now apply IH.
Qed.

(** On an ascending list [ys] with the members of [l], the latest member
    before the entry at place [i] is the entry at place [i - 1]. *)
Lemma latest_before_sorted (l ys : list Z) (y : Z) (i : nat) :
  StronglySorted (fun a b => Z.ltb a b = true) ys ->
  (forall x, In x l <-> In x ys) ->
  nth_error ys i = Some y ->
  latest_before l y = match i with
                      | 0 => None
                      | S j => nth_error ys j
                      end.
Proof.
  intros SS M Hi. unfold latest_before.
  assert (B : forall x k, nth_error ys k = Some x -> (x < y)%Z -> k < i).
  { intros x k Hk Hx. destruct (Nat.lt_trichotomy k i) as [L|[E|L]]; [exact L| |].
    - subst k. rewrite Hi in Hk. inversion Hk. lia.
    - pose proof (ssorted_nth _ ys i k y x SS L Hi Hk) as X. apply Z.ltb_lt in X. lia. }
  destruct i as [|j].
  - rewrite filter_none; [reflexivity|]. intros x Hx. apply Z.ltb_ge.
    apply M, In_nth_error in Hx. destruct Hx as (k & Hk).
    destruct (Z.lt_ge_cases x y) as [L|G]; [|lia]. specialize (B x k Hk L). lia.
  - assert (Hj : exists m, nth_error ys j = Some m).
    { destruct (nth_error ys j) as [m|] eqn:E; [eauto|].
      apply nth_error_None in E. assert (X : nth_error ys (S j) <> None) by congruence.
      apply nth_error_Some in X. lia. }
    destruct Hj as (m & Hj). rewrite Hj.
    assert (Hm : (m < y)%Z).
    { apply Z.ltb_lt. apply (ssorted_nth _ ys j (S j) m y SS); [lia | exact Hj | exact Hi]. }
    assert (Fm : In m (filter (fun x => Z.ltb x y) l)).
    { apply filter_In. split; [|now apply Z.ltb_lt]. apply M. eapply nth_error_In; eassumption. }
    destruct (filter (fun x => Z.ltb x y) l) as [|x t] eqn:E; [destruct Fm|].
    destruct (fold_max_spec t x) as [HI HL]. f_equal.
    apply Z.le_antisymm; [|now apply HL].
    rewrite <- E in HI. apply filter_In in HI. destruct HI as [HI Hlt].
    apply Z.ltb_lt in Hlt. apply M, In_nth_error in HI. destruct HI as (k & Hk).
    specialize (B _ k Hk Hlt).
    destruct (Nat.eq_dec k j) as [->|N]; [rewrite Hj in Hk; inversion Hk; lia|].
    assert (L : k < j) by lia.
    pose proof (ssorted_nth _ ys k j _ m SS L Hk Hj) as X. apply Z.ltb_lt in X. lia.
Qed.

Lemma nth_map_Some (l : list Z) (i : nat) (x : Z) :
  nth_error l i = Some x -> nth i (map Some l) None = Some x.
Proof.
  intros H. apply nth_error_nth. rewrite nth_error_map, H. reflexivity.
Qed.

Lemma distinct_years_sorted (df : list Appearance) :
  StronglySorted (fun a b => Z.ltb a b = true) (sorted Z.ltb (distinct_years df)).
Proof.
  apply (ordered_NoDup_strict Z.ltb zltb_total).
  - apply sorted_NoDup, unique_NoDup.
  - apply (sorted_keeps_order Z.ltb zltb_irrefl zltb_trans zltb_total).
Qed.

(** X19: on a frame in which every row has a numeric Year, the star and
    rising counts of every output row are 0 for the first two years of the
    frame; for a later year the star count is the number of distinct
    athletes of the row's (NOC, code) with a medal at both of the two Games
    immediately before the year of the row, and the rising count the number
    of those with 2 medals or more at the Games just before it. *)
Theorem lookback_of_dated_frame (df : list Appearance) (f : Feature) :
  forallb year_present df = true -> In f (process_data df) ->
  star_athlete_count f
  = star_count_claim df (country_code f) (sport_category_code f) (time f)
  /\ rising_star_count f
     = rising_count_claim df (country_code f) (sport_category_code f) (time f).
Proof.
  intros Hp Hf. rewrite process_data_eq in Hf. apply in_map_iff in Hf.
  destruct Hf as (k & <- & Hk).
  destruct (lookback_of_row df k Hk) as (i & Hi & H0 & H2).
  destruct k as [[y noc] c]. cbn [fst snd] in Hi, H0, H2.
  change (time (row_of df (y, noc, c))) with y.
  change (country_code (row_of df (y, noc, c))) with noc.
  change (sport_category_code (row_of df (y, noc, c))) with c.
  unfold all_years in Hi, H2. rewrite (years_of_group df Hp) in Hi, H2.
  set (ys := sorted Z.ltb (distinct_years df)) in *.
  apply index_map_Some in Hi.
  assert (SS : StronglySorted (fun a b => Z.ltb a b = true) ys)
    by apply distinct_years_sorted.
  assert (M : forall x, In x (distinct_years df) <-> In x ys)
    by (intros x; unfold ys; now rewrite sorted_In).
  unfold star_count_claim, rising_count_claim, two_games_before.
  rewrite (latest_before_sorted _ ys y i SS M Hi).
  destruct i as [|[|j]].
  - apply H0. lia.
  - destruct (nth_error ys 0) as [l|] eqn:El.
    + rewrite (latest_before_sorted _ ys l 0 SS M El). apply H0. lia.
    + apply H0. lia.
  - assert (El : exists l, nth_error ys (S j) = Some l).
    { destruct (nth_error ys (S j)) as [l|] eqn:E; [eauto|].
      apply nth_error_None in E. assert (X : nth_error ys (S (S j)) <> None) by congruence.
      apply nth_error_Some in X. lia. }
    destruct El as (l & El). rewrite El.
    rewrite (latest_before_sorted _ ys l (S j) SS M El).
    assert (Ep : exists p, nth_error ys j = Some p).
    { destruct (nth_error ys j) as [p|] eqn:E; [eauto|].
      apply nth_error_None in E. assert (X : nth_error ys (S j) <> None) by congruence.
      apply nth_error_Some in X. lia. }
    destruct Ep as (p & Ep). rewrite Ep.
    destruct H2 as [-> ->]; [lia|].
    replace (S (S j) - 1) with (S j) by lia. replace (S (S j) - 2) with j by lia.
    now rewrite (nth_map_Some ys (S j) l El), (nth_map_Some ys j p Ep).
Qed.

Lemma lookback_of_dated_frame_witness :
  star_athlete_count (row_of sample_three_games (2012%Z, "USA"%string, "ATH"%string))
  = star_count_claim sample_three_games "USA" "ATH" 2012
  /\ rising_star_count (row_of sample_three_games (2012%Z, "USA"%string, "ATH"%string))
     = rising_count_claim sample_three_games "USA" "ATH" 2012.
Proof.
  apply (lookback_of_dated_frame sample_three_games
           (row_of sample_three_games (2012%Z, "USA"%string, "ATH"%string))).
  - reflexivity.
  - rewrite process_data_eq. apply in_map. vm_compute. tauto.
Defined.

(** C4 fails on a frame with a row whose Year is missing.  In
    [sample_undated_between] the distinct years are read in the order 1996,
    2000, missing, 2004; no entry is less than the one before it, [sorted]
    returns the list as it is, and the two entries before 2004 are the
    missing one and 2000.  No medal is counted at the missing entry, so the
    row of 2004 gets the star count 0, although athlete A of the pair has a
    medal at both of the two Games before 2004 (2000 and 1996): the count
    stated is 1, and it is the count the script gives once the undated row
    is removed. *)
Theorem star_count_missing_year_divergence :
  is_run year_ltb (unique year_dec (map Year sample_undated_between)) = true
  /\ all_years sample_undated_between = [Some 1996%Z; Some 2000%Z; None; Some 2004%Z]
  /\ map (fun f => (feature_key f, star_athlete_count f))
         (process_data sample_undated_between)
     = [ ((1996%Z, "USA"%string, "SWM"%string), 0);
         ((2000%Z, "USA"%string, "SWM"%string), 0);
         ((2004%Z, "USA"%string, "SWM"%string), 0) ]
  /\ two_games_before sample_undated_between 2004 = Some (2000%Z, 1996%Z)
  /\ star_count_claim sample_undated_between "USA" "SWM" 2004 = 1
  /\ map (fun f => (feature_key f, star_athlete_count f))
         (process_data (filter year_present sample_undated_between))
     = [ ((1996%Z, "USA"%string, "SWM"%string), 0);
         ((2000%Z, "USA"%string, "SWM"%string), 0);
         ((2004%Z, "USA"%string, "SWM"%string), 1) ].
Proof. repeat split; vm_compute; reflexivity. Qed.

(** C5 fails on the same frame: 2004 is the fourth entry of the year list
    and the entry just before it is the missing one, so the row of 2004
    gets the rising count 0, although athlete A of the pair won 2 medals at
    the Games just before 2004 (2000): the count stated is 1, and it is the
    count the script gives once the undated row is removed. *)
Theorem rising_count_missing_year_divergence :
  index year_eqb (Some 2004%Z) (all_years sample_undated_between) = Some 3
  /\ nth 2 (all_years sample_undated_between) None = None
  /\ map (fun f => (feature_key f, rising_star_count f))
         (process_data sample_undated_between)
     = [ ((1996%Z, "USA"%string, "SWM"%string), 0);
         ((2000%Z, "USA"%string, "SWM"%string), 0);
         ((2004%Z, "USA"%string, "SWM"%string), 0) ]
  /\ latest_before (distinct_years sample_undated_between) 2004 = Some 2000%Z
  /\ rising_count_claim sample_undated_between "USA" "SWM" 2004 = 1
  /\ map (fun f => (feature_key f, rising_star_count f))
         (process_data (filter year_present sample_undated_between))
     = [ ((1996%Z, "USA"%string, "SWM"%string), 0);
         ((2000%Z, "USA"%string, "SWM"%string), 0);
         ((2004%Z, "USA"%string, "SWM"%string), 1) ].
Proof. repeat split; vm_compute; reflexivity. Qed.

(** * Further properties of the script *)

(** ** Participation figures *)

Lemma count_le_impl {A : Type} (p q : A -> bool) (l : list A) :
  (forall x, p x = true -> q x = true) -> count p l <= count q l.
Proof.
  intros H. induction l as [|x t IH]; [unfold count; simpl; lia|].
  rewrite !count_cons. specialize (H x).
  destruct (p x), (q x); try lia; discriminate (H eq_refl).
Qed.

(** X1: of the three figures [calculate_participation_stats] returns, the
    country-and-sport one is at most the sport one, which is at most the
    year total. *)
Theorem participation_stats_nested (df : list Appearance) (year : option Z)
        (noc sport_code : string) :
  snd (calculate_participation_stats df year noc sport_code)
  <= snd (fst (calculate_participation_stats df year noc sport_code))
  /\ snd (fst (calculate_participation_stats df year noc sport_code))
     <= fst (fst (calculate_participation_stats df year noc sport_code)).
Proof.
  unfold calculate_participation_stats. cbn [fst snd]. split; apply count_le_impl; intros r H.
  - apply andb_true_iff in H. destruct H as [H1 H2].
    apply andb_true_iff in H1. destruct H1 as [H1 _]. now rewrite H1, H2.
  - apply andb_true_iff in H. tauto.
Qed.

Lemma in_group3_eq (y : Z) (n c : string) (r : Appearance) :
  in_group3 (y, n, c) r
  = year_eqb (Year r) (Some y) && String.eqb (NOC r) n && String.eqb (code r) c.
Proof.
  unfold in_group3, row_key3. destruct (Year r) as [y'|]; [|reflexivity]. simpl.
  destruct (key_dec (y', NOC r, code r) (y, n, c)) as [E|D].
  - inversion E; subst. now rewrite Z.eqb_refl, !String.eqb_refl.
  - destruct (Z.eqb_spec y' y); [|reflexivity].
    destruct (String.eqb_spec (NOC r) n); [|reflexivity].
    destruct (String.eqb_spec (code r) c); [|reflexivity]. subst. congruence.
Qed.

Lemma series_get_map (g : Z -> nat) (l : list Z) (y : Z) :
  In y l -> series_get (map (fun y => (y, g y)) l) y = Some (g y).
Proof.
  induction l as [|h t IH]; intros H; [destruct H|]. simpl.
  destruct (Z.eqb_spec h y) as [->|N]; [reflexivity|].
  destruct H as [E|H]; [congruence | now apply IH].
Qed.

Lemma sum_map_add {A : Type} (a b : A -> nat) (l : list A) :
  sum (map (fun k => a k + b k) l) = sum (map a l) + sum (map b l).
Proof. induction l as [|h t IH]; simpl; [reflexivity | rewrite IH; lia]. Qed.

Lemma sum_indicator {A : Type} (dec : forall x y : A, {x = y} + {x <> y})
      (k0 : A) (l : list A) :
  NoDup l ->
  sum (map (fun k => if dec k0 k then 1 else 0) l) = if mem dec k0 l then 1 else 0.
Proof.
  induction l as [|h t IH]; intros ND; [reflexivity|].
  inversion ND as [|? ? Hn ND']; subst. simpl. rewrite (IH ND').
  unfold mem. destruct (dec k0 h) as [->|D].
  - destruct (in_dec dec h t); [contradiction|].
    destruct (in_dec dec h (h :: t)) as [_|N]; [reflexivity | exfalso; apply N; now left].
  - destruct (in_dec dec k0 t) as [I|N];
      destruct (in_dec dec k0 (h :: t)) as [I'|N']; try reflexivity.
    + exfalso. apply N'. now right.
    + destruct I' as [E|I']; [congruence | contradiction].
Qed.

Lemma mem_filter {A : Type} (dec : forall x y : A, {x = y} + {x <> y})
      (p : A -> bool) (k : A) (l : list A) :
  mem dec k (filter p l) = p k && mem dec k l.
Proof.
  apply eq_true_iff_eq. rewrite andb_true_iff, !mem_true, filter_In. tauto.
Qed.

(** The sizes of the groups of a set of distinct keys add up to the number
    of rows whose key is in the set. *)
Lemma sum_group_sizes (df : list Appearance) (keys : list key3) :
  NoDup keys ->
  sum (map (fun k => List.length (filter (in_group3 k) df)) keys)
  = count (fun r => match row_key3 r with
                    | Some k => mem key_dec k keys
                    | None => false
                    end) df.
Proof.
  intros ND. induction df as [|r t IH]; simpl.
  - unfold count. simpl. clear ND. induction keys; simpl; auto.
  - rewrite count_cons, <- IH.
    rewrite (map_ext _ (fun k => (if in_group3 k r then 1 else 0)
                                 + List.length (filter (in_group3 k) t)))
      by (intros k; now destruct (in_group3 k r)).
    rewrite sum_map_add. f_equal.
    unfold in_group3. destruct (row_key3 r) as [k'|].
    + rewrite <- (sum_indicator key_dec k' keys ND). f_equal. apply map_ext.
      intros k. now destruct (key_dec k' k).
    + clear. induction keys; simpl; auto.
Qed.

Lemma year_total_found (df : list Appearance) (k : key3) :
  In k (group_keys3 df) ->
  series_get (year_participation df) (fst (fst k))
  = Some (count (fun r => year_eqb (Year r) (Some (fst (fst k)))) df).
Proof.
  intros Hk. unfold year_participation.
  apply (series_get_map (fun y => count (fun r => year_eqb (Year r) (Some y)) df)).
  apply sorted_In, unique_In, present_In.
  apply group_keys3_In in Hk. destruct Hk as (r & Hr & E).
  unfold row_key3 in E. destruct (Year r) as [y|] eqn:Y; [|discriminate].
  inversion E; subst. simpl. rewrite <- Y. now apply in_map.
Qed.

Lemma year_sport_sum_eq (df : list Appearance) (k : key3) :
  year_sport_sum (basic_stats df) (stat_of df k)
  = count (fun r => year_eqb (Year r) (Some (fst (fst k)))
                    && String.eqb (code r) (snd k)) df.
Proof.
  unfold year_sport_sum. rewrite basic_stats_eq, filter_map_comm, map_map. simpl.
  rewrite sum_group_sizes by apply NoDup_filter, group_keys3_NoDup.
  apply count_ext_in. intros r Hr.
  unfold row_key3. destruct (Year r) as [y|] eqn:Y; [|reflexivity].
  rewrite mem_filter. simpl. replace (mem key_dec (y, NOC r, code r) (group_keys3 df)) with true.
  - now rewrite andb_true_r.
  - symmetry. apply mem_true, group_keys3_In. exists r. split; [exact Hr|].
    unfold row_key3. now rewrite Y.
Qed.

(** X2: the three participation columns of an output row are the figures
    [calculate_participation_stats] returns for the key of the row: the
    broadcast year series never misses and the group sums over the stats
    frame count the rows of the input. *)
Theorem participation_columns_are_stats (df : list Appearance) (f : Feature) :
  In f (process_data df) ->
  (year_total_participation f, year_sport_total_participation f,
   year_country_sport_participation f)
  = calculate_participation_stats df (Some (time f)) (country_code f)
                                  (sport_category_code f).
Proof.
  rewrite process_data_eq. intros Hf. apply in_map_iff in Hf.
  destruct Hf as (k & <- & Hk). unfold calculate_participation_stats. simpl.
  rewrite (year_total_found df k Hk), year_sport_sum_eq. simpl.
  do 2 f_equal. destruct k as [[y n] c]. simpl.
  change (List.length (filter (in_group3 (y, n, c)) df))
    with (count (in_group3 (y, n, c)) df).
  apply count_ext. intros r. apply in_group3_eq.
Qed.

Lemma participation_columns_are_stats_witness :
  let f := row_of sample (2008%Z, "USA"%string, "ATH"%string) in
  (year_total_participation f, year_sport_total_participation f,
   year_country_sport_participation f)
  = calculate_participation_stats sample (Some 2008%Z) "USA" "ATH".
Proof.
  apply (participation_columns_are_stats sample).
  rewrite process_data_eq. apply in_map. vm_compute. tauto.
Defined.

(** X3: the participation counts of all the output rows add up to the
    number of input rows whose Year is present: every such row is counted
    on exactly one output row, and a row without a Year on none. *)
Theorem participation_adds_up_to_dated_rows (df : list Appearance) :
  sum (map year_country_sport_participation (process_data df))
  = count year_present df.
Proof.
  rewrite process_data_eq, map_map. simpl.
  rewrite sum_group_sizes by apply group_keys3_NoDup.
  apply count_ext_in. intros r Hr. unfold year_present, row_key3.
  destruct (Year r) as [y|] eqn:Y; [|reflexivity].
  apply mem_true, group_keys3_In. exists r. split; [exact Hr|].
  unfold row_key3. now rewrite Y.
Qed.

(** ** Medal counts by value *)

Lemma vc_incr_get (v k : string) (s : list (string * nat)) :
  vc_get (vc_incr v s) k 0 = (if String.eqb v k then 1 else 0) + vc_get s k 0.
Proof.
  induction s as [|e t IH]; simpl.
  - now destruct (String.eqb v k).
  - destruct (String.eqb_spec (fst e) v) as [<-|N]; simpl.
    + destruct (String.eqb (fst e) k); lia.
    + destruct (String.eqb_spec (fst e) k) as [<-|N']; [|exact IH].
      destruct (String.eqb_spec v (fst e)); [congruence | reflexivity].
Qed.

Lemma vc_fold_get (l : list string) (s : list (string * nat)) (k : string) :
  vc_get (fold_left (fun s v => vc_incr v s) l s) k 0
  = vc_get s k 0 + count (fun v => String.eqb v k) l.
Proof.
  revert s. induction l as [|v t IH]; intros s; simpl.
  - unfold count. simpl. lia.
  - rewrite IH, vc_incr_get, count_cons. lia.
Qed.

(** Looking a value up in the counts of a column gives the number of cells
    holding it, and the default 0 when there is none. *)
Lemma value_counts_get (rows : list Appearance) (k : string) :
  vc_get (value_counts (map Medal rows)) k 0 = count (medal_is k) rows.
Proof.
  unfold value_counts. rewrite vc_fold_get. simpl.
  induction rows as [|r t IH]; [reflexivity|].
  rewrite count_cons, <- IH. simpl. unfold medal_is.
  destruct (Medal r) as [m|]; [|reflexivity].
  simpl. now rewrite count_cons.
Qed.

(** X4: [calculate_medal_counts], called on the whole frame with the key
    of an output row, returns the three medal counts of that row. *)
Theorem medal_counts_match_output (df : list Appearance) (f : Feature) :
  In f (process_data df) ->
  calculate_medal_counts df (Some (time f)) (country_code f) (sport_category_code f)
  = (actual_gold_count f, actual_silver_count f, actual_bronze_count f).
Proof.
  rewrite process_data_eq. intros Hf. apply in_map_iff in Hf.
  destruct Hf as (k & <- & _). destruct k as [[y n] c].
  unfold calculate_medal_counts. rewrite !value_counts_get. simpl.
  rewrite (filter_ext _ (in_group3 (y, n, c)))
    by (intros r; now rewrite in_group3_eq).
  reflexivity.
Qed.

Lemma medal_counts_match_output_witness :
  calculate_medal_counts sample (Some 2008%Z) "USA" "ATH" = (2, 0, 0).
Proof.
  apply (medal_counts_match_output sample
           (row_of sample (2008%Z, "USA"%string, "ATH"%string))).
  rewrite process_data_eq. apply in_map. vm_compute. tauto.
Defined.

(** ** Every output row has rows behind it *)

Lemma group3_nonempty (df : list Appearance) (k : key3) :
  In k (group_keys3 df) -> exists r, In r (filter (in_group3 k) df).
Proof.
  intros Hk. apply group_keys3_In in Hk. destruct Hk as (r & Hr & E).
  exists r. apply filter_In. split; [exact Hr|]. unfold in_group3. rewrite E.
  now destruct (key_dec k k).
Qed.

Lemma unique_length_le {A : Type} (dec : forall x y : A, {x = y} + {x <> y})
      (l : list A) :
  List.length (unique dec l) <= List.length l.
Proof.
  apply NoDup_incl_length; [apply unique_NoDup|]. intros x. apply unique_In.
Qed.

(** X5: an output row stands for at least one input row, and its number
    of distinct events is at least 1 and at most its participation count. *)
Theorem event_count_bounds (df : list Appearance) (f : Feature) :
  In f (process_data df) ->
  1 <= sport_event_count f
  /\ sport_event_count f <= year_country_sport_participation f.
Proof.
  rewrite process_data_eq. intros Hf. apply in_map_iff in Hf.
  destruct Hf as (k & <- & Hk). simpl. split.
  - destruct (group3_nonempty df k Hk) as (r & Hr).
    assert (H : In (Event r) (unique string_dec (map Event (filter (in_group3 k) df))))
      by (apply unique_In; now apply in_map).
    destruct (unique string_dec (map Event (filter (in_group3 k) df)));
      [destruct H | simpl; lia].
  - rewrite <- (length_map Event (filter (in_group3 k) df)). apply unique_length_le.
Qed.

Lemma event_count_bounds_witness :
  let f := row_of sample (2008%Z, "USA"%string, "ATH"%string) in
  1 <= sport_event_count f
  /\ sport_event_count f <= year_country_sport_participation f.
Proof.
  apply (event_count_bounds sample).
  rewrite process_data_eq. apply in_map. vm_compute. tauto.
Defined.

(** ** Host flag *)

(** X6: the host flag of an output row is 0 or 1, and it is 1 exactly when
    some input row of the same year and NOC, of whatever sport code, has
    its host cell equal to 1. *)
Theorem host_flag_meaning (df : list Appearance) (f : Feature) :
  In f (process_data df) ->
  (is_host f = 0 \/ is_host f = 1)
  /\ (is_host f = 1 <->
      exists r, In r df /\ host r = 1%Z /\ Year r = Some (time f)
                /\ NOC r = country_code f).
Proof.
  rewrite process_data_eq. intros Hf. apply in_map_iff in Hf.
  destruct Hf as (k & <- & _). simpl. unfold is_host_of, host_dict. simpl.
  destruct (existsb _ _) eqn:E.
  - split; [now right|]. split; [intros _ | reflexivity].
    apply existsb_exists in E. destruct E as (p & Hp & Hk).
    apply in_map_iff in Hp. destruct Hp as (r & <- & Hr).
    apply filter_In in Hr. destruct Hr as [Hr Hh]. simpl in Hk.
    apply andb_true_iff in Hk. destruct Hk as [Hy Hn].
    exists r. repeat split; [exact Hr | now apply Z.eqb_eq
                             | now apply year_eqb_Some | now apply String.eqb_eq].
  - split; [now left|]. split; [discriminate|].
    intros (r & Hr & Hh & Hy & Hn). exfalso.
    assert (X : existsb (fun p => year_eqb (fst p) (Some (fst (fst k)))
                                  && String.eqb (snd p) (snd (fst k)))
                        (map (fun r => (Year r, NOC r))
                             (filter (fun r => Z.eqb (host r) 1) df)) = true).
    { apply existsb_exists. exists (Year r, NOC r). split.
      - apply (in_map (fun r => (Year r, NOC r))), filter_In.
        split; [exact Hr | now apply Z.eqb_eq].
      - simpl. rewrite Hy, Hn. simpl. now rewrite Z.eqb_refl, String.eqb_refl. }
    rewrite X in E. discriminate.
Qed.

Lemma host_flag_meaning_witness :
  is_host (row_of sample (2008%Z, "CHN"%string, "ATH"%string)) = 1.
Proof.
  refine (proj2 (proj2 (host_flag_meaning sample
                          (row_of sample (2008%Z, "CHN"%string, "ATH"%string)) _)) _).
  { rewrite process_data_eq. apply in_map. vm_compute. tauto. }
  exists (mkAppearance (Some 2008%Z) "CHN" "ATH" "100m" "C" (Some "Bronze"%string) 1).
  simpl. tauto.
Defined.

(** ** The lookback never raises inside [process_data] *)

(** X9: for every row of the stats frame the body of the [try] returns:
    the year of the row is found in [all_years], so the [except] branch of
    the loop is never taken. *)
Theorem lookback_never_raises (df : list Appearance) (s : Stats) :
  In s (basic_stats df) ->
  exists v, lookback_row (all_years df) (athlete_medals_dict df) s = Some v.
Proof.
  rewrite basic_stats_eq. intros Hs. apply in_map_iff in Hs.
  destruct Hs as (k & <- & Hk).
  destruct (index_found _ _ (row_year_in_all_years df k Hk)) as (i & Hi).
  unfold lookback_row. simpl. rewrite Hi. destruct (i <? 2); eauto.
Qed.

Lemma lookback_never_raises_witness :
  exists v, lookback_row (all_years sample) (athlete_medals_dict sample)
                         (stat_of sample (2012%Z, "USA"%string, "ATH"%string)) = Some v.
Proof.
  apply (lookback_never_raises sample).
  rewrite basic_stats_eq. apply in_map. vm_compute. tauto.
Defined.

(** ** Ranges of the rates and of the career length *)

Lemma ratio_bounds (n d : nat) :
  n <= d -> d <> 0 -> (0 <= ratio n d)%Q /\ (ratio n d <= 1)%Q.
Proof.
  intros H Hd. unfold ratio. split.
  - apply Qle_shift_div_l.
    + change 0%Q with (inject_Z 0). rewrite <- Zlt_Qlt. lia.
    + rewrite Qmult_0_l. change 0%Q with (inject_Z 0). rewrite <- Zle_Qle. lia.
  - apply Qle_shift_div_r.
    + change 0%Q with (inject_Z 0). rewrite <- Zlt_Qlt. lia.
    + rewrite Qmult_1_l, <- Zle_Qle. lia.
Qed.

Lemma rates_in_unit_interval (group : list Appearance) :
  ((0 <= fst (fst (calculate_historical_rates group)))%Q
   /\ (fst (fst (calculate_historical_rates group)) <= 1)%Q)
  /\ ((0 <= snd (fst (calculate_historical_rates group)))%Q
      /\ (snd (fst (calculate_historical_rates group)) <= 1)%Q)
  /\ ((0 <= snd (calculate_historical_rates group))%Q
      /\ (snd (calculate_historical_rates group) <= 1)%Q).
Proof.
  unfold calculate_historical_rates, historical_rates_with.
  destruct (List.length (py_sorted year_ltb (unique year_dec (map Year group))) <? 2);
    [simpl; repeat split; discriminate|].
  set (h := filter _ group).
  destruct (Nat.eqb_spec (List.length (unique string_dec (map Name h))) 0) as [E|N];
    [simpl; repeat split; discriminate|].
  pose proof (rank_counts_le (best_medals h)) as L.
  rewrite best_medals_length in L. cbn [fst snd].
  repeat split; apply ratio_bounds; solve [lia | exact N].
Qed.

(** X7: each of the three historical rates of an output row lies between
    0 and 1. *)
Theorem rates_between_0_and_1 (df : list Appearance) (f : Feature) :
  In f (process_data df) ->
  ((0 <= country_sport_gold_rate f)%Q /\ (country_sport_gold_rate f <= 1)%Q)
  /\ ((0 <= country_sport_silver_rate f)%Q /\ (country_sport_silver_rate f <= 1)%Q)
  /\ ((0 <= country_sport_bronze_rate f)%Q /\ (country_sport_bronze_rate f <= 1)%Q).
Proof.
  rewrite process_data_eq. intros Hf. apply in_map_iff in Hf.
  destruct Hf as (k & <- & _). simpl. apply rates_in_unit_interval.
Qed.

Lemma rates_between_0_and_1_witness :
  let f := row_of sample (2012%Z, "USA"%string, "ATH"%string) in
  ((0 <= country_sport_gold_rate f)%Q /\ (country_sport_gold_rate f <= 1)%Q)
  /\ ((0 <= country_sport_silver_rate f)%Q /\ (country_sport_silver_rate f <= 1)%Q)
  /\ ((0 <= country_sport_bronze_rate f)%Q /\ (country_sport_bronze_rate f <= 1)%Q).
Proof.
  apply (rates_between_0_and_1 sample).
  rewrite process_data_eq. apply in_map. vm_compute. tauto.
Defined.

Lemma fold_max_ge (t : list Z) (x : Z) : (x <= fold_left Z.max t x)%Z.
Proof.
  revert x. induction t as [|h t IH]; intros x; simpl; [lia|].
  specialize (IH (Z.max x h)). lia.
Qed.

Lemma year_min_le_max (l : list (option Z)) (mn mx : Z) :
  year_min l = Some mn -> year_max l = Some mx -> (mn <= mx)%Z.
Proof.
  unfold year_min, year_max. destruct (present l) as [|x t]; [discriminate|].
  intros H1 H2. inversion H1; inversion H2; subst.
  pose proof (proj2 (fold_min_spec t x) x (or_introl eq_refl)).
  pose proof (fold_max_ge t x). lia.
Qed.

Lemma career_lengths_nonneg (g : list Appearance) (d : Z) :
  In (Some d) (career_lengths g) -> (0 <= d)%Z.
Proof.
  unfold career_lengths, athlete_years. rewrite map_map. simpl.
  intros H. apply in_map_iff in H. destruct H as (a & H & _).
  destruct (year_max (map Year (snd a))) as [mx|] eqn:Emx; [|discriminate].
  destruct (year_min (map Year (snd a))) as [mn|] eqn:Emn; [|discriminate].
  inversion H; subst. pose proof (year_min_le_max _ _ _ Emn Emx). lia.
Qed.

Lemma zsum_bounds (l : list Z) (lo hi : Z) :
  (forall d, In d l -> (lo <= d <= hi)%Z) ->
  (lo * Z.of_nat (List.length l) <= zsum l <= hi * Z.of_nat (List.length l))%Z.
Proof.
  induction l as [|x t IH]; intros H; [simpl; lia|].
  assert (Hx := H x (or_introl eq_refl)).
  assert (Ht : forall d, In d t -> (lo <= d <= hi)%Z) by (intros; apply H; now right).
  specialize (IH Ht). simpl zsum. simpl List.length. lia.
Qed.

Lemma mean_bounds (l : list (option Z)) :
  (forall d, In (Some d) l -> (0 <= d <= 24)%Z) ->
  present l <> [] ->
  (0 <= mean l)%Q /\ (mean l <= inject_Z 24)%Q.
Proof.
  intros H N. unfold mean.
  assert (B := zsum_bounds (present l) 0 24
                 (fun d Hd => H d (proj1 (present_In l d) Hd))).
  assert (P : (0 < Z.of_nat (List.length (present l)))%Z)
    by (destruct (present l); [congruence | simpl; lia]).
  split.
  - apply Qle_shift_div_l.
    + change 0%Q with (inject_Z 0). now rewrite <- Zlt_Qlt.
    + rewrite Qmult_0_l. change 0%Q with (inject_Z 0). rewrite <- Zle_Qle. lia.
  - apply Qle_shift_div_r.
    + change 0%Q with (inject_Z 0). now rewrite <- Zlt_Qlt.
    + rewrite <- inject_Z_mult, <- Zle_Qle. lia.
Qed.

Lemma career_length_range (g : list Appearance) :
  (0 <= calculate_career_length g)%Q /\ (calculate_career_length g <= inject_Z 24)%Q.
Proof.
  unfold calculate_career_length, career_length_with.
  change (mean_with exact_quotient) with mean.
  destruct (List.length g =? 0); [split; discriminate|].
  destruct (year_eqb _ _); [split; discriminate|].
  set (valid := filter _ (career_lengths g)).
  destruct (Nat.ltb_spec 0 (List.length valid)) as [L|_]; [|split; discriminate].
  apply mean_bounds.
  - intros d Hd. apply filter_In in Hd. destruct Hd as [Hd Hle].
    apply Z.leb_le in Hle. pose proof (career_lengths_nonneg g d Hd). lia.
  - unfold valid in *. rewrite filter_all_present in L. rewrite present_filter.
    intros E. rewrite E in L. simpl in L. lia.
Qed.

(** X8: the average career length of an output row is at least 0 and at
    most 24 years. *)
Theorem career_length_between_0_and_24 (df : list Appearance) (f : Feature) :
  In f (process_data df) ->
  (0 <= avg_career_length f)%Q /\ (avg_career_length f <= inject_Z 24)%Q.
Proof.
  rewrite process_data_eq. intros Hf. apply in_map_iff in Hf.
  destruct Hf as (k & <- & _). simpl. apply career_length_range.
Qed.

Lemma career_length_between_0_and_24_witness :
  let f := row_of sample (2012%Z, "USA"%string, "ATH"%string) in
  (0 <= avg_career_length f)%Q /\ (avg_career_length f <= inject_Z 24)%Q.
Proof.
  apply (career_length_between_0_and_24 sample).
  rewrite process_data_eq. apply in_map. vm_compute. tauto.
Defined.

(** ** The medal dict *)

Lemma dict_incr_sum (k : medal_key) (d : list (medal_key * nat)) :
  sum (map snd (dict_incr k d)) = sum (map snd d) + 1.
Proof.
  induction d as [|e t IH]; simpl; [reflexivity|].
  destruct (medal_key_eqb (fst e) k); simpl; [lia | rewrite IH; lia].
Qed.

Lemma dict_fold_sum (rows : list Appearance) (d : list (medal_key * nat)) :
  sum (map snd (fold_left dict_step rows d))
  = sum (map snd d) + count has_medal rows.
Proof.
  revert d. induction rows as [|r t IH]; intros d; simpl.
  - unfold count. simpl. lia.
  - rewrite IH, count_cons. unfold dict_step.
    destruct (has_medal r); [rewrite dict_incr_sum|]; lia.
Qed.

(** X10: [athlete_medals_dict] loses and invents no medal: its values add
    up to the number of rows with a medal (present and not 'No medal'), and
    under the key of an athlete at a Games it holds the number of such rows
    of that athlete at those Games, 0 standing for no entry. *)
Theorem medal_dict_counts_every_medal (df : list Appearance) :
  sum (map snd (athlete_medals_dict df)) = count has_medal df
  /\ forall noc c a y,
       dict_get (athlete_medals_dict df) (noc, c, a, Some y)
       = count (fun r => String.eqb (NOC r) noc && String.eqb (code r) c
                         && String.eqb (Name r) a && year_eqb (Year r) (Some y)
                         && has_medal r) df.
Proof.
  split.
  - change (athlete_medals_dict df) with (fold_left dict_step df []).
    now rewrite dict_fold_sum.
  - intros noc c a y. apply athlete_medals_dict_get.
Qed.

(** ** Row order of the output *)


Lemma string_ltb_lt (a b : string) :
  String.ltb a b = true <-> OrderedTypeEx.String_as_OT.lt a b.
Proof.
  rewrite <- OrderedTypeEx.String_as_OT.cmp_lt.
  unfold String.ltb, OrderedTypeEx.String_as_OT.cmp.
  destruct (String.compare a b); split; intros; congruence.
Qed.

Lemma string_ltb_irrefl (a : string) : String.ltb a a = false.
Proof.
  pose proof (proj2 (OrderedTypeEx.String_as_OT.cmp_eq a a) eq_refl) as H.
  unfold OrderedTypeEx.String_as_OT.cmp in H. unfold String.ltb. now rewrite H.
Qed.

Lemma string_ltb_trans (a b c : string) :
  String.ltb a b = true -> String.ltb b c = true -> String.ltb a c = true.
Proof.
  rewrite !string_ltb_lt. apply OrderedTypeEx.String_as_OT.lt_trans.
Qed.

Lemma string_ltb_total (a b : string) :
  String.ltb a b = false -> String.ltb b a = false -> a = b.
Proof.
  unfold String.ltb. rewrite (String.compare_antisym b a).
  destruct (String.compare a b) eqn:E; simpl; try discriminate.
  intros _ _. now apply String.compare_eq_iff.
Qed.

Lemma key3_ltb_true (y1 y2 : Z) (n1 n2 c1 c2 : string) :
  key3_ltb (y1, n1, c1) (y2, n2, c2) = true
  <-> (y1 < y2)%Z
      \/ (y1 = y2 /\ (String.ltb n1 n2 = true
                      \/ (n1 = n2 /\ String.ltb c1 c2 = true))).
Proof.
  unfold key3_ltb.
  destruct (Z.ltb_spec y1 y2) as [L|L]; [split; auto|].
  destruct (Z.ltb_spec y2 y1) as [L'|L'];
    [split; [discriminate | intros [H|[H _]]; lia]|].
  assert (y1 = y2) by lia. subst.
  destruct (String.ltb n1 n2) eqn:E1; [split; auto|].
  destruct (String.ltb n2 n1) eqn:E2.
  - split; [discriminate|]. intros [H|[_ [H|[-> _]]]]; [lia | discriminate|].
    rewrite string_ltb_irrefl in E2. discriminate.
  - rewrite (string_ltb_total n1 n2 E1 E2). split.
    + intros H. right. split; [reflexivity|]. right. now split.
    + intros [H|[_ [H|[_ H]]]]; [lia | discriminate | exact H].
Qed.

Lemma key3_ltb_irrefl (a : key3) : key3_ltb a a = false.
Proof.
  destruct a as [[y n] c]. apply not_true_is_false. rewrite key3_ltb_true.
  intros [H|[_ [H|[_ H]]]]; [lia | |]; rewrite string_ltb_irrefl in H; discriminate.
Qed.

Lemma key3_ltb_trans (a b c : key3) :
  key3_ltb a b = true -> key3_ltb b c = true -> key3_ltb a c = true.
Proof.
  destruct a as [[y1 n1] c1], b as [[y2 n2] c2], c as [[y3 n3] c3].
  rewrite !key3_ltb_true.
  intros [H1|[-> [H1|[-> H1]]]] [H2|[-> [H2|[-> H2]]]]; try (left; lia); right;
    (split; [reflexivity|]); auto.
  - left. now apply (string_ltb_trans n1 n2 n3).
  - right. split; [reflexivity|]. now apply (string_ltb_trans c1 c2 c3).
Qed.

Lemma key3_ltb_total (a b : key3) :
  key3_ltb a b = false -> key3_ltb b a = false -> a = b.
Proof.
  destruct a as [[y1 n1] c1], b as [[y2 n2] c2]. intros H1 H2.
  apply not_true_iff_false in H1, H2. rewrite key3_ltb_true in H1, H2.
  assert (y1 = y2) by lia. subst.
  assert (N : n1 = n2).
  { apply string_ltb_total; apply not_true_is_false; intros H; [apply H1 | apply H2]; auto. }
  subst. f_equal.
  apply string_ltb_total; apply not_true_is_false; intros H; [apply H1 | apply H2]; auto.
Qed.

(** X11: the output rows come in strictly ascending order of their key
    (year, then NOC, then sport code): every row is below all the rows
    after it. *)
Theorem output_rows_in_key_order (df : list Appearance) :
  StronglySorted (fun f1 f2 => key3_ltb (feature_key f1) (feature_key f2) = true)
                 (process_data df).
Proof.
  rewrite process_data_eq.
  assert (S : StronglySorted (fun a b => key3_ltb a b = true) (group_keys3 df)).
  { apply (ordered_NoDup_strict key3_ltb key3_ltb_total); [apply group_keys3_NoDup|].
    apply (sorted_keeps_order key3_ltb key3_ltb_irrefl key3_ltb_trans key3_ltb_total). }
  induction S as [|k t S IH F]; [constructor|].
  rewrite map_cons. constructor; [exact IH|].
  apply Forall_forall. intros f Hf. apply in_map_iff in Hf. destruct Hf as (k' & <- & Hk').
  rewrite !row_of_key. rewrite Forall_forall in F. now apply F.
Qed.

(** ** [calculate_star_athletes] *)

Lemma year_same_true (a b : option Z) : year_same a b = true <-> a = b.
Proof. unfold year_same. destruct (year_dec a b); split; congruence. Qed.

Lemma index_same_found (y : option Z) (l : list (option Z)) :
  In y l -> exists i, index year_same y l = Some i.
Proof.
  induction l as [|h t IH]; intros H; [destruct H|]. simpl.
  destruct (year_same h y) eqn:E; [eauto|].
  destruct H as [->|H].
  - rewrite (proj2 (year_same_true y y) eq_refl) in E. discriminate.
  - destruct (IH H) as (i & ->). eauto.
Qed.

Lemma index_same_last (l : list (option Z)) :
  NoDup l -> l <> [] ->
  index year_same (last l None) l = Some (List.length l - 1).
Proof.
  induction l as [|h t IH]; intros ND N; [congruence|].
  inversion ND as [|? ? Hn ND']; subst.
  destruct t as [|h' t'].
  - simpl. now rewrite (proj2 (year_same_true h h) eq_refl).
  - change (last (h :: h' :: t') None) with (last (h' :: t') None).
    change (index year_same (last (h' :: t') None) (h :: h' :: t'))
      with (if year_same h (last (h' :: t') None) then Some 0
            else match index year_same (last (h' :: t') None) (h' :: t') with
                 | Some i => Some (S i)
                 | None => None
                 end).
    destruct (year_same h (last (h' :: t') None)) eqn:E.
    + apply year_same_true in E. exfalso. apply Hn. rewrite E.
      apply last_In. discriminate.
    + rewrite (IH ND') by discriminate. simpl. f_equal. lia.
Qed.

Lemma last_skipn2 {A : Type} (l : list A) (d : A) :
  3 <= List.length l -> skipn 2 l <> [] /\ last (skipn 2 l) d = last l d.
Proof.
  destruct l as [|a [|b [|c t]]]; simpl; try lia. intros _. split; [discriminate | reflexivity].
Qed.

Lemma skipn_In {A : Type} (n : nat) (l : list A) (x : A) : In x (skipn n l) -> In x l.
Proof.
  revert l. induction n as [|n IH]; intros l H; [exact H|].
  destruct l as [|h t]; [destruct H|]. right. now apply IH.
Qed.

Lemma star_turn_total (group : list Appearance) (years : list (option Z))
      (y : option Z) :
  In y years -> exists r, star_turn group years y = Some r.
Proof.
  intros H. unfold star_turn. destruct (index_same_found y years H) as (i & ->). eauto.
Qed.

Lemma star_turns_last (group : list Appearance) (years todo : list (option Z)) :
  todo <> [] -> (forall y, In y todo -> In y years) ->
  exists rs, star_turns group years todo = Some rs /\ rs <> []
             /\ star_turn group years (last todo None) = Some (last rs (0, 0)).
Proof.
  induction todo as [|y t IH]; intros N H; [congruence|].
  destruct (star_turn_total group years y (H y (or_introl eq_refl))) as (r & Hr).
  destruct t as [|y' t'].
  - exists [r]. simpl. rewrite Hr.
    split; [reflexivity|]. split; [discriminate | reflexivity].
  - destruct IH as (rs & Hrs & Nrs & Hl); [discriminate | intros; apply H; now right|].
    exists (r :: rs).
    change (star_turns group years (y :: y' :: t'))
      with (match star_turn group years y with
            | None => None
            | Some r => match star_turns group years (y' :: t') with
                        | None => None
                        | Some rs => Some (r :: rs)
                        end
            end).
    rewrite Hr, Hrs. split; [reflexivity|]. split; [discriminate|].
    change (last (y :: y' :: t') None) with (last (y' :: t') None).
    rewrite Hl. destruct rs; [congruence | reflexivity].
Qed.

(** X12: [calculate_star_athletes] never raises: every year the loop looks
    up with [years.index] is an entry of [years].  With fewer than 3
    entries in the year list of the group it returns 0 and 0. *)
Theorem star_athletes_never_raises (group : list Appearance) :
  (exists v, calculate_star_athletes group = Some v)
  /\ (List.length (py_sorted year_ltb (unique year_dec (map Year group))) < 3 ->
      calculate_star_athletes group = Some (0, 0)).
Proof.
  unfold calculate_star_athletes.
  set (years := py_sorted year_ltb (unique year_dec (map Year group))).
  destruct (Nat.ltb_spec (List.length years) 3) as [L|L].
  - split; eauto.
  - split; [|lia].
    destruct (last_skipn2 years None L) as [N _].
    destruct (star_turns_last group years (skipn 2 years) N) as (rs & -> & Nrs & _).
    + intros y. apply skipn_In.
    + destruct rs; [congruence | eauto].
Qed.

Lemma star_athletes_never_raises_witness :
  calculate_star_athletes (group_of sample "CHN" "ATH") = Some (0, 0).
Proof.
  apply (proj2 (star_athletes_never_raises (group_of sample "CHN" "ATH"))).
  vm_compute. lia.
Defined.

Lemma in_group2_eq (n c : string) (r : Appearance) :
  in_group2 (n, c) r = String.eqb (NOC r) n && String.eqb (code r) c.
Proof.
  unfold in_group2, row_key2. destruct (pair_dec (NOC r, code r) (n, c)) as [E|D].
  - inversion E; subst. now rewrite !String.eqb_refl.
  - destruct (String.eqb_spec (NOC r) n); [|reflexivity].
    destruct (String.eqb_spec (code r) c); [|reflexivity]. subst. congruence.
Qed.

Lemma count_filter {A : Type} (p q : A -> bool) (l : list A) :
  count p (filter q l) = count (fun x => q x && p x) l.
Proof.
  induction l as [|x t IH]; [reflexivity|]. simpl.
  destruct (q x) eqn:E; rewrite ?count_cons, IH; rewrite ?E; reflexivity.
Qed.

Lemma count_pos_intro {A : Type} (p : A -> bool) (l : list A) (x : A) :
  In x l -> p x = true -> 0 < count p l.
Proof.
  intros Hx Hp. unfold count.
  assert (H : In x (filter p l)) by (apply filter_In; now split).
  destruct (filter p l); [destruct H | simpl; lia].
Qed.

Lemma medals_in_group (df : list Appearance) (noc c : string) (y : option Z)
      (a : string) :
  medals_in df noc c y a
  = count (fun r => String.eqb (Name r) a && has_medal r)
          (filter (fun r => year_eqb (Year r) y) (group_of df noc c)).
Proof.
  unfold medals_in, group_of. rewrite !count_filter. apply count_ext. intros r.
  rewrite in_group2_eq.
  destruct (String.eqb (NOC r) noc), (String.eqb (code r) c),
    (String.eqb (Name r) a), (year_eqb (Year r) y), (has_medal r); reflexivity.
Qed.

Lemma medalists_iff (rows : list Appearance) (a : string) :
  In a (medalists rows)
  <-> 0 < count (fun r => String.eqb (Name r) a && has_medal r) rows.
Proof.
  unfold medalists. rewrite unique_In, in_map_iff. split.
  - intros (r & Hn & Hr). apply filter_In in Hr. destruct Hr as [Hr Hm].
    apply (count_pos_intro _ _ r Hr). rewrite Hm, andb_true_r. now apply String.eqb_eq.
  - intros H. apply count_pos in H. destruct H as (r & Hr & Hp).
    apply andb_true_iff in Hp. destruct Hp as [Hn Hm]. exists r.
    split; [now apply String.eqb_eq | apply filter_In; now split].
Qed.

Lemma medal_counts_by_name_eq (rows : list Appearance) :
  medal_counts_by_name rows
  = map (fun n => (n, count (fun r => String.eqb (Name r) n && has_medal r) rows))
        (sorted String.ltb (unique string_dec (map Name (filter has_medal rows)))).
Proof.
  unfold medal_counts_by_name, groupby_name. rewrite map_map. apply map_ext.
  intros n. simpl. f_equal.
  change (List.length (filter (fun r => String.eqb (Name r) n) (filter has_medal rows)))
    with (count (fun r => String.eqb (Name r) n) (filter has_medal rows)).
  rewrite count_filter. apply count_ext. intros r. apply andb_comm.
Qed.

(** The set intersection and the group sizes of one turn are the two
    counts over the distinct athletes of the pair. *)
Lemma star_turn_counts (df : list Appearance) (noc c : string)
      (last_year prev_year : option Z) :
  inter_size
    (medalists (filter (fun r => year_eqb (Year r) last_year) (group_of df noc c)))
    (medalists (filter (fun r => year_eqb (Year r) prev_year) (group_of df noc c)))
  = star_athletes df noc c last_year prev_year
  /\ count (fun e => 2 <=? snd e)
           (medal_counts_by_name
              (filter (fun r => year_eqb (Year r) last_year) (group_of df noc c)))
     = rising_stars df noc c last_year.
Proof.
  unfold inter_size, star_athletes, rising_stars. split.
  - apply count_NoDup_ext; [apply unique_NoDup | apply unique_NoDup|].
    intros a. rewrite mem_true, !medalists_iff, <- !medals_in_group.
    rewrite andb_true_iff, !Nat.ltb_lt. split.
    + intros [H1 H2]. split; [|now split]. eapply medalist_in_group; eassumption.
    + tauto.
  - rewrite medal_counts_by_name_eq, count_map. cbn [snd].
    rewrite (count_perm _ _ _ (sorted_perm String.ltb _)).
    apply count_NoDup_ext; [apply unique_NoDup | apply unique_NoDup|].
    intros a. rewrite <- medals_in_group. split; intros [H1 H2]; (split; [|exact H2]).
    + apply (medalist_in_group df noc c last_year). apply Nat.leb_le in H2. lia.
    + apply (medalists_iff _ a). rewrite <- medals_in_group.
      apply Nat.leb_le in H2. lia.
Qed.

(** With 3 entries or more the value returned is that of the turn of the
    last entry, which looks at the two entries before it. *)
Lemma calculate_star_athletes_last_turn (g : list Appearance) :
  3 <= List.length (py_sorted year_ltb (unique year_dec (map Year g))) ->
  calculate_star_athletes g
  = Some (inter_size
            (medalists
               (filter (fun r =>
                          year_eqb (Year r)
                            (nth (List.length (py_sorted year_ltb (unique year_dec (map Year g))) - 2)
                                 (py_sorted year_ltb (unique year_dec (map Year g))) None)) g))
            (medalists
               (filter (fun r =>
                          year_eqb (Year r)
                            (nth (List.length (py_sorted year_ltb (unique year_dec (map Year g))) - 3)
                                 (py_sorted year_ltb (unique year_dec (map Year g))) None)) g)),
          count (fun e => 2 <=? snd e)
                (medal_counts_by_name
                   (filter (fun r =>
                              year_eqb (Year r)
                                (nth (List.length (py_sorted year_ltb (unique year_dec (map Year g))) - 2)
                                     (py_sorted year_ltb (unique year_dec (map Year g))) None)) g))).
Proof.
  unfold calculate_star_athletes.
  set (years := py_sorted year_ltb (unique year_dec (map Year g))).
  intros L. destruct (Nat.ltb_spec (List.length years) 3) as [L'|_]; [lia|].
  destruct (last_skipn2 years None L) as [N E].
  destruct (star_turns_last g years (skipn 2 years) N) as (rs & -> & Nrs & Hl).
  { intros y. apply skipn_In. }
  rewrite E in Hl. unfold star_turn in Hl.
  rewrite index_same_last in Hl.
  - replace (List.length years - 1 - 1) with (List.length years - 2) in Hl by lia.
    replace (List.length years - 1 - 2) with (List.length years - 3) in Hl by lia.
    destruct rs; [congruence|]. now rewrite <- Hl.
  - apply py_sorted_NoDup, unique_NoDup.
  - intros E'. rewrite E' in L. simpl in L. lia.
Qed.

(** The same in the counts over the distinct athletes of the pair. *)
Lemma star_athletes_of_last_entries (df : list Appearance) (noc c : string) :
  3 <= List.length (py_sorted year_ltb (unique year_dec (map Year (group_of df noc c)))) ->
  calculate_star_athletes (group_of df noc c)
  = Some (star_athletes df noc c
            (nth (List.length (py_sorted year_ltb (unique year_dec
                                  (map Year (group_of df noc c)))) - 2)
                 (py_sorted year_ltb (unique year_dec (map Year (group_of df noc c)))) None)
            (nth (List.length (py_sorted year_ltb (unique year_dec
                                  (map Year (group_of df noc c)))) - 3)
                 (py_sorted year_ltb (unique year_dec (map Year (group_of df noc c)))) None),
          rising_stars df noc c
            (nth (List.length (py_sorted year_ltb (unique year_dec
                                  (map Year (group_of df noc c)))) - 2)
                 (py_sorted year_ltb (unique year_dec (map Year (group_of df noc c)))) None)).
Proof.
  intros L. rewrite (calculate_star_athletes_last_turn _ L).
  set (years := py_sorted year_ltb (unique year_dec (map Year (group_of df noc c)))).
  destruct (star_turn_counts df noc c (nth (List.length years - 2) years None)
              (nth (List.length years - 3) years None)) as [-> ->].
  reflexivity.
Qed.

Lemma nth_error_last {A : Type} (l : list A) (d : A) :
  l <> [] -> nth_error l (List.length l - 1) = Some (last l d).
Proof.
  induction l as [|h t IH]; intros N; [congruence|].
  destruct t as [|h' t']; [reflexivity|].
  change (last (h :: h' :: t') d) with (last (h' :: t') d).
  rewrite <- IH by discriminate. simpl. now rewrite Nat.sub_0_r.
Qed.

(** The greatest year of a group without missing years is the last entry
    of its ascending year list. *)
Lemma max_year_is_last (g : list Appearance) (m : Z) :
  is_max_year g m ->
  nth_error (sorted Z.ltb (distinct_years g))
            (List.length (sorted Z.ltb (distinct_years g)) - 1) = Some m.
Proof.
  intros [Hm Hle].
  assert (N : sorted Z.ltb (distinct_years g) <> []).
  { intros E. apply distinct_years_In, (sorted_In Z.ltb) in Hm. now rewrite E in Hm. }
  rewrite (nth_error_last _ 0%Z N). f_equal.
  apply sorted_last_max; [now apply distinct_years_In|].
  intros y Hy. now apply Hle, distinct_years_In.
Qed.

(** X13: on the rows of a (NOC, code) pair none of which lacks its Year,
    with two Games before the latest year [m] of the pair,
    [calculate_star_athletes] returns the counts of the last turn of its
    loop only: the distinct athletes with a medal at both of the two Games
    immediately before [m], and the distinct athletes with 2 medals or
    more at the Games just before [m]. *)
Theorem star_athletes_of_last_turn (df : list Appearance) (noc c : string)
        (m l p : Z) :
  forallb year_present (group_of df noc c) = true ->
  is_max_year (group_of df noc c) m ->
  two_games_before (group_of df noc c) m = Some (l, p) ->
  calculate_star_athletes (group_of df noc c)
  = Some (star_athletes df noc c (Some l) (Some p), rising_stars df noc c (Some l)).
Proof.
  intros Hp Hmax H2.
  pose proof (years_of_group _ Hp) as Y.
  pose proof (max_year_is_last _ m Hmax) as Hlast.
  pose proof (distinct_years_sorted (group_of df noc c)) as SS.
  set (ys := sorted Z.ltb (distinct_years (group_of df noc c))) in *.
  assert (M : forall x, In x (distinct_years (group_of df noc c)) <-> In x ys)
    by (intros x; unfold ys; now rewrite sorted_In).
  unfold two_games_before in H2.
  rewrite (latest_before_sorted _ ys m _ SS M Hlast) in H2.
  destruct (List.length ys - 1) as [|j] eqn:E1; [discriminate|].
  destruct (nth_error ys j) as [l'|] eqn:El; [|discriminate].
  rewrite (latest_before_sorted _ ys l' j SS M El) in H2.
  destruct j as [|j']; [discriminate|].
  destruct (nth_error ys j') as [p'|] eqn:Ep; [|discriminate].
  inversion H2; subst l' p'.
  rewrite star_athletes_of_last_entries by (rewrite Y, length_map; lia).
  rewrite Y, length_map.
  replace (List.length ys - 2) with (S j') by lia.
  replace (List.length ys - 3) with j' by lia.
  now rewrite (nth_map_Some ys (S j') l El), (nth_map_Some ys j' p Ep).
Qed.

Lemma star_athletes_of_last_turn_witness :
  calculate_star_athletes (group_of sample "USA" "ATH")
  = Some (star_athletes sample "USA" "ATH" (Some 2012%Z) (Some 2008%Z),
          rising_stars sample "USA" "ATH" (Some 2012%Z)).
Proof.
  apply (star_athletes_of_last_turn sample "USA" "ATH" 2016%Z 2012%Z 2008%Z).
  - reflexivity.
  - split; [vm_compute; tauto|]. intros y Hy. vm_compute in Hy.
    repeat (destruct Hy as [Hy|Hy]; [inversion Hy; lia|]). destruct Hy.
  - reflexivity.
Defined.

Lemma index_eqb_same (y : Z) (l : list (option Z)) :
  index year_eqb (Some y) l = index year_same (Some y) l.
Proof.
  induction l as [|h t IH]; [reflexivity|]. simpl. rewrite IH.
  replace (year_same h (Some y)) with (year_eqb h (Some y)); [reflexivity|].
  apply eq_true_iff_eq. now rewrite year_eqb_Some, year_same_true.
Qed.

(** When the year list of a pair is that of the frame, the output row of
    the last entry carries the two values [calculate_star_athletes]
    returns for the pair. *)
Lemma star_athletes_agree_on_year_list (df : list Appearance) (noc c : string)
      (y : Z) (f : Feature) :
  py_sorted year_ltb (unique year_dec (map Year (group_of df noc c))) = all_years df ->
  3 <= List.length (all_years df) ->
  last (all_years df) None = Some y ->
  In f (process_data df) -> feature_key f = (y, noc, c) ->
  calculate_star_athletes (group_of df noc c)
  = Some (star_athlete_count f, rising_star_count f).
Proof.
  intros Hy L Hl Hf Hk. rewrite process_data_eq in Hf. apply in_map_iff in Hf.
  destruct Hf as (k & <- & Hin). rewrite row_of_key in Hk. subst k.
  rewrite calculate_star_athletes_last_turn by (rewrite Hy; exact L). rewrite Hy.
  destruct (star_turn_counts df noc c
              (nth (List.length (all_years df) - 2) (all_years df) None)
              (nth (List.length (all_years df) - 3) (all_years df) None)) as [-> ->].
  destruct (lookback_of_row df (y, noc, c) Hin) as (i & Hi & _ & H2).
  cbn [fst snd] in Hi, H2. rewrite index_eqb_same, <- Hl in Hi.
  rewrite index_same_last in Hi.
  - injection Hi as <-. destruct H2 as [-> ->]; [lia|].
    replace (List.length (all_years df) - 1 - 1) with (List.length (all_years df) - 2) by lia.
    replace (List.length (all_years df) - 1 - 2) with (List.length (all_years df) - 3) by lia.
    reflexivity.
  - apply py_sorted_NoDup, unique_NoDup.
  - intros E. rewrite E in L. simpl in L. lia.
Qed.

Lemma group_of_all_dated (df : list Appearance) (noc c : string) :
  forallb year_present df = true -> forallb year_present (group_of df noc c) = true.
Proof.
  intros H. apply forallb_forall. intros r Hr. apply filter_In in Hr.
  rewrite forallb_forall in H. now apply H.
Qed.

Lemma group_years_in_frame (df : list Appearance) (noc c : string) (x : Z) :
  In x (distinct_years (group_of df noc c)) -> In x (distinct_years df).
Proof.
  rewrite !distinct_years_In, !in_map_iff. intros (r & Hr & Hi).
  apply filter_In in Hi. exists r. tauto.
Qed.

(** X14: in a frame in which no row lacks its Year and which has 3 Games or
    more, when a (NOC, code) pair took part in every Games of the frame,
    the star and rising counts of its output row of the latest year of the
    frame are the two values [calculate_star_athletes] returns for the
    pair: the set-based and the dict-based computations agree. *)
Theorem star_athletes_agree_with_output (df : list Appearance) (noc c : string)
        (y : Z) (f : Feature) :
  forallb year_present df = true ->
  (forall x, In x (distinct_years df) -> In x (distinct_years (group_of df noc c))) ->
  3 <= List.length (distinct_years df) ->
  is_max_year df y ->
  In f (process_data df) -> feature_key f = (y, noc, c) ->
  calculate_star_athletes (group_of df noc c)
  = Some (star_athlete_count f, rising_star_count f).
Proof.
  intros Hp Hall L Hmax Hf Hk.
  assert (E : sorted Z.ltb (distinct_years (group_of df noc c))
              = sorted Z.ltb (distinct_years df)).
  { apply (sorted_perm_eq Z.ltb zltb_irrefl zltb_trans zltb_total).
    - apply unique_NoDup.
    - apply NoDup_Permutation; try apply unique_NoDup.
      intros x. split; [apply group_years_in_frame | apply Hall]. }
  assert (Y : all_years df = map Some (sorted Z.ltb (distinct_years df)))
    by (unfold all_years; now apply years_of_group).
  apply (star_athletes_agree_on_year_list df noc c y f).
  - rewrite (years_of_group _ (group_of_all_dated df noc c Hp)), E. now symmetry.
  - now rewrite Y, length_map, sorted_length.
  - rewrite Y. pose proof (max_year_is_last df y Hmax) as Hlast.
    assert (N : sorted Z.ltb (distinct_years df) <> []).
    { intros E'. rewrite E' in Hlast. discriminate. }
    rewrite last_map_Some by exact N. f_equal.
    rewrite (nth_error_last _ 0%Z N) in Hlast. now inversion Hlast.
  - exact Hf.
  - exact Hk.
Qed.

Lemma star_athletes_agree_with_output_witness :
  calculate_star_athletes (group_of sample_three_games "USA" "ATH") = Some (1, 1).
Proof.
  apply (star_athletes_agree_with_output
           sample_three_games "USA" "ATH" 2012%Z
           (row_of sample_three_games (2012%Z, "USA"%string, "ATH"%string))).
  - reflexivity.
  - intros x Hx. vm_compute in Hx. vm_compute. exact Hx.
  - vm_compute. lia.
  - split; [vm_compute; tauto|]. intros y Hy. vm_compute in Hy.
    repeat (destruct Hy as [Hy|Hy]; [inversion Hy; lia|]). destruct Hy.
  - rewrite process_data_eq. apply in_map. vm_compute. tauto.
  - reflexivity.
Defined.

(** ** Rows without a Year *)

Lemma filter_swap {A : Type} (p q : A -> bool) (l : list A) :
  filter p (filter q l) = filter q (filter p l).
Proof.
  induction l as [|x t IH]; [reflexivity|]. simpl.
  destruct (p x) eqn:P, (q x) eqn:Q; simpl; rewrite ?P, ?Q, IH; reflexivity.
Qed.

Lemma filter_implied {A : Type} (p q : A -> bool) (l : list A) :
  (forall x, p x = true -> q x = true) -> filter p (filter q l) = filter p l.
Proof.
  intros H. induction l as [|x t IH]; [reflexivity|]. simpl.
  destruct (q x) eqn:Q; simpl; [now rewrite IH|].
  destruct (p x) eqn:P; [|exact IH]. rewrite (H x P) in Q. discriminate.
Qed.

Lemma year_eqb_present (r : Appearance) (y : Z) :
  year_eqb (Year r) (Some y) = true -> year_present r = true.
Proof. unfold year_present. destruct (Year r); [reflexivity | discriminate]. Qed.

Lemma in_group3_present (k : key3) (r : Appearance) :
  in_group3 k r = true -> year_present r = true.
Proof.
  unfold in_group3, row_key3, year_present. destruct (Year r); [reflexivity | discriminate].
Qed.

Lemma present_years_dated (g : list Appearance) :
  present (map Year (filter year_present g)) = present (map Year g).
Proof.
  induction g as [|r t IH]; [reflexivity|]. simpl. unfold year_present at 1.
  destruct (Year r) eqn:E; simpl; rewrite ?E, IH; reflexivity.
Qed.

Lemma host_keys_dated (q : option Z * string -> bool) (df : list Appearance) :
  (forall k, q k = true -> fst k <> None) ->
  existsb q (map (fun r => (Year r, NOC r))
                 (filter (fun r => Z.eqb (host r) 1) (filter year_present df)))
  = existsb q (map (fun r => (Year r, NOC r))
                   (filter (fun r => Z.eqb (host r) 1) df)).
Proof.
  intros H. induction df as [|r t IH]; [reflexivity|]. simpl.
  unfold year_present at 1. destruct (Year r) eqn:E; simpl.
  - destruct (Z.eqb (host r) 1); simpl; now rewrite IH.
  - destruct (Z.eqb (host r) 1); simpl; [|exact IH]. rewrite IH, E.
    destruct (q (None, NOC r)) eqn:Q; [|reflexivity].
    exfalso. now apply (H _ Q).
Qed.

Lemma host_flag_dated (df : list Appearance) (s : Stats) :
  is_host_of (host_dict (filter year_present df)) s = is_host_of (host_dict df) s.
Proof.
  unfold is_host_of, host_dict. rewrite host_keys_dated; [reflexivity|].
  intros k Hk. apply andb_true_iff in Hk. destruct Hk as [Hk _].
  destruct (fst k); [discriminate | discriminate Hk].
Qed.

Lemma count_dated (p : Appearance -> bool) (df : list Appearance) :
  (forall r, p r = true -> year_present r = true) ->
  count p (filter year_present df) = count p df.
Proof.
  intros H. rewrite count_filter. apply count_ext. intros r.
  destruct (p r) eqn:P; [now rewrite (H r P) | apply andb_false_r].
Qed.

Lemma span_dated (g : list Appearance) (a : string) :
  athlete_span (filter year_present g) a = athlete_span g a.
Proof.
  unfold athlete_span, rows_of_athlete, year_max, year_min.
  now rewrite filter_swap, present_years_dated.
Qed.

Lemma present_map_some {A B : Type} (f : A -> option B) (l : list A) :
  present (map f l)
  = present (map f (filter (fun a => match f a with Some _ => true | None => false end) l)).
Proof.
  induction l as [|x t IH]; [reflexivity|]. simpl.
  destruct (f x) eqn:E; simpl; rewrite ?E, IH; reflexivity.
Qed.

Lemma span_some_dated (g : list Appearance) (a : string) :
  athlete_span g a <> None -> In a (distinct_athletes (filter year_present g)).
Proof.
  unfold athlete_span. intros H.
  destruct (year_min (map Year (rows_of_athlete g a))) as [mn|] eqn:E;
    [|destruct (year_max _); congruence].
  apply year_min_Some in E. destruct E as [E _]. apply athlete_row_year in E.
  destruct E as (r & Hr & Hn & Hy). apply unique_In, in_map_iff. exists r.
  split; [exact Hn|]. apply filter_In. split; [exact Hr|].
  unfold year_present. now rewrite Hy.
Qed.

Lemma kept_spans_dated (g : list Appearance) :
  Permutation (kept_spans (filter year_present g)) (kept_spans g).
Proof.
  unfold kept_spans. apply filter_perm.
  rewrite (map_ext _ _ (span_dated g)).
  rewrite (present_map_some (athlete_span g) (distinct_athletes (filter year_present g))).
  rewrite (present_map_some (athlete_span g) (distinct_athletes g)).
  apply present_perm, Permutation_map, NoDup_Permutation.
  - apply NoDup_filter, unique_NoDup.
  - apply NoDup_filter, unique_NoDup.
  - intros a. rewrite !filter_In. split; intros [H1 H2]; (split; [|exact H2]).
    + apply unique_In, in_map_iff in H1. destruct H1 as (r & Hn & Hr).
      apply filter_In in Hr. apply unique_In, in_map_iff. exists r. tauto.
    + apply span_some_dated. destruct (athlete_span g a); congruence.
Qed.

Lemma mean_or_zero_perm (l l' : list Z) :
  Permutation l l' -> mean_or_zero l = mean_or_zero l'.
Proof.
  intros P. destruct l as [|x t], l' as [|x' t'].
  - reflexivity.
  - apply Permutation_nil in P. discriminate.
  - symmetry in P. apply Permutation_nil in P. discriminate.
  - unfold mean_or_zero. now rewrite (zsum_perm _ _ P), (Permutation_length P).
Qed.

Lemma career_length_dated (g : list Appearance) :
  calculate_career_length (filter year_present g) = calculate_career_length g.
Proof.
  assert (E : earliest_year (filter year_present g) = earliest_year g)
    by (unfold earliest_year, year_min; now rewrite present_years_dated).
  destruct (career_length_spec g) as [A B].
  destruct (career_length_spec (filter year_present g)) as [A' B'].
  rewrite E in A', B'.
  destruct (year_dec (earliest_year g) (Some 1896%Z)) as [H|H].
  - now rewrite (A H), (A' H).
  - rewrite (B H), (B' H). apply mean_or_zero_perm, kept_spans_dated.
Qed.

Lemma group_of_dated (df : list Appearance) (noc c : string) :
  group_of (filter year_present df) noc c = filter year_present (group_of df noc c).
Proof. unfold group_of. apply filter_swap. Qed.

Lemma counters_dated (df : list Appearance) (k : key3) :
  In k (group_keys3 df) ->
  counters (row_of (filter year_present df) k) = counters (row_of df k).
Proof.
  intros Hk.
  assert (Hk' : In k (group_keys3 (filter year_present df)))
    by now rewrite group_keys3_drop_missing.
  unfold counters. rewrite !row_of_key.
  assert (G : filter (in_group3 k) (filter year_present df) = filter (in_group3 k) df)
    by (apply filter_implied, in_group3_present).
  unfold row_of, row_of_with, feature_of_with, extend, stat_of. cbn [fst snd e_stats e_is_host
    e_year_total e_year_sport_total s_time s_noc s_code s_participation s_gold
    s_silver s_bronze s_events is_host year_total_participation
    year_sport_total_participation year_country_sport_participation
    sport_event_count actual_gold_count actual_silver_count actual_bronze_count
    avg_career_length option_map fillna].
  rewrite G, host_flag_dated.
  pose proof (year_total_found _ k Hk) as T. pose proof (year_total_found _ k Hk') as T'.
  pose proof (year_sport_sum_eq df k) as S.
  pose proof (year_sport_sum_eq (filter year_present df) k) as S'.
  unfold stat_of in S, S'. cbn [s_time] in T, T'. rewrite G in S'.
  rewrite T, T', S, S'. cbn [fillna].
  rewrite group_of_dated, career_length_dated.
  rewrite !count_dated; [reflexivity | |].
  - intros r H. apply andb_true_iff in H. destruct H as [H _].
    now apply (year_eqb_present r (fst (fst k))).
  - intros r. apply year_eqb_present.
Qed.

(** X15: removing the rows whose Year is missing changes neither the keys
    of the output nor, on any row, the host flag, the three participation
    figures, the event count, the three medal counts or the average career
    length. *)
Theorem missing_year_rows_leave_counters (df : list Appearance) :
  map counters (process_data (filter year_present df))
  = map counters (process_data df).
Proof.
  rewrite !process_data_eq, !map_map, group_keys3_drop_missing.
  apply map_ext_in. intros k Hk. now apply counters_dated.
Qed.

(** ** The order of the input rows *)


Lemma unique_perm {A : Type} (dec : forall x y : A, {x = y} + {x <> y})
      (l l' : list A) :
  Permutation l l' -> Permutation (unique dec l) (unique dec l').
Proof.
  intros P. apply NoDup_Permutation; try apply unique_NoDup.
  intros x. rewrite !unique_In. split; apply Permutation_in; [exact P | now symmetry].
Qed.

Lemma unique_length_perm {A : Type} (dec : forall x y : A, {x = y} + {x <> y})
      (l l' : list A) :
  Permutation l l' -> List.length (unique dec l) = List.length (unique dec l').
Proof. intros P. now apply Permutation_length, unique_perm. Qed.

Lemma existsb_perm {A : Type} (p : A -> bool) (l l' : list A) :
  Permutation l l' -> existsb p l = existsb p l'.
Proof.
  intros P. apply eq_true_iff_eq. rewrite !existsb_exists.
  split; intros (x & Hx & Hp); exists x; (split; [|exact Hp]).
  - now apply (Permutation_in _ P).
  - apply (Permutation_in x (Permutation_sym P)), Hx.
Qed.

Lemma forallb_perm {A : Type} (p : A -> bool) (l l' : list A) :
  Permutation l l' -> forallb p l = true -> forallb p l' = true.
Proof.
  intros P. rewrite !forallb_forall. intros H x Hx. apply H.
  apply (Permutation_in x (Permutation_sym P)), Hx.
Qed.


Lemma group_keys3_perm (df df' : list Appearance) :
  Permutation df df' -> group_keys3 df = group_keys3 df'.
Proof.
  intros P. unfold group_keys3.
  apply (sorted_perm_eq key3_ltb key3_ltb_irrefl key3_ltb_trans key3_ltb_total).
  - apply unique_NoDup.
  - now apply unique_perm, present_perm, Permutation_map.
Qed.

(** Without a missing year the year list of a frame does not depend on the
    order of its rows. *)
Lemma year_list_perm (g g' : list Appearance) :
  forallb year_present g = true -> Permutation g g' ->
  py_sorted year_ltb (unique year_dec (map Year g))
  = py_sorted year_ltb (unique year_dec (map Year g')).
Proof.
  intros H P. rewrite (years_of_group g H), (years_of_group g' (forallb_perm _ _ _ P H)).
  f_equal. unfold distinct_years.
  apply (sorted_perm_eq Z.ltb zltb_irrefl zltb_trans zltb_total).
  - apply unique_NoDup.
  - now apply unique_perm, present_perm, Permutation_map.
Qed.

Lemma stat_of_perm (df df' : list Appearance) (k : key3) :
  Permutation df df' -> stat_of df k = stat_of df' k.
Proof.
  intros P. unfold stat_of.
  pose proof (filter_perm (in_group3 k) _ _ P) as G.
  rewrite (Permutation_length G), !(count_perm _ _ _ G).
  now rewrite (unique_length_perm string_dec _ _ (Permutation_map Event G)).
Qed.

Lemma medals_in_perm (df df' : list Appearance) (noc c : string) (y : option Z)
      (a : string) :
  Permutation df df' -> medals_in df noc c y a = medals_in df' noc c y a.
Proof. intros P. unfold medals_in. now apply count_perm. Qed.

Lemma distinct_athletes_perm (g g' : list Appearance) :
  Permutation g g' -> Permutation (distinct_athletes g) (distinct_athletes g').
Proof. intros P. now apply unique_perm, Permutation_map. Qed.

Lemma lookback_spec_perm (df df' : list Appearance) (noc c : string)
      (last_year prev_year : option Z) :
  Permutation df df' ->
  star_athletes df noc c last_year prev_year = star_athletes df' noc c last_year prev_year
  /\ rising_stars df noc c last_year = rising_stars df' noc c last_year.
Proof.
  intros P. unfold star_athletes, rising_stars.
  pose proof (distinct_athletes_perm _ _ (filter_perm (in_group2 (noc, c)) _ _ P)) as D.
  fold (group_of df noc c) in D. fold (group_of df' noc c) in D.
  rewrite !(count_perm _ _ _ D). split; apply count_ext; intros a;
    now rewrite !(medals_in_perm df df' noc c _ a P).
Qed.

Lemma lookback_result_perm (df df' : list Appearance) (k : key3) :
  forallb year_present df = true -> Permutation df df' ->
  In k (group_keys3 df) ->
  lookback_result (all_years df) (athlete_medals_dict df) (stat_of df k)
  = lookback_result (all_years df') (athlete_medals_dict df') (stat_of df' k).
Proof.
  intros H P Hk.
  assert (Hk' : In k (group_keys3 df')) by now rewrite <- (group_keys3_perm df df' P).
  destruct (lookback_of_row df k Hk) as (i & Hi & H0 & H2).
  destruct (lookback_of_row df' k Hk') as (i' & Hi' & H0' & H2').
  assert (Y : all_years df = all_years df') by now apply year_list_perm.
  rewrite <- Y in Hi', H2'. rewrite Hi in Hi'. injection Hi' as <-.
  change (star_athlete_count (row_of df k))
    with (fst (lookback_result (all_years df) (athlete_medals_dict df) (stat_of df k)))
    in H0, H2.
  change (rising_star_count (row_of df k))
    with (snd (lookback_result (all_years df) (athlete_medals_dict df) (stat_of df k)))
    in H0, H2.
  change (star_athlete_count (row_of df' k))
    with (fst (lookback_result (all_years df') (athlete_medals_dict df') (stat_of df' k)))
    in H0', H2'.
  change (rising_star_count (row_of df' k))
    with (snd (lookback_result (all_years df') (athlete_medals_dict df') (stat_of df' k)))
    in H0', H2'.
  rewrite (surjective_pairing (lookback_result (all_years df) _ _)).
  rewrite (surjective_pairing (lookback_result (all_years df') _ _)).
  destruct (Nat.lt_ge_cases i 2) as [L|L].
  - destruct (H0 L) as [-> ->]. destruct (H0' L) as [-> ->]. reflexivity.
  - destruct (H2 L) as [-> ->]. destruct (H2' L) as [-> ->].
    destruct (lookback_spec_perm df df' (snd (fst k)) (snd k)
                (nth (i - 1) (all_years df) None) (nth (i - 2) (all_years df) None) P)
      as [-> ->].
    reflexivity.
Qed.

Lemma extend_perm (df df' : list Appearance) (k : key3) :
  forallb year_present df = true -> Permutation df df' ->
  In k (group_keys3 df) ->
  extend df (stat_of df k) = extend df' (stat_of df' k).
Proof.
  intros H P Hk.
  assert (Hk' : In k (group_keys3 df')) by now rewrite <- (group_keys3_perm df df' P).
  assert (E1 : series_get (year_participation df) (s_time (stat_of df k))
               = series_get (year_participation df') (s_time (stat_of df' k))).
  { change (s_time (stat_of df k)) with (fst (fst k)).
    change (s_time (stat_of df' k)) with (fst (fst k)).
    rewrite (year_total_found df k Hk), (year_total_found df' k Hk').
    f_equal. now apply count_perm. }
  assert (E2 : year_sport_sum (basic_stats df) (stat_of df k)
               = year_sport_sum (basic_stats df') (stat_of df' k)).
  { rewrite !year_sport_sum_eq. now apply count_perm. }
  assert (E3 : is_host_of (host_dict df) (stat_of df k)
               = is_host_of (host_dict df') (stat_of df' k)).
  { rewrite <- (stat_of_perm df df' k P). unfold is_host_of, host_dict.
    rewrite (existsb_perm _ _ _
               (Permutation_map (fun r => (Year r, NOC r))
                                (filter_perm (fun r => Z.eqb (host r) 1) _ _ P))).
    reflexivity. }
  unfold extend. cbv zeta.
  rewrite E1, E2, E3, (lookback_result_perm df df' k H P Hk), (stat_of_perm df df' k P).
  reflexivity.
Qed.

Lemma won_perm (m : string) (h h' : list Appearance) (a : string) :
  Permutation h h' -> won m h a = won m h' a.
Proof.
  intros P. unfold won, rows_of_athlete. now apply existsb_perm, filter_perm.
Qed.

Lemma best_counts_perm (h h' : list Appearance) :
  Permutation h h' ->
  count (best_is_gold h) (distinct_athletes h)
  = count (best_is_gold h') (distinct_athletes h')
  /\ count (best_is_silver h) (distinct_athletes h)
     = count (best_is_silver h') (distinct_athletes h')
  /\ count (best_is_bronze h) (distinct_athletes h)
     = count (best_is_bronze h') (distinct_athletes h').
Proof.
  intros P. rewrite !(count_perm _ _ _ (distinct_athletes_perm h h' P)).
  repeat split; apply count_ext; intros a;
    unfold best_is_gold, best_is_silver, best_is_bronze;
    now rewrite ?(won_perm "Gold" h h' a P), ?(won_perm "Silver" h h' a P),
      ?(won_perm "Bronze" h h' a P).
Qed.

Lemma rates_perm (g g' : list Appearance) :
  forallb year_present g = true -> Permutation g g' ->
  calculate_historical_rates g = calculate_historical_rates g'.
Proof.
  intros H P. unfold calculate_historical_rates, historical_rates_with. cbv zeta.
  rewrite <- (year_list_perm g g' H P).
  set (years := py_sorted year_ltb (unique year_dec (map Year g))).
  destruct (List.length years <? 2); [reflexivity|].
  pose proof (filter_perm (fun r => year_ltb (Year r) (last years None)) _ _ P) as PH.
  set (h := filter _ g) in *. set (h' := filter _ g') in *.
  rewrite <- (unique_length_perm string_dec _ _ (Permutation_map Name PH)).
  destruct (List.length (unique string_dec (map Name h)) =? 0); [reflexivity|].
  destruct (best_counts h) as (-> & -> & ->).
  destruct (best_counts h') as (-> & -> & ->).
  destruct (best_counts_perm h h' PH) as (-> & -> & ->). reflexivity.
Qed.

Lemma year_min_perm (l l' : list (option Z)) :
  Permutation l l' -> year_min l = year_min l'.
Proof.
  intros P. destruct (year_min l) as [m|] eqn:E; symmetry.
  - apply year_min_Some in E. destruct E as [E1 E2]. apply year_min_Some. split.
    + now apply (Permutation_in _ P).
    + intros y Hy. apply E2, (Permutation_in _ (Permutation_sym P)), Hy.
  - rewrite year_min_None in E. apply year_min_None. intros y Hy.
    apply (E y), (Permutation_in _ (Permutation_sym P)), Hy.
Qed.


Lemma year_max_None (l : list (option Z)) :
  year_max l = None <-> forall y, ~ In (Some y) l.
Proof.
  unfold year_max. destruct (present l) as [|x t] eqn:E.
  - split; [|reflexivity]. intros _ y Hy. apply present_In in Hy. now rewrite E in Hy.
  - split; [discriminate|]. intros H. exfalso. apply (H x), present_In. rewrite E. now left.
Qed.

Lemma year_max_Some (l : list (option Z)) (m : Z) :
  year_max l = Some m <->
  In (Some m) l /\ forall y, In (Some y) l -> (y <= m)%Z.
Proof.
  unfold year_max. destruct (present l) as [|x t] eqn:E.
  - split; [discriminate|]. intros [H _]. apply present_In in H. now rewrite E in H.
  - destruct (fold_max_spec t x) as [HI HL]. rewrite <- E in HI, HL. split.
    + intros H. inversion H; subst. split; [now apply present_In|].
      intros y Hy. apply HL. now apply present_In.
    + intros [H1 H2]. f_equal. apply Z.le_antisymm.
      * apply H2. now apply present_In.
      * apply HL. now apply present_In.
Qed.

Lemma year_max_perm (l l' : list (option Z)) :
  Permutation l l' -> year_max l = year_max l'.
Proof.
  intros P. destruct (year_max l) as [m|] eqn:E; symmetry.
  - apply year_max_Some in E. destruct E as [E1 E2]. apply year_max_Some. split.
    + now apply (Permutation_in _ P).
    + intros y Hy. apply E2, (Permutation_in _ (Permutation_sym P)), Hy.
  - rewrite year_max_None in E. apply year_max_None. intros y Hy.
    apply (E y), (Permutation_in _ (Permutation_sym P)), Hy.
Qed.

Lemma athlete_span_perm (g g' : list Appearance) (a : string) :
  Permutation g g' -> athlete_span g a = athlete_span g' a.
Proof.
  intros P. unfold athlete_span, rows_of_athlete.
  pose proof (Permutation_map Year (filter_perm (fun r => String.eqb (Name r) a) _ _ P)) as Q.
  now rewrite (year_max_perm _ _ Q), (year_min_perm _ _ Q).
Qed.

Lemma career_perm (g g' : list Appearance) :
  Permutation g g' -> calculate_career_length g = calculate_career_length g'.
Proof.
  intros P.
  assert (E : earliest_year g = earliest_year g')
    by (unfold earliest_year; now apply year_min_perm, Permutation_map).
  assert (K : Permutation (kept_spans g) (kept_spans g')).
  { unfold kept_spans. apply filter_perm, present_perm.
    rewrite (map_ext _ _ (fun a => athlete_span_perm g g' a P)).
    now apply Permutation_map, distinct_athletes_perm. }
  destruct (career_length_spec g) as [A B].
  destruct (career_length_spec g') as [A' B'].
  rewrite <- E in A', B'.
  destruct (year_dec (earliest_year g) (Some 1896%Z)) as [H|H].
  - now rewrite (A H), (A' H).
  - rewrite (B H), (B' H). now apply mean_or_zero_perm.
Qed.

Lemma row_of_perm (df df' : list Appearance) (k : key3) :
  forallb year_present df = true -> Permutation df df' ->
  In k (group_keys3 df) -> row_of df k = row_of df' k.
Proof.
  intros H P Hk. unfold row_of, row_of_with. cbv zeta.
  change (s_noc (stat_of df k)) with (snd (fst k)).
  change (s_code (stat_of df k)) with (snd k).
  change (s_noc (stat_of df' k)) with (snd (fst k)).
  change (s_code (stat_of df' k)) with (snd k).
  fold (calculate_historical_rates (group_of df (snd (fst k)) (snd k))).
  fold (calculate_historical_rates (group_of df' (snd (fst k)) (snd k))).
  fold (calculate_career_length (group_of df (snd (fst k)) (snd k))).
  fold (calculate_career_length (group_of df' (snd (fst k)) (snd k))).
  pose proof (filter_perm (in_group2 (snd (fst k), snd k)) _ _ P) as G.
  fold (group_of df (snd (fst k)) (snd k)) in G.
  fold (group_of df' (snd (fst k)) (snd k)) in G.
  rewrite (extend_perm df df' k H P Hk).
  rewrite (rates_perm _ _ (group_of_all_dated df _ _ H) G), (career_perm _ _ G).
  reflexivity.
Qed.

(** X16: on a frame in which no Year is missing the output does not depend
    on the order of the input rows. *)
Theorem output_independent_of_row_order (df df' : list Appearance) :
  forallb year_present df = true -> Permutation df df' ->
  process_data df = process_data df'.
Proof.
  intros H P. rewrite !process_data_eq, <- (group_keys3_perm df df' P).
  apply map_ext_in. intros k Hk. now apply row_of_perm.
Qed.

Lemma output_independent_of_row_order_witness :
  process_data sample_three_games = process_data (rev sample_three_games).
Proof.
  apply (output_independent_of_row_order sample_three_games).
  - reflexivity.
  - apply Permutation_rev.
Defined.

(** ** A pair seen at one Games only *)

Lemma single_year_span (g : list Appearance) (y : Z) (a : string) (d : Z) :
  (forall r z, In r g -> Year r = Some z -> z = y) ->
  athlete_span g a = Some d -> d = 0%Z.
Proof.
  intros H. unfold athlete_span.
  destruct (year_max (map Year (rows_of_athlete g a))) as [mx|] eqn:Emx; [|discriminate].
  destruct (year_min (map Year (rows_of_athlete g a))) as [mn|] eqn:Emn; [|discriminate].
  intros E. inversion E; subst.
  apply year_max_Some in Emx. destruct Emx as [Emx _].
  apply year_min_Some in Emn. destruct Emn as [Emn _].
  apply athlete_row_year in Emx, Emn.
  destruct Emx as (r1 & Hr1 & _ & Y1), Emn as (r2 & Hr2 & _ & Y2).
  rewrite (H r1 mx Hr1 Y1), (H r2 mn Hr2 Y2). lia.
Qed.

Lemma zsum_zero (l : list Z) : (forall d, In d l -> d = 0%Z) -> zsum l = 0%Z.
Proof.
  induction l as [|x t IH]; intros H; [reflexivity|]. simpl.
  rewrite (H x (or_introl eq_refl)), IH; [reflexivity|]. intros d Hd. apply H. now right.
Qed.

Lemma single_year_career (g : list Appearance) (y : Z) :
  (forall r z, In r g -> Year r = Some z -> z = y) ->
  (calculate_career_length g == 0)%Q.
Proof.
  intros H. destruct (career_length_spec g) as [A B].
  destruct (year_dec (earliest_year g) (Some 1896%Z)) as [E|E].
  - rewrite (A E). reflexivity.
  - rewrite (B E). unfold mean_or_zero.
    destruct (kept_spans g) as [|x t] eqn:K; [reflexivity|].
    rewrite zsum_zero; [unfold Qeq; simpl; lia|].
    intros d Hd. rewrite <- K in Hd. unfold kept_spans in Hd.
    apply filter_In in Hd. destruct Hd as [Hd _]. apply present_In, in_map_iff in Hd.
    destruct Hd as (a & Ha & _). now apply (single_year_span g y a d H).
Qed.

(** X17: when every dated row of the (NOC, code) pair of an output row is
    of one and the same year, the average career length of the row is 0. *)
Theorem single_games_pair_has_no_career (df : list Appearance) (f : Feature) (y : Z) :
  In f (process_data df) ->
  (forall r z, In r df -> NOC r = country_code f -> code r = sport_category_code f ->
               Year r = Some z -> z = y) ->
  (avg_career_length f == 0)%Q.
Proof.
  rewrite process_data_eq. intros Hf H. apply in_map_iff in Hf.
  destruct Hf as (k & <- & _). simpl in *. apply (single_year_career _ y).
  intros r z Hr Hy. apply filter_In in Hr. destruct Hr as [Hr Hg].
  rewrite in_group2_eq in Hg. apply andb_true_iff in Hg. destruct Hg as [Hn Hc].
  apply String.eqb_eq in Hn, Hc. now apply (H r z).
Qed.

Lemma single_games_pair_has_no_career_witness :
  let df := sample ++ [mkAppearance (Some 2008%Z) "CHN" "SWM" "50m" "D" None 0] in
  (avg_career_length (row_of df (2008%Z, "CHN"%string, "SWM"%string)) == 0)%Q.
Proof.
  intros df.
  apply (single_games_pair_has_no_career
           df (row_of df (2008%Z, "CHN"%string, "SWM"%string)) 2008%Z).
  - rewrite process_data_eq. apply in_map. vm_compute. tauto.
  - intros r z Hr Hn Hc Hy. unfold df in Hr. simpl in Hr.
    repeat (destruct Hr as [<-|Hr]; [try discriminate; simpl in Hy; congruence|]).
    destruct Hr.
Defined.
